(** * stellar-etl: the operation transformer ([internal/transform/operation.go])

    A shallow embedding of [TransformOperation] and the helpers it calls,
    followed by the properties of the transformer that the design document
    states.

    Conventions of the embedding.
    - Go integers are [Z]; where the source converts between widths the
      wrap-around is written out ([int32_of]).
    - A Go slice is [option (list A)]: [None] is the nil slice, [Some nil] the
      empty, allocated one. [append] allocates on a nil slice as Go does.
    - A Go function returning [(T, error)] returns [exec (T * option error)]:
      [Done (v, None)] is [return v, nil], [Done (z, Some e)] is
      [return z, e], and [Panics p] is a run-time panic (index out of range,
      a [Must...] accessor on the wrong arm, [Address()] on an unrenderable
      key).
    - Functions that mutate a [*Details] take the record and return the
      updated one.
    - The XDR library ([github.com/stellar/go/xdr]) and the Go runtime
      functions the transformer calls are the fields of the classes
      [xdr.Lib] and [GoRuntime]. *)

From Stdlib Require Import ZArith List String Ascii Bool Lia QArith SpecFloat.
From Stdlib Require Import Strings.Byte DecimalString.
Import ListNotations.

Local Open Scope string_scope.
Local Open Scope list_scope.
Local Open Scope Z_scope.

(** ** Go values *)

Definition slice (A : Type) : Type := option (list A).

Definition append {A : Type} (s : slice A) (x : A) : slice A :=
  match s with
  | None => Some [x]
  | Some l => Some (l ++ [x])
  end.

(** [make([]T, 0)] *)
Definition make_empty {A : Type} : slice A := Some [].

Definition is_nil {A : Type} (s : slice A) : bool :=
  match s with None => true | Some _ => false end.

(** The elements of a slice; a nil slice has none. *)
Definition elems {A : Type} (s : slice A) : list A :=
  match s with None => [] | Some l => l end.

(** Conversion of an integer to [int32] (two's complement). *)
Definition int32_of (z : Z) : Z := (z + 2 ^ 31) mod 2 ^ 32 - 2 ^ 31.

(** Conversion of an integer to [int64]. *)
Definition int64_of (z : Z) : Z := (z + 2 ^ 63) mod 2 ^ 64 - 2 ^ 63.

(** The errors the transformer builds, one constructor per message of the
    source; an error that comes back from a library call is passed on as it
    is. *)
Inductive error : Type :=
| AddressDecodeError
    (* utils.GetAccountAddressFromMuxedAccount *)
| ErrForOperation (operationIndex operationID : Z) (cause : error)
    (* "for operation %d (ledger id=%d): %v" *)
| NegativeTypeError (operationType operationIndex operationID : Z)
    (* "The operation type (%d) is negative for  operation %d (operation id=%d)" *)
| MissingResults
    (* "Could not access any results for this transaction" *)
| SchemaMismatch (info : string) (operationIndex : Z)
    (* "Could not access <info> info for this operation (index %d)" *)
| MissingResultBody (operationIndex : Z)
    (* "Could not access result body for this operation (index %d)" *)
| MissingResultInfo (info : string) (operationIndex : Z)
    (* "Could not access <info> result info for this operation (index %d)" *)
| UnsupportedOperationType (operationType : Z)
    (* "Unknown operation type: %s" *)
| MalformedBalanceId (operationIndex : Z)
    (* "Invalid balanceId in op: %d" *)
| MalformedLedgerKey (cause : error)
    (* errors.Wrapf(err, "in claimable balance") *)
| SponsorAddressError (operationIndex : Z)
    (* "Cannot get Sponsoring Address this operation (index %d)" *)
| AssetExtractError
    (* returned by xdr.Asset.Extract *)
| MarshalHexError
    (* returned by xdr.MarshalHex *)
| ParseFloatError.
    (* returned by strconv.ParseFloat *)

Inductive panic : Type :=
| IndexOutOfRange (indexed : string) (i len : Z)
    (* runtime error: index out of range [i] with length len *)
| ArmNotSet (arm : string)
    (* a Must... accessor of a union whose arm is another one *)
| AddressPanic.
    (* Address() of a key that GetAddress cannot render *)

Inductive exec (A : Type) : Type :=
| Done (a : A)
| Panics (p : panic).
Arguments Done {A} a.
Arguments Panics {A} p.

Definition bind {A B : Type} (m : exec A) (k : A -> exec B) : exec B :=
  match m with
  | Done a => k a
  | Panics p => Panics p
  end.

(** The zero value of a Go type. *)
Class Zero (A : Type) : Type := zero : A.

#[export] Instance Zero_string : Zero string := "".
#[export] Instance Zero_Z : Zero Z := 0.

Definition result (A : Type) : Type := exec (A * option error).

(** [return v, nil] *)
Definition ok {A : Type} (v : A) : result A := Done (v, None).

(** [return T{}, err] *)
Definition fail {A : Type} `{Zero A} (e : error) : result A :=
  Done (zero, Some e).

(** [v, err := m; if err != nil { return T{}, err }; k v] *)
Definition check {A B : Type} `{Zero B}
  (m : result A) (k : A -> result B) : result B :=
  bind m (fun r =>
    match r with
    | (_, Some e) => fail e
    | (v, None) => k v
    end).

(** [s[i]] with Go's bounds check. *)
Definition index {A : Type} (name : string) (s : list A) (i : Z) : exec A :=
  if (0 <=? i) && (i <? Z.of_nat (List.length s)) then
    match nth_error s (Z.to_nat i) with
    | Some x => Done x
    | None => Panics (IndexOutOfRange name i (Z.of_nat (List.length s)))
    end
  else Panics (IndexOutOfRange name i (Z.of_nat (List.length s))).

Declare Scope go_scope.
Delimit Scope go_scope with go.
Notation "x <- m ;; k" := (bind m (fun x => k))
  (at level 61, m at next level, right associativity) : go_scope.
Notation "x <-? m ;; k" := (check m (fun x => k))
  (at level 61, m at next level, right associativity) : go_scope.
Local Open Scope go_scope.

(** A [float64] is an IEEE 754 binary64 value. *)
Definition float64 : Type := spec_float.

#[export] Instance Zero_float64 : Zero float64 := S754_zero false.

(** ** The Go runtime and library functions used by the transformer *)

Class GoRuntime : Type := {
  (** [base64.StdEncoding.EncodeToString] *)
  base64_EncodeToString : list byte -> string;
  (** [strconv.ParseFloat(s, 64)]; [None] when it returns an error *)
  strconv_ParseFloat : string -> option float64;
  (** [amount.String] of [github.com/stellar/go/amount] *)
  amount_String : Z -> string;
}.

(** [fmt.Sprintf("%d", n)] *)
Definition Sprintf_d (n : Z) : string :=
  NilZero.string_of_int (Z.to_int n).

(** ** Package [xdr]

    The decoded ledger structures the transformer reads. A union of the XDR
    library is an inductive type; its discriminant is computed from the
    constructor. Field names carry the name of their struct. What the library
    computes (address rendering, asset extraction, hex marshalling, result
    accessors) is a field of [Lib], typed after the Go signature: a value,
    or an optional value for a function that also returns an error. The
    panics of [Address()] and of the [Must...] accessors are modelled; a
    panic raised inside another library function is not, so such a function
    is taken to return on the inputs it is given. *)
Module xdr.

Record Price : Type := { Price_N : Z; Price_D : Z }.

Class Lib : Type := {
  AccountId : Type;
  MuxedAccount : Type;
  Asset : Type;
  AssetCode : Type;
  ClaimableBalanceId : Type;
  SignerKey : Type;
  ClaimPredicate : Type;
  PathPaymentStrictReceiveResult : Type;
  PathPaymentStrictSendResult : Type;
  (** [MuxedAccount.ToAccountId] *)
  MuxedAccount_ToAccountId : MuxedAccount -> AccountId;
  (** [AccountId.GetAddress]; [None] when it returns an error *)
  AccountId_GetAddress : AccountId -> option string;
  (** [SignerKey.GetAddress] *)
  SignerKey_GetAddress : SignerKey -> option string;
  (** the [Type] field of an asset *)
  Asset_Type : Asset -> Z;
  (** [Asset.Extract(&assetType, &code, &issuer)]: the three strings it
      writes, or [None] when it returns an error *)
  Asset_Extract : Asset -> option (string * string * string);
  (** [Asset.StringCanonical] *)
  Asset_StringCanonical : Asset -> string;
  (** [AssetCode.ToAsset(issuer)] *)
  AssetCode_ToAsset : AssetCode -> AccountId -> Asset;
  (** [xdr.MarshalHex] of a claimable balance id *)
  MarshalHex : ClaimableBalanceId -> option string;
  (** [PathPaymentStrictReceiveResult.SendAmount] *)
  PathPaymentStrictReceiveResult_SendAmount :
    PathPaymentStrictReceiveResult -> Z;
  (** [PathPaymentStrictSendResult.DestAmount] *)
  PathPaymentStrictSendResult_DestAmount : PathPaymentStrictSendResult -> Z;
  (** [Price.String], taken to return a string for every price *)
  Price_String : Price -> string;
}.

(** Enumeration values of the XDR schema. *)
Abbreviation AssetTypeAssetTypeNative := 0%Z (only parsing).

Abbreviation AccountFlagsAuthRequiredFlag := 1%Z (only parsing).
Abbreviation AccountFlagsAuthRevocableFlag := 2%Z (only parsing).
Abbreviation AccountFlagsAuthImmutableFlag := 4%Z (only parsing).

Abbreviation TrustLineFlagsAuthorizedFlag := 1%Z (only parsing).
Abbreviation TrustLineFlagsAuthorizedToMaintainLiabilitiesFlag := 2%Z
  (only parsing).
Abbreviation TrustLineFlagsTrustlineClawbackEnabledFlag := 4%Z (only parsing).

Abbreviation OperationTypeCreateAccount := 0%Z (only parsing).
Abbreviation OperationTypePayment := 1%Z (only parsing).
Abbreviation OperationTypePathPaymentStrictReceive := 2%Z (only parsing).
Abbreviation OperationTypeManageSellOffer := 3%Z (only parsing).
Abbreviation OperationTypeCreatePassiveSellOffer := 4%Z (only parsing).
Abbreviation OperationTypeSetOptions := 5%Z (only parsing).
Abbreviation OperationTypeChangeTrust := 6%Z (only parsing).
Abbreviation OperationTypeAllowTrust := 7%Z (only parsing).
Abbreviation OperationTypeAccountMerge := 8%Z (only parsing).
Abbreviation OperationTypeInflation := 9%Z (only parsing).
Abbreviation OperationTypeManageData := 10%Z (only parsing).
Abbreviation OperationTypeBumpSequence := 11%Z (only parsing).
Abbreviation OperationTypeManageBuyOffer := 12%Z (only parsing).
Abbreviation OperationTypePathPaymentStrictSend := 13%Z (only parsing).
Abbreviation OperationTypeCreateClaimableBalance := 14%Z (only parsing).
Abbreviation OperationTypeClaimClaimableBalance := 15%Z (only parsing).
Abbreviation OperationTypeBeginSponsoringFutureReserves := 16%Z (only parsing).
Abbreviation OperationTypeEndSponsoringFutureReserves := 17%Z (only parsing).
Abbreviation OperationTypeRevokeSponsorship := 18%Z (only parsing).
Abbreviation OperationTypeClawback := 19%Z (only parsing).
Abbreviation OperationTypeClawbackClaimableBalance := 20%Z (only parsing).
Abbreviation OperationTypeSetTrustLineFlags := 21%Z (only parsing).

(** [TrustLineFlags] is an [int32]; its three predicates test one bit. *)
Definition TrustLineFlags (v : Z) : Z := int32_of v.

Definition IsAuthorized (e : Z) : bool :=
  negb (Z.land e TrustLineFlagsAuthorizedFlag =? 0).

Definition IsAuthorizedToMaintainLiabilitiesFlag (e : Z) : bool :=
  negb (Z.land e TrustLineFlagsAuthorizedToMaintainLiabilitiesFlag =? 0).

Definition IsClawbackEnabledFlag (e : Z) : bool :=
  negb (Z.land e TrustLineFlagsTrustlineClawbackEnabledFlag =? 0).

Section Structures.
Context {L : Lib}.

(** [AccountId.Address]: panics where [GetAddress] fails. *)
Definition AccountId_Address (a : AccountId) : exec string :=
  match AccountId_GetAddress a with
  | Some s => Done s
  | None => Panics AddressPanic
  end.

Definition SignerKey_Address (k : SignerKey) : exec string :=
  match SignerKey_GetAddress k with
  | Some s => Done s
  | None => Panics AddressPanic
  end.

Record CreateAccountOp : Type := {
  CreateAccountOp_Destination : AccountId;
  CreateAccountOp_StartingBalance : Z }.

Record PaymentOp : Type := {
  PaymentOp_Destination : MuxedAccount;
  PaymentOp_Asset : Asset;
  PaymentOp_Amount : Z }.

Record PathPaymentStrictReceiveOp : Type := {
  PathPaymentStrictReceiveOp_SendAsset : Asset;
  PathPaymentStrictReceiveOp_SendMax : Z;
  PathPaymentStrictReceiveOp_Destination : MuxedAccount;
  PathPaymentStrictReceiveOp_DestAsset : Asset;
  PathPaymentStrictReceiveOp_DestAmount : Z;
  PathPaymentStrictReceiveOp_Path : list Asset }.

Record PathPaymentStrictSendOp : Type := {
  PathPaymentStrictSendOp_SendAsset : Asset;
  PathPaymentStrictSendOp_SendAmount : Z;
  PathPaymentStrictSendOp_Destination : MuxedAccount;
  PathPaymentStrictSendOp_DestAsset : Asset;
  PathPaymentStrictSendOp_DestMin : Z;
  PathPaymentStrictSendOp_Path : list Asset }.

Record ManageBuyOfferOp : Type := {
  ManageBuyOfferOp_Selling : Asset;
  ManageBuyOfferOp_Buying : Asset;
  ManageBuyOfferOp_BuyAmount : Z;
  ManageBuyOfferOp_Price : Price;
  ManageBuyOfferOp_OfferId : Z }.

Record ManageSellOfferOp : Type := {
  ManageSellOfferOp_Selling : Asset;
  ManageSellOfferOp_Buying : Asset;
  ManageSellOfferOp_Amount : Z;
  ManageSellOfferOp_Price : Price;
  ManageSellOfferOp_OfferId : Z }.

Record CreatePassiveSellOfferOp : Type := {
  CreatePassiveSellOfferOp_Selling : Asset;
  CreatePassiveSellOfferOp_Buying : Asset;
  CreatePassiveSellOfferOp_Amount : Z;
  CreatePassiveSellOfferOp_Price : Price }.

Record Signer : Type := {
  Signer_Key : SignerKey;
  Signer_Weight : Z }.

(** Optional fields are pointers in Go: [None] is the nil pointer. *)
Record SetOptionsOp : Type := {
  SetOptionsOp_InflationDest : option AccountId;
  SetOptionsOp_ClearFlags : option Z;
  SetOptionsOp_SetFlags : option Z;
  SetOptionsOp_MasterWeight : option Z;
  SetOptionsOp_LowThreshold : option Z;
  SetOptionsOp_MedThreshold : option Z;
  SetOptionsOp_HighThreshold : option Z;
  SetOptionsOp_HomeDomain : option string;
  SetOptionsOp_Signer : option Signer }.

Record ChangeTrustOp : Type := {
  ChangeTrustOp_Line : Asset;
  ChangeTrustOp_Limit : Z }.

Record AllowTrustOp : Type := {
  AllowTrustOp_Trustor : AccountId;
  AllowTrustOp_Asset : AssetCode;
  AllowTrustOp_Authorize : Z }.

Record ManageDataOp : Type := {
  ManageDataOp_DataName : string;
  ManageDataOp_DataValue : option (list byte) }.

Record BumpSequenceOp : Type := { BumpSequenceOp_BumpTo : Z }.

Record ClaimantV0 : Type := {
  ClaimantV0_Destination : AccountId;
  ClaimantV0_Predicate : ClaimPredicate }.

Inductive Claimant : Type :=
| ClaimantTypeV0 (v0 : ClaimantV0)
| ClaimantOther (t : Z).

Definition Claimant_MustV0 (c : Claimant) : exec ClaimantV0 :=
  match c with
  | ClaimantTypeV0 v0 => Done v0
  | ClaimantOther _ => Panics (ArmNotSet "V0")
  end.

Record CreateClaimableBalanceOp : Type := {
  CreateClaimableBalanceOp_Asset : Asset;
  CreateClaimableBalanceOp_Amount : Z;
  CreateClaimableBalanceOp_Claimants : list Claimant }.

Record ClaimClaimableBalanceOp : Type := {
  ClaimClaimableBalanceOp_BalanceId : ClaimableBalanceId }.

Record BeginSponsoringFutureReservesOp : Type := {
  BeginSponsoringFutureReservesOp_SponsoredId : AccountId }.

Inductive LedgerKey : Type :=
| LedgerEntryTypeAccount (AccountId_ : AccountId)
| LedgerEntryTypeTrustline (AccountId_ : AccountId) (Asset_ : Asset)
| LedgerEntryTypeOffer (SellerId : AccountId) (OfferId : Z)
| LedgerEntryTypeData (AccountId_ : AccountId) (DataName : string)
| LedgerEntryTypeClaimableBalance (BalanceId : ClaimableBalanceId)
| LedgerEntryTypeOther (t : Z).

Record RevokeSponsorshipOpSigner : Type := {
  RevokeSponsorshipOpSigner_AccountId : AccountId;
  RevokeSponsorshipOpSigner_SignerKey : SignerKey }.

Inductive RevokeSponsorshipOp : Type :=
| RevokeSponsorshipTypeRevokeSponsorshipLedgerEntry (LedgerKey_ : LedgerKey)
| RevokeSponsorshipTypeRevokeSponsorshipSigner
    (Signer_ : RevokeSponsorshipOpSigner)
| RevokeSponsorshipTypeOther (t : Z).

Record ClawbackOp : Type := {
  ClawbackOp_Asset : Asset;
  ClawbackOp_From : MuxedAccount;
  ClawbackOp_Amount : Z }.

Record ClawbackClaimableBalanceOp : Type := {
  ClawbackClaimableBalanceOp_BalanceId : ClaimableBalanceId }.

Record SetTrustLineFlagsOp : Type := {
  SetTrustLineFlagsOp_Trustor : AccountId;
  SetTrustLineFlagsOp_Asset : Asset;
  SetTrustLineFlagsOp_ClearFlags : Z;
  SetTrustLineFlagsOp_SetFlags : Z }.

(** The body of an operation. [BodyOther t] is a body whose discriminant is
    [t] and that holds none of the arms read below. *)
Inductive OperationBody : Type :=
| BodyCreateAccount (op : CreateAccountOp)
| BodyPayment (op : PaymentOp)
| BodyPathPaymentStrictReceive (op : PathPaymentStrictReceiveOp)
| BodyManageSellOffer (op : ManageSellOfferOp)
| BodyCreatePassiveSellOffer (op : CreatePassiveSellOfferOp)
| BodySetOptions (op : SetOptionsOp)
| BodyChangeTrust (op : ChangeTrustOp)
| BodyAllowTrust (op : AllowTrustOp)
| BodyAccountMerge (destination : MuxedAccount)
| BodyInflation
| BodyManageData (op : ManageDataOp)
| BodyBumpSequence (op : BumpSequenceOp)
| BodyManageBuyOffer (op : ManageBuyOfferOp)
| BodyPathPaymentStrictSend (op : PathPaymentStrictSendOp)
| BodyCreateClaimableBalance (op : CreateClaimableBalanceOp)
| BodyClaimClaimableBalance (op : ClaimClaimableBalanceOp)
| BodyBeginSponsoringFutureReserves (op : BeginSponsoringFutureReservesOp)
| BodyEndSponsoringFutureReserves
| BodyRevokeSponsorship (op : RevokeSponsorshipOp)
| BodyClawback (op : ClawbackOp)
| BodyClawbackClaimableBalance (op : ClawbackClaimableBalanceOp)
| BodySetTrustLineFlags (op : SetTrustLineFlagsOp)
| BodyOther (t : Z).

(** The [Type] field of a body (an [int32]). *)
Definition OperationBody_Type (u : OperationBody) : Z :=
  match u with
  | BodyCreateAccount _ => OperationTypeCreateAccount
  | BodyPayment _ => OperationTypePayment
  | BodyPathPaymentStrictReceive _ => OperationTypePathPaymentStrictReceive
  | BodyManageSellOffer _ => OperationTypeManageSellOffer
  | BodyCreatePassiveSellOffer _ => OperationTypeCreatePassiveSellOffer
  | BodySetOptions _ => OperationTypeSetOptions
  | BodyChangeTrust _ => OperationTypeChangeTrust
  | BodyAllowTrust _ => OperationTypeAllowTrust
  | BodyAccountMerge _ => OperationTypeAccountMerge
  | BodyInflation => OperationTypeInflation
  | BodyManageData _ => OperationTypeManageData
  | BodyBumpSequence _ => OperationTypeBumpSequence
  | BodyManageBuyOffer _ => OperationTypeManageBuyOffer
  | BodyPathPaymentStrictSend _ => OperationTypePathPaymentStrictSend
  | BodyCreateClaimableBalance _ => OperationTypeCreateClaimableBalance
  | BodyClaimClaimableBalance _ => OperationTypeClaimClaimableBalance
  | BodyBeginSponsoringFutureReserves _ =>
      OperationTypeBeginSponsoringFutureReserves
  | BodyEndSponsoringFutureReserves =>
      OperationTypeEndSponsoringFutureReserves
  | BodyRevokeSponsorship _ => OperationTypeRevokeSponsorship
  | BodyClawback _ => OperationTypeClawback
  | BodyClawbackClaimableBalance _ => OperationTypeClawbackClaimableBalance
  | BodySetTrustLineFlags _ => OperationTypeSetTrustLineFlags
  | BodyOther t => t
  end.

(** The [Get...] accessors return [(result, ok)]: [None] is [ok = false]. *)
Definition GetCreateAccountOp (u : OperationBody) : option CreateAccountOp :=
  match u with BodyCreateAccount op => Some op | _ => None end.
Definition GetPaymentOp (u : OperationBody) : option PaymentOp :=
  match u with BodyPayment op => Some op | _ => None end.
Definition GetPathPaymentStrictReceiveOp (u : OperationBody)
  : option PathPaymentStrictReceiveOp :=
  match u with BodyPathPaymentStrictReceive op => Some op | _ => None end.
Definition GetPathPaymentStrictSendOp (u : OperationBody)
  : option PathPaymentStrictSendOp :=
  match u with BodyPathPaymentStrictSend op => Some op | _ => None end.
Definition GetManageBuyOfferOp (u : OperationBody)
  : option ManageBuyOfferOp :=
  match u with BodyManageBuyOffer op => Some op | _ => None end.
Definition GetManageSellOfferOp (u : OperationBody)
  : option ManageSellOfferOp :=
  match u with BodyManageSellOffer op => Some op | _ => None end.
Definition GetCreatePassiveSellOfferOp (u : OperationBody)
  : option CreatePassiveSellOfferOp :=
  match u with BodyCreatePassiveSellOffer op => Some op | _ => None end.
Definition GetSetOptionsOp (u : OperationBody) : option SetOptionsOp :=
  match u with BodySetOptions op => Some op | _ => None end.
Definition GetChangeTrustOp (u : OperationBody) : option ChangeTrustOp :=
  match u with BodyChangeTrust op => Some op | _ => None end.
Definition GetAllowTrustOp (u : OperationBody) : option AllowTrustOp :=
  match u with BodyAllowTrust op => Some op | _ => None end.
Definition GetDestination (u : OperationBody) : option MuxedAccount :=
  match u with BodyAccountMerge d => Some d | _ => None end.
Definition GetManageDataOp (u : OperationBody) : option ManageDataOp :=
  match u with BodyManageData op => Some op | _ => None end.
Definition GetBumpSequenceOp (u : OperationBody) : option BumpSequenceOp :=
  match u with BodyBumpSequence op => Some op | _ => None end.
Definition GetBeginSponsoringFutureReservesOp (u : OperationBody)
  : option BeginSponsoringFutureReservesOp :=
  match u with
  | BodyBeginSponsoringFutureReserves op => Some op
  | _ => None
  end.

(** The [Must...] accessors panic on another arm. *)
Definition MustCreateClaimableBalanceOp (u : OperationBody)
  : exec CreateClaimableBalanceOp :=
  match u with
  | BodyCreateClaimableBalance op => Done op
  | _ => Panics (ArmNotSet "CreateClaimableBalanceOp")
  end.
Definition MustClaimClaimableBalanceOp (u : OperationBody)
  : exec ClaimClaimableBalanceOp :=
  match u with
  | BodyClaimClaimableBalance op => Done op
  | _ => Panics (ArmNotSet "ClaimClaimableBalanceOp")
  end.
Definition MustBeginSponsoringFutureReservesOp (u : OperationBody)
  : exec BeginSponsoringFutureReservesOp :=
  match u with
  | BodyBeginSponsoringFutureReserves op => Done op
  | _ => Panics (ArmNotSet "BeginSponsoringFutureReservesOp")
  end.
Definition MustRevokeSponsorshipOp (u : OperationBody)
  : exec RevokeSponsorshipOp :=
  match u with
  | BodyRevokeSponsorship op => Done op
  | _ => Panics (ArmNotSet "RevokeSponsorshipOp")
  end.
Definition MustClawbackOp (u : OperationBody) : exec ClawbackOp :=
  match u with
  | BodyClawback op => Done op
  | _ => Panics (ArmNotSet "ClawbackOp")
  end.
Definition MustClawbackClaimableBalanceOp (u : OperationBody)
  : exec ClawbackClaimableBalanceOp :=
  match u with
  | BodyClawbackClaimableBalance op => Done op
  | _ => Panics (ArmNotSet "ClawbackClaimableBalanceOp")
  end.
Definition MustSetTrustLineFlagsOp (u : OperationBody)
  : exec SetTrustLineFlagsOp :=
  match u with
  | BodySetTrustLineFlags op => Done op
  | _ => Panics (ArmNotSet "SetTrustLineFlagsOp")
  end.

Record Operation : Type := {
  Operation_SourceAccount : option MuxedAccount;
  Operation_Body : OperationBody }.

(** The result of one operation: the inner result ([opINNER]) with its body,
    or another result code. *)
Inductive OperationResultTr : Type :=
| TrPathPaymentStrictReceiveResult (r : PathPaymentStrictReceiveResult)
| TrPathPaymentStrictSendResult (r : PathPaymentStrictSendResult)
| TrOther (t : Z).

Inductive OperationResult : Type :=
| OperationResultCodeOpInner (tr : OperationResultTr)
| OperationResultCodeOther (code : Z).

Definition GetTr (r : OperationResult) : option OperationResultTr :=
  match r with
  | OperationResultCodeOpInner tr => Some tr
  | OperationResultCodeOther _ => None
  end.

Definition GetPathPaymentStrictReceiveResult (tr : OperationResultTr)
  : option PathPaymentStrictReceiveResult :=
  match tr with TrPathPaymentStrictReceiveResult r => Some r | _ => None end.

Definition GetPathPaymentStrictSendResult (tr : OperationResultTr)
  : option PathPaymentStrictSendResult :=
  match tr with TrPathPaymentStrictSendResult r => Some r | _ => None end.

(** A transaction envelope, as seen through its two accessors
    [SourceAccount()] and [Operations()]. *)
Record TransactionEnvelope : Type := {
  TransactionEnvelope_SourceAccount : MuxedAccount;
  TransactionEnvelope_Operations : list Operation }.

(** A transaction result pair, as seen through [Successful()] and
    [OperationResults()]; the latter returns [(results, ok)]. *)
Record TransactionResultPair : Type := {
  TransactionResultPair_Successful : bool;
  TransactionResultPair_OperationResults : option (list OperationResult) }.

End Structures.
End xdr.

(** ** Package [ingest] *)
Module ingest.

Record LedgerTransaction {L : xdr.Lib} : Type := {
  Index : Z;
  Envelope : xdr.TransactionEnvelope;
  Result : xdr.TransactionResultPair }.

End ingest.

(** ** Package [toid]

    Modelled from the spec: package [internal/toid] is not among the
    sources. Its identifier is "a 64-bit value packing (ledger_sequence,
    transaction_index_in_ledger, operation_index_in_tx + 1)" whose numeric
    order is the ledger application order, with operation order 0 kept for
    the transaction itself. *)
Module toid.

Abbreviation LedgerMask := (2 ^ 32 - 1)%Z (only parsing).
Abbreviation TransactionMask := (2 ^ 20 - 1)%Z (only parsing).
Abbreviation OperationMask := (2 ^ 12 - 1)%Z (only parsing).
Abbreviation LedgerShift := 32%Z (only parsing).
Abbreviation TransactionShift := 12%Z (only parsing).
Abbreviation OperationShift := 0%Z (only parsing).

(** Modelled from the spec: the three packed components. *)
Record ID : Type := {
  LedgerSequence : Z;
  TransactionOrder : Z;
  OperationOrder : Z }.

(** Modelled from the spec: [toid.New(ledger, tx, op)]. *)
Definition New (ledger tx op : Z) : ID :=
  {| LedgerSequence := ledger; TransactionOrder := tx; OperationOrder := op |}.

(** Modelled from the spec: [ID.ToInt64], the packing itself, the ledger
    sequence in the most significant position; the three fields take 32, 20
    and 12 bits, the layout of the total order id of the Stellar network. *)
Definition ToInt64 (id : ID) : Z :=
  let result := 0 in
  let result :=
    Z.lor result (Z.shiftl (Z.land (LedgerSequence id) LedgerMask) LedgerShift) in
  let result :=
    Z.lor result
      (Z.shiftl (Z.land (TransactionOrder id) TransactionMask)
         TransactionShift) in
  let result :=
    Z.lor result
      (Z.shiftl (Z.land (OperationOrder id) OperationMask) OperationShift) in
  int64_of result.

End toid.

(** ** Package [utils] *)
Module utils.

(** Modelled from the spec: package [internal/utils] is not among the
    sources. "Native amounts are integers scaled by 10^7 (stroops);
    converting to decimal divides by 10^7 using exact decimal/rational
    arithmetic": the result is the rational [input / 10^7]. *)
Definition ConvertStroopValueToReal (input : Z) : Q := input # 10000000.

(** Modelled from the spec: package [internal/utils] is not among the
    sources. The account "renders to its canonical address string", or the
    call fails with [AddressDecodeError]: the address of the account id
    underlying the muxed account. *)
Definition GetAccountAddressFromMuxedAccount {L : xdr.Lib}
  (account : xdr.MuxedAccount) : result string :=
  let providedID := xdr.MuxedAccount_ToAccountId account in
  match xdr.AccountId_GetAddress providedID with
  | Some address => ok address
  | None => fail AddressDecodeError
  end.

End utils.

(** ** Package [transform]: the output schema

    Modelled from the spec: the declarations of [schema.go] are not among the
    sources. [Details] is the "one sparse record type wide enough to hold the
    union of fields needed by any operation kind"; the records below have the
    fields that [operation.go] writes, with the types it writes them at.
    Amounts are the exact decimals of [utils.ConvertStroopValueToReal]. *)

(** [transform.Price] *)
Record PriceT : Type := { Numerator : Z; Denominator : Z }.

(** [transform.Path] *)
Record PathT : Type := {
  Path_AssetCode : string;
  Path_AssetIssuer : string;
  Path_AssetType : string }.

Record Claimant {L : xdr.Lib} : Type := {
  Claimant_Destination : string;
  Claimant_Predicate : xdr.ClaimPredicate }.

Definition Claimants {L : xdr.Lib} : Type := slice Claimant.

Record SponsorshipOutput {L : xdr.Lib} : Type := {
  SponsorshipOutput_Operation : xdr.Operation;
  SponsorshipOutput_OperationIndex : Z }.

Section Schema.
Context {L : xdr.Lib}.

Record Details : Type := mkDetails {
  Account : string;
  AccountID : string;
  Amount : Q;
  AssetCode : string;
  AssetIssuer : string;
  AssetType : string;
  Authorize : bool;
  BalanceID : string;
  BeginSponsor : string;
  BumpTo : string;
  BuyingAssetCode : string;
  BuyingAssetIssuer : string;
  BuyingAssetType : string;
  ClaimableBalanceID : string;
  ClaimantsOf : Claimants;
  ClearFlags : slice Z;
  ClearFlagsString : slice string;
  DataAccountID : string;
  DataName : string;
  DestinationMin : string;
  From_ : string;
  Funder : string;
  HighThreshold : Z;
  HomeDomain : string;
  InflationDest : string;
  Into : string;
  Limit : Q;
  LowThreshold : Z;
  MasterKeyWeight : Z;
  MedThreshold : Z;
  Name : string;
  OfferID : Z;
  Path : slice PathT;
  Price : float64;
  PriceR : PriceT;
  SellingAssetCode : string;
  SellingAssetIssuer : string;
  SellingAssetType : string;
  SetFlags : slice Z;
  SetFlagsString : slice string;
  SignerAccountID : string;
  SignerKey : string;
  SignerWeight : Z;
  SourceAmount : Q;
  SourceAssetCode : string;
  SourceAssetIssuer : string;
  SourceAssetType : string;
  SourceMax : Q;
  SponsoredID : string;
  StartingBalance : Q;
  To : string;
  Trustee : string;
  Trustor : string;
  TrustlineAccountID : string;
  TrustlineAsset : string;
  Value : string }.

(** [Details{}] *)
Definition Details_zero : Details :=
  {| Account := ""; AccountID := ""; Amount := 0%Q; AssetCode := "";
     AssetIssuer := ""; AssetType := ""; Authorize := false; BalanceID := "";
     BeginSponsor := ""; BumpTo := ""; BuyingAssetCode := "";
     BuyingAssetIssuer := ""; BuyingAssetType := "";
     ClaimableBalanceID := ""; ClaimantsOf := None; ClearFlags := None;
     ClearFlagsString := None; DataAccountID := ""; DataName := "";
     DestinationMin := ""; From_ := ""; Funder := ""; HighThreshold := 0;
     HomeDomain := ""; InflationDest := ""; Into := ""; Limit := 0%Q;
     LowThreshold := 0; MasterKeyWeight := 0; MedThreshold := 0; Name := "";
     OfferID := 0; Path := None; Price := zero;
     PriceR := {| Numerator := 0; Denominator := 0 |};
     SellingAssetCode := ""; SellingAssetIssuer := "";
     SellingAssetType := ""; SetFlags := None; SetFlagsString := None;
     SignerAccountID := ""; SignerKey := ""; SignerWeight := 0;
     SourceAmount := 0%Q; SourceAssetCode := ""; SourceAssetIssuer := "";
     SourceAssetType := ""; SourceMax := 0%Q; SponsoredID := "";
     StartingBalance := 0%Q; To := ""; Trustee := ""; Trustor := "";
     TrustlineAccountID := ""; TrustlineAsset := ""; Value := "" |}.

#[export] Instance Zero_Details : Zero Details := Details_zero.

Record OperationOutput : Type := {
  SourceAccount : string;
  Type_ : Z;
  ApplicationOrder : Z;
  TransactionID : Z;
  OperationID : Z;
  OperationDetails : Details }.

(** [OperationOutput{}] *)
Definition OperationOutput_zero : OperationOutput :=
  {| SourceAccount := ""; Type_ := 0; ApplicationOrder := 0;
     TransactionID := 0; OperationID := 0; OperationDetails := Details_zero |}.

#[export] Instance Zero_OperationOutput : Zero OperationOutput :=
  OperationOutput_zero.

(** Assignment to one field of a [Details]: [set_F v d] is [d] after
    [d.F = v]. Each setter is read off the record's eta expansion. *)
Definition Details_eta (d : Details) : Details :=
  mkDetails (Account d) (AccountID d) (Amount d) (AssetCode d)
    (AssetIssuer d) (AssetType d) (Authorize d) (BalanceID d)
    (BeginSponsor d) (BumpTo d) (BuyingAssetCode d) (BuyingAssetIssuer d)
    (BuyingAssetType d) (ClaimableBalanceID d) (ClaimantsOf d) (ClearFlags d)
    (ClearFlagsString d) (DataAccountID d) (DataName d) (DestinationMin d)
    (From_ d) (Funder d) (HighThreshold d) (HomeDomain d) (InflationDest d)
    (Into d) (Limit d) (LowThreshold d) (MasterKeyWeight d) (MedThreshold d)
    (Name d) (OfferID d) (Path d) (Price d) (PriceR d) (SellingAssetCode d)
    (SellingAssetIssuer d) (SellingAssetType d) (SetFlags d)
    (SetFlagsString d) (SignerAccountID d) (SignerKey d) (SignerWeight d)
    (SourceAmount d) (SourceAssetCode d) (SourceAssetIssuer d)
    (SourceAssetType d) (SourceMax d) (SponsoredID d) (StartingBalance d)
    (To d) (Trustee d) (Trustor d) (TrustlineAccountID d) (TrustlineAsset d)
    (Value d).

Ltac assign field v d :=
  let body := eval cbv beta delta [Details_eta] in (Details_eta d) in
  match eval pattern (field d) in body with
  | ?F _ => let r := eval cbv beta in (F v) in exact r
  end.

Definition set_Account (v : string) (d : Details) : Details :=
  ltac:(assign Account v d).
Definition set_AccountID (v : string) (d : Details) : Details :=
  ltac:(assign AccountID v d).
Definition set_Amount (v : Q) (d : Details) : Details :=
  ltac:(assign Amount v d).
Definition set_AssetCode (v : string) (d : Details) : Details :=
  ltac:(assign AssetCode v d).
Definition set_AssetIssuer (v : string) (d : Details) : Details :=
  ltac:(assign AssetIssuer v d).
Definition set_AssetType (v : string) (d : Details) : Details :=
  ltac:(assign AssetType v d).
Definition set_Authorize (v : bool) (d : Details) : Details :=
  ltac:(assign Authorize v d).
Definition set_BalanceID (v : string) (d : Details) : Details :=
  ltac:(assign BalanceID v d).
Definition set_BeginSponsor (v : string) (d : Details) : Details :=
  ltac:(assign BeginSponsor v d).
Definition set_BumpTo (v : string) (d : Details) : Details :=
  ltac:(assign BumpTo v d).
Definition set_BuyingAssetCode (v : string) (d : Details) : Details :=
  ltac:(assign BuyingAssetCode v d).
Definition set_BuyingAssetIssuer (v : string) (d : Details) : Details :=
  ltac:(assign BuyingAssetIssuer v d).
Definition set_BuyingAssetType (v : string) (d : Details) : Details :=
  ltac:(assign BuyingAssetType v d).
Definition set_ClaimableBalanceID (v : string) (d : Details) : Details :=
  ltac:(assign ClaimableBalanceID v d).
Definition set_Claimants (v : Claimants) (d : Details) : Details :=
  ltac:(assign ClaimantsOf v d).
Definition set_ClearFlags (v : slice Z) (d : Details) : Details :=
  ltac:(assign ClearFlags v d).
Definition set_ClearFlagsString (v : slice string) (d : Details) : Details :=
  ltac:(assign ClearFlagsString v d).
Definition set_DataAccountID (v : string) (d : Details) : Details :=
  ltac:(assign DataAccountID v d).
Definition set_DataName (v : string) (d : Details) : Details :=
  ltac:(assign DataName v d).
Definition set_DestinationMin (v : string) (d : Details) : Details :=
  ltac:(assign DestinationMin v d).
Definition set_From (v : string) (d : Details) : Details :=
  ltac:(assign From_ v d).
Definition set_Funder (v : string) (d : Details) : Details :=
  ltac:(assign Funder v d).
Definition set_HighThreshold (v : Z) (d : Details) : Details :=
  ltac:(assign HighThreshold v d).
Definition set_HomeDomain (v : string) (d : Details) : Details :=
  ltac:(assign HomeDomain v d).
Definition set_InflationDest (v : string) (d : Details) : Details :=
  ltac:(assign InflationDest v d).
Definition set_Into (v : string) (d : Details) : Details :=
  ltac:(assign Into v d).
Definition set_Limit (v : Q) (d : Details) : Details :=
  ltac:(assign Limit v d).
Definition set_LowThreshold (v : Z) (d : Details) : Details :=
  ltac:(assign LowThreshold v d).
Definition set_MasterKeyWeight (v : Z) (d : Details) : Details :=
  ltac:(assign MasterKeyWeight v d).
Definition set_MedThreshold (v : Z) (d : Details) : Details :=
  ltac:(assign MedThreshold v d).
Definition set_Name (v : string) (d : Details) : Details :=
  ltac:(assign Name v d).
Definition set_OfferID (v : Z) (d : Details) : Details :=
  ltac:(assign OfferID v d).
Definition set_Path (v : slice PathT) (d : Details) : Details :=
  ltac:(assign Path v d).
Definition set_Price (v : float64) (d : Details) : Details :=
  ltac:(assign Price v d).
Definition set_PriceR (v : PriceT) (d : Details) : Details :=
  ltac:(assign PriceR v d).
Definition set_SellingAssetCode (v : string) (d : Details) : Details :=
  ltac:(assign SellingAssetCode v d).
Definition set_SellingAssetIssuer (v : string) (d : Details) : Details :=
  ltac:(assign SellingAssetIssuer v d).
Definition set_SellingAssetType (v : string) (d : Details) : Details :=
  ltac:(assign SellingAssetType v d).
Definition set_SetFlags (v : slice Z) (d : Details) : Details :=
  ltac:(assign SetFlags v d).
Definition set_SetFlagsString (v : slice string) (d : Details) : Details :=
  ltac:(assign SetFlagsString v d).
Definition set_SignerAccountID (v : string) (d : Details) : Details :=
  ltac:(assign SignerAccountID v d).
Definition set_SignerKey (v : string) (d : Details) : Details :=
  ltac:(assign SignerKey v d).
Definition set_SignerWeight (v : Z) (d : Details) : Details :=
  ltac:(assign SignerWeight v d).
Definition set_SourceAmount (v : Q) (d : Details) : Details :=
  ltac:(assign SourceAmount v d).
Definition set_SourceAssetCode (v : string) (d : Details) : Details :=
  ltac:(assign SourceAssetCode v d).
Definition set_SourceAssetIssuer (v : string) (d : Details) : Details :=
  ltac:(assign SourceAssetIssuer v d).
Definition set_SourceAssetType (v : string) (d : Details) : Details :=
  ltac:(assign SourceAssetType v d).
Definition set_SourceMax (v : Q) (d : Details) : Details :=
  ltac:(assign SourceMax v d).
Definition set_SponsoredID (v : string) (d : Details) : Details :=
  ltac:(assign SponsoredID v d).
Definition set_StartingBalance (v : Q) (d : Details) : Details :=
  ltac:(assign StartingBalance v d).
Definition set_To (v : string) (d : Details) : Details :=
  ltac:(assign To v d).
Definition set_Trustee (v : string) (d : Details) : Details :=
  ltac:(assign Trustee v d).
Definition set_Trustor (v : string) (d : Details) : Details :=
  ltac:(assign Trustor v d).
Definition set_TrustlineAccountID (v : string) (d : Details) : Details :=
  ltac:(assign TrustlineAccountID v d).
Definition set_TrustlineAsset (v : string) (d : Details) : Details :=
  ltac:(assign TrustlineAsset v d).
Definition set_Value (v : string) (d : Details) : Details :=
  ltac:(assign Value v d).

End Schema.

(** ** Package [transform]: [operation.go] *)
Section Transform.
Context {L : xdr.Lib} {R : GoRuntime}.

Definition getOperationSourceAccount
  (operation : xdr.Operation) (transaction : ingest.LedgerTransaction)
  : xdr.MuxedAccount :=
  match xdr.Operation_SourceAccount operation with
  | Some sourceAccount => sourceAccount
  | None => xdr.TransactionEnvelope_SourceAccount (ingest.Envelope transaction)
  end.

(** The updated record and the error returned; on an error the record is
    the one passed in. *)
Definition addAssetDetailsToOperationDetails
  (operationDetails : Details) (asset : xdr.Asset) (prefix : string)
  : Details * option error :=
  match xdr.Asset_Extract asset with
  | None => (operationDetails, Some AssetExtractError)
  | Some (assetType, code, issuer) =>
      let native := xdr.Asset_Type asset =? xdr.AssetTypeAssetTypeNative in
      if (prefix =? "buying")%string then
        let operationDetails := set_BuyingAssetType assetType operationDetails in
        let operationDetails :=
          if negb native then
            set_BuyingAssetCode code
              (set_BuyingAssetIssuer issuer operationDetails)
          else operationDetails in
        (operationDetails, None)
      else if (prefix =? "selling")%string then
        let operationDetails := set_SellingAssetType assetType operationDetails in
        let operationDetails :=
          if negb native then
            set_SellingAssetCode code
              (set_SellingAssetIssuer issuer operationDetails)
          else operationDetails in
        (operationDetails, None)
      else if (prefix =? "source")%string then
        let operationDetails := set_SourceAssetType assetType operationDetails in
        let operationDetails :=
          if negb native then
            set_SourceAssetCode code
              (set_SourceAssetIssuer issuer operationDetails)
          else operationDetails in
        (operationDetails, None)
      else
        let operationDetails := set_AssetType assetType operationDetails in
        let operationDetails :=
          if negb native then
            set_AssetCode code (set_AssetIssuer issuer operationDetails)
          else operationDetails in
        (operationDetails, None)
  end.

(** The two slices built by [addTrustLineFlagToDetails], before they are
    stored: both start nil. *)
Definition trustLineFlagSlices (f : Z) : slice Z * slice string :=
  let n : slice Z := None in
  let s : slice string := None in
  let '(n, s) :=
    if xdr.IsAuthorized f then
      (append n (int32_of xdr.TrustLineFlagsAuthorizedFlag),
       append s "authorized")
    else (n, s) in
  let '(n, s) :=
    if xdr.IsAuthorizedToMaintainLiabilitiesFlag f then
      (append n
         (int32_of xdr.TrustLineFlagsAuthorizedToMaintainLiabilitiesFlag),
       append s "authorized_to_maintain_liabilities")
    else (n, s) in
  let '(n, s) :=
    if xdr.IsClawbackEnabledFlag f then
      (append n (int32_of xdr.TrustLineFlagsTrustlineClawbackEnabledFlag),
       append s "clawback_enabled")
    else (n, s) in
  (n, s).

Definition addTrustLineFlagToDetails
  (operationDetails : Details) (f : Z) (prefix : string) : Details :=
  let '(n, s) := trustLineFlagSlices f in
  if (prefix =? "set")%string then
    set_SetFlagsString s (set_SetFlags n operationDetails)
  else if (prefix =? "clear")%string then
    set_ClearFlagsString s (set_ClearFlags n operationDetails)
  else operationDetails.

Definition addLedgerKeyToDetails
  (operationDetails : Details) (ledgerKey : xdr.LedgerKey) : result Details :=
  match ledgerKey with
  | xdr.LedgerEntryTypeAccount accountId =>
      address <- xdr.AccountId_Address accountId ;;
      ok (set_AccountID address operationDetails)
  | xdr.LedgerEntryTypeClaimableBalance balanceId =>
      match xdr.MarshalHex balanceId with
      | None => Done (operationDetails, Some (MalformedLedgerKey MarshalHexError))
      | Some marshalHex => ok (set_ClaimableBalanceID marshalHex operationDetails)
      end
  | xdr.LedgerEntryTypeData accountId dataName =>
      address <- xdr.AccountId_Address accountId ;;
      ok (set_DataName dataName (set_DataAccountID address operationDetails))
  | xdr.LedgerEntryTypeOffer _ offerId =>
      ok (set_OfferID (int64_of offerId) operationDetails)
  | xdr.LedgerEntryTypeTrustline accountId asset =>
      address <- xdr.AccountId_Address accountId ;;
      ok (set_TrustlineAsset (xdr.Asset_StringCanonical asset)
            (set_TrustlineAccountID address operationDetails))
  | xdr.LedgerEntryTypeOther _ => ok operationDetails
  end.

(** The loop of [transformPath]: [path] is the slice built so far. *)
Fixpoint transformPath_loop (path : slice PathT) (rest : list xdr.Asset)
  : slice PathT :=
  match rest with
  | [] => path
  | pathAsset :: rest =>
      match xdr.Asset_Extract pathAsset with
      | None => None
      | Some (assetType, code, issuer) =>
          transformPath_loop
            (append path
               {| Path_AssetType := assetType;
                  Path_AssetIssuer := issuer;
                  Path_AssetCode := code |})
            rest
      end
  end.

Definition transformPath (initialPath : list xdr.Asset) : slice PathT :=
  if Z.of_nat (List.length initialPath) =? 0 then None
  else
    let path : slice PathT := make_empty in
    transformPath_loop path initialPath.

(** The loop of [findInitatingBeginSponsoringOp]; [n] is [i + 1], so the
    loop ends at [n = 0]. *)
Fixpoint findInitatingBeginSponsoringOp_loop
  (sponsoree : xdr.AccountId) (operations : list xdr.Operation) (n : nat)
  : exec (option SponsorshipOutput) :=
  match n with
  | O => Done None
  | S n' =>
      let i := Z.of_nat n' in
      operation_i <- index "operations" operations i ;;
      match xdr.GetBeginSponsoringFutureReservesOp
              (xdr.Operation_Body operation_i) with
      | Some beginOp =>
          sponsored <- xdr.AccountId_Address
                         (xdr.BeginSponsoringFutureReservesOp_SponsoredId
                            beginOp) ;;
          address <- xdr.AccountId_Address sponsoree ;;
          if (sponsored =? address)%string then
            Done (Some {| SponsorshipOutput_Operation := operation_i;
                          SponsorshipOutput_OperationIndex := i |})
          else findInitatingBeginSponsoringOp_loop sponsoree operations n'
      | None => findInitatingBeginSponsoringOp_loop sponsoree operations n'
      end
  end.

Definition findInitatingBeginSponsoringOp
  (operation : xdr.Operation) (operationIndex : Z)
  (transaction : ingest.LedgerTransaction)
  : exec (option SponsorshipOutput) :=
  if negb (xdr.TransactionResultPair_Successful (ingest.Result transaction))
  then Done None
  else
    let sponsoree :=
      xdr.MuxedAccount_ToAccountId
        (getOperationSourceAccount operation transaction) in
    let operations :=
      xdr.TransactionEnvelope_Operations (ingest.Envelope transaction) in
    findInitatingBeginSponsoringOp_loop sponsoree operations
      (Z.to_nat operationIndex).

(** The two slices built by [addOperationFlagToOperationDetails]: both start
    empty and allocated. *)
Definition operationFlagSlices (flag : Z) : slice Z * slice string :=
  let intFlags : slice Z := make_empty in
  let stringFlags : slice string := make_empty in
  let '(intFlags, stringFlags) :=
    if Z.land (int64_of flag) (int64_of xdr.AccountFlagsAuthRequiredFlag) >? 0
    then (append intFlags (int32_of xdr.AccountFlagsAuthRequiredFlag),
          append stringFlags "auth_required")
    else (intFlags, stringFlags) in
  let '(intFlags, stringFlags) :=
    if Z.land (int64_of flag) (int64_of xdr.AccountFlagsAuthRevocableFlag) >? 0
    then (append intFlags (int32_of xdr.AccountFlagsAuthRevocableFlag),
          append stringFlags "auth_revocable")
    else (intFlags, stringFlags) in
  let '(intFlags, stringFlags) :=
    if Z.land (int64_of flag) (int64_of xdr.AccountFlagsAuthImmutableFlag) >? 0
    then (append intFlags (int32_of xdr.AccountFlagsAuthImmutableFlag),
          append stringFlags "auth_immutable")
    else (intFlags, stringFlags) in
  (intFlags, stringFlags).

Definition addOperationFlagToOperationDetails
  (operationDetails : Details) (flag : Z) (prefix : string) : Details :=
  let '(intFlags, stringFlags) := operationFlagSlices flag in
  if (prefix =? "set")%string then
    set_SetFlagsString stringFlags (set_SetFlags intFlags operationDetails)
  else if (prefix =? "clear")%string then
    set_ClearFlagsString stringFlags
      (set_ClearFlags intFlags operationDetails)
  else operationDetails.

Definition ensureSlicesAreNotNil (details : Details) : Details :=
  let details :=
    if is_nil (Path details) then set_Path make_empty details else details in
  let details :=
    if is_nil (SetFlags details) then set_SetFlags make_empty details
    else details in
  let details :=
    if is_nil (SetFlagsString details)
    then set_SetFlagsString make_empty details else details in
  let details :=
    if is_nil (ClearFlags details) then set_ClearFlags make_empty details
    else details in
  let details :=
    if is_nil (ClearFlagsString details)
    then set_ClearFlagsString make_empty details else details in
  details.

(** The loop over the claimants of a create-claimable-balance operation. *)
Fixpoint claimants_loop (claimants : Claimants) (rest : list xdr.Claimant)
  : exec Claimants :=
  match rest with
  | [] => Done claimants
  | c :: rest =>
      cv0 <- xdr.Claimant_MustV0 c ;;
      destination <- xdr.AccountId_Address (xdr.ClaimantV0_Destination cv0) ;;
      claimants_loop
        (append claimants
           {| Claimant_Destination := destination;
              Claimant_Predicate := xdr.ClaimantV0_Predicate cv0 |})
        rest
  end.

(** *** The cases of the switch of [extractOperationDetails]

    One definition per [case] of the switch, over the variables of the
    enclosing function. A case that ends in [ok outputDetails] falls out of
    the switch; [fail e] is [return Details{}, e]. *)
Section Cases.
Variable operation : xdr.Operation.
Variable transaction : ingest.LedgerTransaction.
Variable operationIndex : Z.
Variable sourceAccount : xdr.MuxedAccount.
Variable sourceAccountAddress : string.
Variable currentOperationResult : xdr.OperationResult.
Variable outputDetails : Details.

Definition case_CreateAccount : result Details :=
  match xdr.GetCreateAccountOp (xdr.Operation_Body operation) with
  | None => fail (SchemaMismatch "CreateAccount" operationIndex)
  | Some op =>
      let outputDetails := set_Funder sourceAccountAddress outputDetails in
      account <- xdr.AccountId_Address (xdr.CreateAccountOp_Destination op) ;;
      let outputDetails := set_Account account outputDetails in
      let outputDetails :=
        set_StartingBalance
          (utils.ConvertStroopValueToReal
             (xdr.CreateAccountOp_StartingBalance op)) outputDetails in
      ok outputDetails
  end.

Definition case_Payment : result Details :=
  match xdr.GetPaymentOp (xdr.Operation_Body operation) with
  | None => fail (SchemaMismatch "Payment" operationIndex)
  | Some op =>
      let outputDetails := set_From sourceAccountAddress outputDetails in
      toAccountAddress <-?
        utils.GetAccountAddressFromMuxedAccount (xdr.PaymentOp_Destination op) ;;
      let outputDetails := set_To toAccountAddress outputDetails in
      let outputDetails :=
        set_Amount (utils.ConvertStroopValueToReal (xdr.PaymentOp_Amount op))
          outputDetails in
      let '(outputDetails, err) :=
        addAssetDetailsToOperationDetails outputDetails
          (xdr.PaymentOp_Asset op) "" in
      match err with
      | Some e => fail e
      | None => ok outputDetails
      end
  end.

Definition case_PathPaymentStrictReceive : result Details :=
  match xdr.GetPathPaymentStrictReceiveOp (xdr.Operation_Body operation) with
  | None => fail (SchemaMismatch "PathPaymentStrictReceive" operationIndex)
  | Some op =>
      let outputDetails := set_From sourceAccountAddress outputDetails in
      toAccountAddress <-?
        utils.GetAccountAddressFromMuxedAccount
          (xdr.PathPaymentStrictReceiveOp_Destination op) ;;
      let outputDetails := set_To toAccountAddress outputDetails in
      let outputDetails :=
        set_Amount
          (utils.ConvertStroopValueToReal
             (xdr.PathPaymentStrictReceiveOp_DestAmount op)) outputDetails in
      let outputDetails :=
        set_SourceMax
          (utils.ConvertStroopValueToReal
             (xdr.PathPaymentStrictReceiveOp_SendMax op)) outputDetails in
      let '(outputDetails, _) :=
        addAssetDetailsToOperationDetails outputDetails
          (xdr.PathPaymentStrictReceiveOp_DestAsset op) "" in
      let '(outputDetails, _) :=
        addAssetDetailsToOperationDetails outputDetails
          (xdr.PathPaymentStrictReceiveOp_SendAsset op) "source" in
      outputDetails <-?
        (if xdr.TransactionResultPair_Successful (ingest.Result transaction)
         then
           match xdr.GetTr currentOperationResult with
           | None => fail (MissingResultBody operationIndex)
           | Some resultBody =>
               match xdr.GetPathPaymentStrictReceiveResult resultBody with
               | None =>
                   fail (MissingResultInfo "PathPaymentStrictReceive"
                           operationIndex)
               | Some result_ =>
                   ok (set_SourceAmount
                         (utils.ConvertStroopValueToReal
                            (xdr.PathPaymentStrictReceiveResult_SendAmount
                               result_)) outputDetails)
               end
           end
         else ok outputDetails) ;;
      ok (set_Path (transformPath (xdr.PathPaymentStrictReceiveOp_Path op))
            outputDetails)
  end.

Definition case_PathPaymentStrictSend : result Details :=
  match xdr.GetPathPaymentStrictSendOp (xdr.Operation_Body operation) with
  | None => fail (SchemaMismatch "PathPaymentStrictSend" operationIndex)
  | Some op =>
      let outputDetails := set_From sourceAccountAddress outputDetails in
      toAccountAddress <-?
        utils.GetAccountAddressFromMuxedAccount
          (xdr.PathPaymentStrictSendOp_Destination op) ;;
      let outputDetails := set_To toAccountAddress outputDetails in
      let outputDetails :=
        set_SourceAmount
          (utils.ConvertStroopValueToReal
             (xdr.PathPaymentStrictSendOp_SendAmount op)) outputDetails in
      let outputDetails :=
        set_DestinationMin
          (amount_String (xdr.PathPaymentStrictSendOp_DestMin op))
          outputDetails in
      let '(outputDetails, _) :=
        addAssetDetailsToOperationDetails outputDetails
          (xdr.PathPaymentStrictSendOp_DestAsset op) "" in
      let '(outputDetails, _) :=
        addAssetDetailsToOperationDetails outputDetails
          (xdr.PathPaymentStrictSendOp_SendAsset op) "source" in
      outputDetails <-?
        (if xdr.TransactionResultPair_Successful (ingest.Result transaction)
         then
           match xdr.GetTr currentOperationResult with
           | None => fail (MissingResultBody operationIndex)
           | Some resultBody =>
               match xdr.GetPathPaymentStrictSendResult resultBody with
               | None =>
                   fail (MissingResultInfo "GetPathPaymentStrictSendResult"
                           operationIndex)
               | Some result_ =>
                   ok (set_Amount
                         (utils.ConvertStroopValueToReal
                            (xdr.PathPaymentStrictSendResult_DestAmount
                               result_)) outputDetails)
               end
           end
         else ok outputDetails) ;;
      ok (set_Path (transformPath (xdr.PathPaymentStrictSendOp_Path op))
            outputDetails)
  end.

Definition case_ManageBuyOffer : result Details :=
  match xdr.GetManageBuyOfferOp (xdr.Operation_Body operation) with
  | None => fail (SchemaMismatch "ManageBuyOffer" operationIndex)
  | Some op =>
      let outputDetails :=
        set_OfferID (int64_of (xdr.ManageBuyOfferOp_OfferId op))
          outputDetails in
      let outputDetails :=
        set_Amount
          (utils.ConvertStroopValueToReal (xdr.ManageBuyOfferOp_BuyAmount op))
          outputDetails in
      match strconv_ParseFloat
              (xdr.Price_String (xdr.ManageBuyOfferOp_Price op)) with
      | None => fail ParseFloatError
      | Some parsedPrice =>
          let outputDetails := set_Price parsedPrice outputDetails in
          let outputDetails :=
            set_PriceR
              {| Numerator :=
                   int32_of (xdr.Price_N (xdr.ManageBuyOfferOp_Price op));
                 Denominator :=
                   int32_of (xdr.Price_D (xdr.ManageBuyOfferOp_Price op)) |}
              outputDetails in
          let '(outputDetails, _) :=
            addAssetDetailsToOperationDetails outputDetails
              (xdr.ManageBuyOfferOp_Buying op) "buying" in
          let '(outputDetails, _) :=
            addAssetDetailsToOperationDetails outputDetails
              (xdr.ManageBuyOfferOp_Selling op) "selling" in
          ok outputDetails
      end
  end.

Definition case_ManageSellOffer : result Details :=
  match xdr.GetManageSellOfferOp (xdr.Operation_Body operation) with
  | None => fail (SchemaMismatch "ManageSellOffer" operationIndex)
  | Some op =>
      let outputDetails :=
        set_OfferID (int64_of (xdr.ManageSellOfferOp_OfferId op))
          outputDetails in
      let outputDetails :=
        set_Amount
          (utils.ConvertStroopValueToReal (xdr.ManageSellOfferOp_Amount op))
          outputDetails in
      match strconv_ParseFloat
              (xdr.Price_String (xdr.ManageSellOfferOp_Price op)) with
      | None => fail ParseFloatError
      | Some parsedPrice =>
          let outputDetails := set_Price parsedPrice outputDetails in
          let outputDetails :=
            set_PriceR
              {| Numerator :=
                   int32_of (xdr.Price_N (xdr.ManageSellOfferOp_Price op));
                 Denominator :=
                   int32_of (xdr.Price_D (xdr.ManageSellOfferOp_Price op)) |}
              outputDetails in
          let '(outputDetails, _) :=
            addAssetDetailsToOperationDetails outputDetails
              (xdr.ManageSellOfferOp_Buying op) "buying" in
          let '(outputDetails, _) :=
            addAssetDetailsToOperationDetails outputDetails
              (xdr.ManageSellOfferOp_Selling op) "selling" in
          ok outputDetails
      end
  end.

Definition case_CreatePassiveSellOffer : result Details :=
  match xdr.GetCreatePassiveSellOfferOp (xdr.Operation_Body operation) with
  | None => fail (SchemaMismatch "CreatePassiveSellOffer" operationIndex)
  | Some op =>
      let outputDetails :=
        set_Amount
          (utils.ConvertStroopValueToReal
             (xdr.CreatePassiveSellOfferOp_Amount op)) outputDetails in
      match strconv_ParseFloat
              (xdr.Price_String (xdr.CreatePassiveSellOfferOp_Price op)) with
      | None => fail ParseFloatError
      | Some parsedPrice =>
          let outputDetails := set_Price parsedPrice outputDetails in
          let outputDetails :=
            set_PriceR
              {| Numerator :=
                   int32_of
                     (xdr.Price_N (xdr.CreatePassiveSellOfferOp_Price op));
                 Denominator :=
                   int32_of
                     (xdr.Price_D (xdr.CreatePassiveSellOfferOp_Price op)) |}
              outputDetails in
          let '(outputDetails, _) :=
            addAssetDetailsToOperationDetails outputDetails
              (xdr.CreatePassiveSellOfferOp_Buying op) "buying" in
          let '(outputDetails, _) :=
            addAssetDetailsToOperationDetails outputDetails
              (xdr.CreatePassiveSellOfferOp_Selling op) "selling" in
          ok outputDetails
      end
  end.

Definition case_SetOptions : result Details :=
  match xdr.GetSetOptionsOp (xdr.Operation_Body operation) with
  | None => fail (SchemaMismatch "GetSetOptions" operationIndex)
  | Some op =>
      outputDetails <-
        match xdr.SetOptionsOp_InflationDest op with
        | Some inflationDest =>
            address <- xdr.AccountId_Address inflationDest ;;
            Done (set_InflationDest address outputDetails)
        | None => Done outputDetails
        end ;;
      let outputDetails :=
        match xdr.SetOptionsOp_SetFlags op with
        | Some setFlags =>
            if setFlags >? 0 then
              addOperationFlagToOperationDetails outputDetails setFlags "set"
            else outputDetails
        | None => outputDetails
        end in
      let outputDetails :=
        match xdr.SetOptionsOp_ClearFlags op with
        | Some clearFlags =>
            if clearFlags >? 0 then
              addOperationFlagToOperationDetails outputDetails clearFlags
                "clear"
            else outputDetails
        | None => outputDetails
        end in
      let outputDetails :=
        match xdr.SetOptionsOp_MasterWeight op with
        | Some masterWeight => set_MasterKeyWeight masterWeight outputDetails
        | None => outputDetails
        end in
      let outputDetails :=
        match xdr.SetOptionsOp_LowThreshold op with
        | Some lowThreshold => set_LowThreshold lowThreshold outputDetails
        | None => outputDetails
        end in
      let outputDetails :=
        match xdr.SetOptionsOp_MedThreshold op with
        | Some medThreshold => set_MedThreshold medThreshold outputDetails
        | None => outputDetails
        end in
      let outputDetails :=
        match xdr.SetOptionsOp_HighThreshold op with
        | Some highThreshold => set_HighThreshold highThreshold outputDetails
        | None => outputDetails
        end in
      let outputDetails :=
        match xdr.SetOptionsOp_HomeDomain op with
        | Some homeDomain => set_HomeDomain homeDomain outputDetails
        | None => outputDetails
        end in
      match xdr.SetOptionsOp_Signer op with
      | Some signer =>
          key <- xdr.SignerKey_Address (xdr.Signer_Key signer) ;;
          ok (set_SignerWeight (xdr.Signer_Weight signer)
                (set_SignerKey key outputDetails))
      | None => ok outputDetails
      end
  end.

Definition case_ChangeTrust : result Details :=
  match xdr.GetChangeTrustOp (xdr.Operation_Body operation) with
  | None => fail (SchemaMismatch "GetChangeTrust" operationIndex)
  | Some op =>
      let '(outputDetails, _) :=
        addAssetDetailsToOperationDetails outputDetails
          (xdr.ChangeTrustOp_Line op) "" in
      let outputDetails := set_Trustor sourceAccountAddress outputDetails in
      let outputDetails :=
        set_Trustee (AssetIssuer outputDetails) outputDetails in
      let outputDetails :=
        set_Limit
          (utils.ConvertStroopValueToReal (xdr.ChangeTrustOp_Limit op))
          outputDetails in
      ok outputDetails
  end.

Definition case_AllowTrust : result Details :=
  match xdr.GetAllowTrustOp (xdr.Operation_Body operation) with
  | None => fail (SchemaMismatch "AllowTrust" operationIndex)
  | Some op =>
      let '(outputDetails, _) :=
        addAssetDetailsToOperationDetails outputDetails
          (xdr.AssetCode_ToAsset (xdr.AllowTrustOp_Asset op)
             (xdr.MuxedAccount_ToAccountId sourceAccount)) "" in
      let outputDetails := set_Trustee sourceAccountAddress outputDetails in
      trustor <- xdr.AccountId_Address (xdr.AllowTrustOp_Trustor op) ;;
      let outputDetails := set_Trustor trustor outputDetails in
      let shouldAuth :=
        xdr.IsAuthorized (xdr.TrustLineFlags (xdr.AllowTrustOp_Authorize op)) in
      let outputDetails := set_Authorize shouldAuth outputDetails in
      ok outputDetails
  end.

Definition case_AccountMerge : result Details :=
  match xdr.GetDestination (xdr.Operation_Body operation) with
  | None => fail (SchemaMismatch "Destination" operationIndex)
  | Some destinationAccount =>
      destinationAccountAddress <-?
        utils.GetAccountAddressFromMuxedAccount destinationAccount ;;
      let outputDetails := set_Account sourceAccountAddress outputDetails in
      let outputDetails := set_Into destinationAccountAddress outputDetails in
      ok outputDetails
  end.

Definition case_ManageData : result Details :=
  match xdr.GetManageDataOp (xdr.Operation_Body operation) with
  | None => fail (SchemaMismatch "GetManageData" operationIndex)
  | Some op =>
      let outputDetails :=
        set_Name (xdr.ManageDataOp_DataName op) outputDetails in
      let outputDetails :=
        match xdr.ManageDataOp_DataValue op with
        | Some dataValue =>
            set_Value (base64_EncodeToString dataValue) outputDetails
        | None => set_Value "" outputDetails
        end in
      ok outputDetails
  end.

Definition case_BumpSequence : result Details :=
  match xdr.GetBumpSequenceOp (xdr.Operation_Body operation) with
  | None => fail (SchemaMismatch "BumpSequence" operationIndex)
  | Some op =>
      ok (set_BumpTo (Sprintf_d (xdr.BumpSequenceOp_BumpTo op)) outputDetails)
  end.

Definition case_CreateClaimableBalance : result Details :=
  op <- xdr.MustCreateClaimableBalanceOp (xdr.Operation_Body operation) ;;
  let outputDetails :=
    set_AssetCode
      (xdr.Asset_StringCanonical (xdr.CreateClaimableBalanceOp_Asset op))
      outputDetails in
  let outputDetails :=
    set_Amount
      (utils.ConvertStroopValueToReal (xdr.CreateClaimableBalanceOp_Amount op))
      outputDetails in
  let claimants : Claimants := None in
  claimants <-
    claimants_loop claimants (xdr.CreateClaimableBalanceOp_Claimants op) ;;
  ok (set_Claimants claimants outputDetails).

Definition case_ClaimClaimableBalance : result Details :=
  op <- xdr.MustClaimClaimableBalanceOp (xdr.Operation_Body operation) ;;
  match xdr.MarshalHex (xdr.ClaimClaimableBalanceOp_BalanceId op) with
  | None => fail (MalformedBalanceId operationIndex)
  | Some balanceID =>
      let outputDetails := set_BalanceID balanceID outputDetails in
      let outputDetails := set_Account sourceAccountAddress outputDetails in
      ok outputDetails
  end.

Definition case_BeginSponsoringFutureReserves : result Details :=
  op <- xdr.MustBeginSponsoringFutureReservesOp
          (xdr.Operation_Body operation) ;;
  sponsored <-
    xdr.AccountId_Address
      (xdr.BeginSponsoringFutureReservesOp_SponsoredId op) ;;
  ok (set_SponsoredID sponsored outputDetails).

Definition case_EndSponsoringFutureReserves : result Details :=
  beginSponsorOp <-
    findInitatingBeginSponsoringOp operation operationIndex transaction ;;
  match beginSponsorOp with
  | Some beginSponsorOp =>
      let beginSponsorshipSource :=
        getOperationSourceAccount
          (SponsorshipOutput_Operation beginSponsorOp) transaction in
      r <- utils.GetAccountAddressFromMuxedAccount beginSponsorshipSource ;;
      match r with
      | (_, Some _) => fail (SponsorAddressError operationIndex)
      | (beginSponsorAddress, None) =>
          ok (set_BeginSponsor beginSponsorAddress outputDetails)
      end
  | None => ok outputDetails
  end.

Definition case_RevokeSponsorship : result Details :=
  op <- xdr.MustRevokeSponsorshipOp (xdr.Operation_Body operation) ;;
  match op with
  | xdr.RevokeSponsorshipTypeRevokeSponsorshipLedgerEntry ledgerKey =>
      outputDetails <-? addLedgerKeyToDetails outputDetails ledgerKey ;;
      ok outputDetails
  | xdr.RevokeSponsorshipTypeRevokeSponsorshipSigner signer =>
      account <-
        xdr.AccountId_Address (xdr.RevokeSponsorshipOpSigner_AccountId signer) ;;
      let outputDetails := set_SignerAccountID account outputDetails in
      key <-
        xdr.SignerKey_Address (xdr.RevokeSponsorshipOpSigner_SignerKey signer) ;;
      ok (set_SignerKey key outputDetails)
  | xdr.RevokeSponsorshipTypeOther _ => ok outputDetails
  end.

Definition case_Clawback : result Details :=
  op <- xdr.MustClawbackOp (xdr.Operation_Body operation) ;;
  let '(outputDetails, _) :=
    addAssetDetailsToOperationDetails outputDetails (xdr.ClawbackOp_Asset op)
      "" in
  fromAccount <-?
    utils.GetAccountAddressFromMuxedAccount (xdr.ClawbackOp_From op) ;;
  let outputDetails := set_From fromAccount outputDetails in
  let outputDetails :=
    set_Amount (utils.ConvertStroopValueToReal (xdr.ClawbackOp_Amount op))
      outputDetails in
  ok outputDetails.

Definition case_ClawbackClaimableBalance : result Details :=
  op <- xdr.MustClawbackClaimableBalanceOp (xdr.Operation_Body operation) ;;
  match xdr.MarshalHex (xdr.ClawbackClaimableBalanceOp_BalanceId op) with
  | None => fail (MalformedBalanceId operationIndex)
  | Some balanceID => ok (set_BalanceID balanceID outputDetails)
  end.

Definition case_SetTrustLineFlags : result Details :=
  op <- xdr.MustSetTrustLineFlagsOp (xdr.Operation_Body operation) ;;
  trustor <- xdr.AccountId_Address (xdr.SetTrustLineFlagsOp_Trustor op) ;;
  let outputDetails := set_Trustor trustor outputDetails in
  let '(outputDetails, _) :=
    addAssetDetailsToOperationDetails outputDetails
      (xdr.SetTrustLineFlagsOp_Asset op) "" in
  let outputDetails :=
    if xdr.SetTrustLineFlagsOp_SetFlags op >? 0 then
      addTrustLineFlagToDetails outputDetails
        (xdr.TrustLineFlags (xdr.SetTrustLineFlagsOp_SetFlags op)) "set"
    else outputDetails in
  let outputDetails :=
    if xdr.SetTrustLineFlagsOp_ClearFlags op >? 0 then
      addTrustLineFlagToDetails outputDetails
        (xdr.TrustLineFlags (xdr.SetTrustLineFlagsOp_ClearFlags op)) "clear"
    else outputDetails in
  ok outputDetails.

(** The switch on the operation type. *)
Definition switch_operationType (operationType : Z) : result Details :=
  match operationType with
  | xdr.OperationTypeCreateAccount => case_CreateAccount
  | xdr.OperationTypePayment => case_Payment
  | xdr.OperationTypePathPaymentStrictReceive => case_PathPaymentStrictReceive
  | xdr.OperationTypePathPaymentStrictSend => case_PathPaymentStrictSend
  | xdr.OperationTypeManageBuyOffer => case_ManageBuyOffer
  | xdr.OperationTypeManageSellOffer => case_ManageSellOffer
  | xdr.OperationTypeCreatePassiveSellOffer => case_CreatePassiveSellOffer
  | xdr.OperationTypeSetOptions => case_SetOptions
  | xdr.OperationTypeChangeTrust => case_ChangeTrust
  | xdr.OperationTypeAllowTrust => case_AllowTrust
  | xdr.OperationTypeAccountMerge => case_AccountMerge
  | xdr.OperationTypeInflation => ok outputDetails
  | xdr.OperationTypeManageData => case_ManageData
  | xdr.OperationTypeBumpSequence => case_BumpSequence
  | xdr.OperationTypeCreateClaimableBalance => case_CreateClaimableBalance
  | xdr.OperationTypeClaimClaimableBalance => case_ClaimClaimableBalance
  | xdr.OperationTypeBeginSponsoringFutureReserves =>
      case_BeginSponsoringFutureReserves
  | xdr.OperationTypeEndSponsoringFutureReserves =>
      case_EndSponsoringFutureReserves
  | xdr.OperationTypeRevokeSponsorship => case_RevokeSponsorship
  | xdr.OperationTypeClawback => case_Clawback
  | xdr.OperationTypeClawbackClaimableBalance =>
      case_ClawbackClaimableBalance
  | xdr.OperationTypeSetTrustLineFlags => case_SetTrustLineFlags
  | _ =>
      fail (UnsupportedOperationType
              (xdr.OperationBody_Type (xdr.Operation_Body operation)))
  end.

End Cases.

Definition extractOperationDetails
  (operation : xdr.Operation) (transaction : ingest.LedgerTransaction)
  (operationIndex : Z) : result Details :=
  let outputDetails := Details_zero in
  let sourceAccount := getOperationSourceAccount operation transaction in
  sourceAccountAddress <-?
    utils.GetAccountAddressFromMuxedAccount sourceAccount ;;
  let operationType := xdr.OperationBody_Type (xdr.Operation_Body operation) in
  match xdr.TransactionResultPair_OperationResults
          (ingest.Result transaction) with
  | None => fail MissingResults
  | Some allOperationResults =>
      currentOperationResult <-
        index "allOperationResults" allOperationResults operationIndex ;;
      outputDetails <-?
        switch_operationType operation transaction operationIndex
          sourceAccount sourceAccountAddress currentOperationResult
          outputDetails operationType ;;
      ok (ensureSlicesAreNotNil outputDetails)
  end.

(** [TransformOperation] converts an operation from the history archive
    ingestion system into a form suitable for BigQuery. *)
Definition TransformOperation
  (operation : xdr.Operation) (operationIndex : Z)
  (transaction : ingest.LedgerTransaction) (ledgerSeq : Z)
  : result OperationOutput :=
  let outputTransactionID :=
    toid.ToInt64
      (toid.New ledgerSeq (int32_of (ingest.Index transaction)) 0) in
  let outputOperationID :=
    toid.ToInt64
      (toid.New ledgerSeq (int32_of (ingest.Index transaction))
         (int32_of (operationIndex + 1))) in
  r <- utils.GetAccountAddressFromMuxedAccount
         (getOperationSourceAccount operation transaction) ;;
  match r with
  | (_, Some err) =>
      fail (ErrForOperation operationIndex outputOperationID err)
  | (outputSourceAccount, None) =>
      let outputOperationType :=
        int32_of (xdr.OperationBody_Type (xdr.Operation_Body operation)) in
      if outputOperationType <? 0 then
        fail (NegativeTypeError outputOperationType operationIndex
                outputOperationID)
      else
        outputDetails <-?
          extractOperationDetails operation transaction operationIndex ;;
        let transformedOperation :=
          {| SourceAccount := outputSourceAccount;
             Type_ := outputOperationType;
             ApplicationOrder := int32_of (operationIndex + 1);
             TransactionID := outputTransactionID;
             OperationID := outputOperationID;
             OperationDetails := outputDetails |} in
        ok transformedOperation
  end.

End Transform.

(** ** A small XDR world

    A concrete [xdr.Lib] on which the transformer runs: an account is its
    address (the empty string is a key that does not render), an asset is
    native, a credit or one that [Extract] rejects, a path-payment result is
    the amount it reports. *)
Module Example.

Inductive asset : Type :=
| Native
| Credit (code issuer : string)
| Malformed.

Definition render (a : string) : option string :=
  if (a =? "")%string then None else Some a.

Definition asset_type (a : asset) : Z :=
  match a with Native => 0 | Credit _ _ => 1 | Malformed => 2 end.

Definition extract (a : asset) : option (string * string * string) :=
  match a with
  | Native => Some ("native", "", "")
  | Credit code issuer => Some ("credit_alphanum4", code, issuer)
  | Malformed => None
  end.

Definition canonical (a : asset) : string :=
  match a with
  | Native => "native"
  | Credit code issuer => code ++ ":" ++ issuer
  | Malformed => ""
  end.

#[export] Instance lib : xdr.Lib := {|
  xdr.AccountId := string;
  xdr.MuxedAccount := string;
  xdr.Asset := asset;
  xdr.AssetCode := string;
  xdr.ClaimableBalanceId := string;
  xdr.SignerKey := string;
  xdr.ClaimPredicate := unit;
  xdr.PathPaymentStrictReceiveResult := Z;
  xdr.PathPaymentStrictSendResult := Z;
  xdr.MuxedAccount_ToAccountId := fun m => m;
  xdr.AccountId_GetAddress := render;
  xdr.SignerKey_GetAddress := render;
  xdr.Asset_Type := asset_type;
  xdr.Asset_Extract := extract;
  xdr.Asset_StringCanonical := canonical;
  xdr.AssetCode_ToAsset := Credit;
  xdr.MarshalHex := fun b => Some b;
  xdr.PathPaymentStrictReceiveResult_SendAmount := fun r => r;
  xdr.PathPaymentStrictSendResult_DestAmount := fun r => r;
  xdr.Price_String := fun _ => "1.0000000" |}.

#[export] Instance runtime : GoRuntime := {|
  base64_EncodeToString := fun _ => "";
  strconv_ParseFloat := fun _ => Some (S754_finite false (2 ^ 52) (-52));
  amount_String := fun _ => "" |}.

Definition operation_of (source : option string) (body : xdr.OperationBody)
  : xdr.Operation :=
  {| xdr.Operation_SourceAccount := source; xdr.Operation_Body := body |}.

Definition transaction_of (index : Z) (source : string)
  (operations : list xdr.Operation) (successful : bool)
  (results : option (list xdr.OperationResult)) : ingest.LedgerTransaction :=
  {| ingest.Index := index;
     ingest.Envelope :=
       {| xdr.TransactionEnvelope_SourceAccount := source;
          xdr.TransactionEnvelope_Operations := operations |};
     ingest.Result :=
       {| xdr.TransactionResultPair_Successful := successful;
          xdr.TransactionResultPair_OperationResults := results |} |}.

(** A result entry that carries no path-payment body. *)
Definition plain_result : xdr.OperationResult :=
  xdr.OperationResultCodeOpInner (xdr.TrOther 0).

(** The transaction of the sponsorship example: the transaction source "S"
    begins sponsoring "X", "X" pays, "X" ends the sponsorship. *)
Definition begin_operation : xdr.Operation :=
  operation_of None
    (xdr.BodyBeginSponsoringFutureReserves
       {| xdr.BeginSponsoringFutureReservesOp_SponsoredId := "X" |}).

Definition payment_op (a : asset) : xdr.PaymentOp :=
  {| xdr.PaymentOp_Destination := "D";
     xdr.PaymentOp_Asset := a;
     xdr.PaymentOp_Amount := 15000000 |}.

Definition payment_operation (a : asset) : xdr.Operation :=
  operation_of (Some "X") (xdr.BodyPayment (payment_op a)).

Definition end_operation : xdr.Operation :=
  operation_of (Some "X") xdr.BodyEndSponsoringFutureReserves.

Definition sponsorship_operations : list xdr.Operation :=
  [begin_operation; payment_operation Native; end_operation].

Definition sponsorship_transaction (successful : bool)
  : ingest.LedgerTransaction :=
  transaction_of 3 "S" sponsorship_operations successful
    (Some [plain_result; plain_result; plain_result]).

(** A strict-receive path payment that declares a send maximum of 100 and
    whose execution sent 42.5. *)
Definition receive_op (destAsset : asset) (path : list asset)
  : xdr.PathPaymentStrictReceiveOp :=
  {| xdr.PathPaymentStrictReceiveOp_SendAsset := Native;
     xdr.PathPaymentStrictReceiveOp_SendMax := 1000000000;
     xdr.PathPaymentStrictReceiveOp_Destination := "D";
     xdr.PathPaymentStrictReceiveOp_DestAsset := destAsset;
     xdr.PathPaymentStrictReceiveOp_DestAmount := 70000000;
     xdr.PathPaymentStrictReceiveOp_Path := path |}.

Definition receive_operation (destAsset : asset) (path : list asset)
  : xdr.Operation :=
  operation_of None (xdr.BodyPathPaymentStrictReceive (receive_op destAsset path)).

Definition sent : xdr.PathPaymentStrictReceiveResult := 425000000.

Definition receive_result : xdr.OperationResult :=
  xdr.OperationResultCodeOpInner (xdr.TrPathPaymentStrictReceiveResult sent).

(** A transaction of one operation. *)
Definition single_transaction (operation : xdr.Operation) (successful : bool)
  (results : option (list xdr.OperationResult)) : ingest.LedgerTransaction :=
  transaction_of 0 "S" [operation] successful results.

Definition create_account_operation : xdr.Operation :=
  operation_of None
    (xdr.BodyCreateAccount
       {| xdr.CreateAccountOp_Destination := "D";
          xdr.CreateAccountOp_StartingBalance := 15000000 |}).

(** An operation whose type tag (22) is none of the handled kinds. *)
Definition unknown_operation : xdr.Operation :=
  operation_of None (xdr.BodyOther 22).

(** The record of a transform that returned one. *)
Definition record_of (r : result OperationOutput) : OperationOutput :=
  match r with
  | Done (output, _) => output
  | Panics _ => OperationOutput_zero
  end.

Definition details_of (r : result Details) : Details :=
  match r with
  | Done (d, _) => d
  | Panics _ => Details_zero
  end.

Definition create_account_transaction : ingest.LedgerTransaction :=
  single_transaction create_account_operation true (Some [plain_result]).

Definition create_account_record : OperationOutput :=
  record_of
    (TransformOperation create_account_operation 0 create_account_transaction
       7).

Definition begin_record : OperationOutput :=
  record_of
    (TransformOperation begin_operation 0 (sponsorship_transaction true) 100).



(** The strict-receive payment through a credit and the native asset, in a
    successful transaction whose result reports the amount sent. *)
Definition receive_operation_ok : xdr.Operation :=
  receive_operation (Credit "EUR" "I") [Credit "USD" "I"; Native].

Definition receive_transaction_ok : ingest.LedgerTransaction :=
  single_transaction receive_operation_ok true (Some [receive_result]).

(** The same payment in a failed transaction, with and without a results
    list. *)
Definition receive_transaction_failed : ingest.LedgerTransaction :=
  single_transaction receive_operation_ok false (Some [plain_result]).

Definition receive_transaction_no_results : ingest.LedgerTransaction :=
  single_transaction receive_operation_ok false None.

(** A strict-receive payment whose destination asset and whose second path
    asset do not extract. *)
Definition receive_operation_malformed : xdr.Operation :=
  receive_operation Malformed [Credit "USD" "I"; Malformed].

Definition receive_transaction_malformed : ingest.LedgerTransaction :=
  single_transaction receive_operation_malformed true (Some [receive_result]).

Definition payment_transaction_malformed : ingest.LedgerTransaction :=
  single_transaction (payment_operation Malformed) true (Some [plain_result]).

Definition unknown_transaction : ingest.LedgerTransaction :=
  single_transaction unknown_operation true (Some [plain_result]).

Definition unknown_transaction_no_results : ingest.LedgerTransaction :=
  single_transaction unknown_operation false None.

(** A set-options operation that sets auth-revocable and auth-immutable
    (mask 6) and clears auth-required (mask 1). *)
Definition set_options_op : xdr.SetOptionsOp :=
  {| xdr.SetOptionsOp_InflationDest := None;
     xdr.SetOptionsOp_ClearFlags := Some 1;
     xdr.SetOptionsOp_SetFlags := Some 6;
     xdr.SetOptionsOp_MasterWeight := Some 2;
     xdr.SetOptionsOp_LowThreshold := None;
     xdr.SetOptionsOp_MedThreshold := None;
     xdr.SetOptionsOp_HighThreshold := None;
     xdr.SetOptionsOp_HomeDomain := None;
     xdr.SetOptionsOp_Signer := None |}.

Definition set_options_operation : xdr.Operation :=
  operation_of None (xdr.BodySetOptions set_options_op).

(** A set-trustline-flags operation that sets clawback-enabled (mask 4) and
    clears the two authorization flags (mask 3). *)
Definition set_trust_line_flags_op : xdr.SetTrustLineFlagsOp :=
  {| xdr.SetTrustLineFlagsOp_Trustor := "T";
     xdr.SetTrustLineFlagsOp_Asset := Credit "USD" "I";
     xdr.SetTrustLineFlagsOp_ClearFlags := 3;
     xdr.SetTrustLineFlagsOp_SetFlags := 4 |}.

Definition set_trust_line_flags_operation : xdr.Operation :=
  operation_of None (xdr.BodySetTrustLineFlags set_trust_line_flags_op).

Definition change_trust_op : xdr.ChangeTrustOp :=
  {| xdr.ChangeTrustOp_Line := Credit "USD" "I";
     xdr.ChangeTrustOp_Limit := 1000000000 |}.

Definition change_trust_operation : xdr.Operation :=
  operation_of None (xdr.BodyChangeTrust change_trust_op).

(** An allow-trust operation on the trustline of [trustor], with the
    authorize value 2 (authorized to maintain liabilities). *)
Definition allow_trust_op (trustor : string) : xdr.AllowTrustOp :=
  {| xdr.AllowTrustOp_Trustor := trustor;
     xdr.AllowTrustOp_Asset := "USD";
     xdr.AllowTrustOp_Authorize := 2 |}.

Definition allow_trust_operation (trustor : string) : xdr.Operation :=
  operation_of None (xdr.BodyAllowTrust (allow_trust_op trustor)).

(** A claimable balance for "A" and "B". *)
Definition claimant_of (destination : string) : xdr.Claimant :=
  xdr.ClaimantTypeV0
    {| xdr.ClaimantV0_Destination := destination;
       xdr.ClaimantV0_Predicate := tt |}.

Definition create_claimable_balance_op (claimants : list xdr.Claimant)
  : xdr.CreateClaimableBalanceOp :=
  {| xdr.CreateClaimableBalanceOp_Asset := Credit "USD" "I";
     xdr.CreateClaimableBalanceOp_Amount := 15000000;
     xdr.CreateClaimableBalanceOp_Claimants := claimants |}.

Definition create_claimable_balance_operation
  (claimants : list xdr.Claimant) : xdr.Operation :=
  operation_of None
    (xdr.BodyCreateClaimableBalance (create_claimable_balance_op claimants)).

(** A strict-send path payment that sends 10 and whose execution
    delivered 9.9. *)
Definition send_op : xdr.PathPaymentStrictSendOp :=
  {| xdr.PathPaymentStrictSendOp_SendAsset := Native;
     xdr.PathPaymentStrictSendOp_SendAmount := 100000000;
     xdr.PathPaymentStrictSendOp_Destination := "D";
     xdr.PathPaymentStrictSendOp_DestAsset := Credit "EUR" "I";
     xdr.PathPaymentStrictSendOp_DestMin := 90000000;
     xdr.PathPaymentStrictSendOp_Path := [] |}.

Definition send_operation : xdr.Operation :=
  operation_of None (xdr.BodyPathPaymentStrictSend send_op).

Definition delivered : xdr.PathPaymentStrictSendResult := 99000000.

Definition send_result : xdr.OperationResult :=
  xdr.OperationResultCodeOpInner (xdr.TrPathPaymentStrictSendResult delivered).

(** A successful transaction of one operation with a plain result. *)
Definition plain_transaction (operation : xdr.Operation)
  : ingest.LedgerTransaction :=
  single_transaction operation true (Some [plain_result]).

(** The strict-receive payment in a successful transaction whose results
    list is present and empty. *)
Definition receive_transaction_short : ingest.LedgerTransaction :=
  single_transaction receive_operation_ok true (Some []).

(** An operation of type 22 whose own source account does not render. *)
Definition unknown_operation_unrendered : xdr.Operation :=
  operation_of (Some "") (xdr.BodyOther 22).


End Example.

(** ** The reference decompositions the properties are stated against *)

(** The named bits of the two flag domains, in their enumeration order. *)
Definition accountFlagBits : list (Z * string) :=
  [ (xdr.AccountFlagsAuthRequiredFlag, "auth_required");
    (xdr.AccountFlagsAuthRevocableFlag, "auth_revocable");
    (xdr.AccountFlagsAuthImmutableFlag, "auth_immutable") ].

Definition trustLineFlagBits : list (Z * string) :=
  [ (xdr.TrustLineFlagsAuthorizedFlag, "authorized");
    (xdr.TrustLineFlagsAuthorizedToMaintainLiabilitiesFlag,
     "authorized_to_maintain_liabilities");
    (xdr.TrustLineFlagsTrustlineClawbackEnabledFlag, "clawback_enabled") ].

(** The entries of [bits] whose bit is set in [mask], in the order of
    [bits]. *)
Definition setBits (bits : list (Z * string)) (mask : Z)
  : list (Z * string) :=
  filter (fun b => negb (Z.land mask (fst b) =? 0)) bits.

(** The sponsorship lookback as the design document words it: among the
    operations before [operationIndex], latest first, the first
    begin-sponsoring operation whose sponsored account renders to
    [address]. *)
Definition sponsors {L : xdr.Lib} (address : string) (o : xdr.Operation)
  : bool :=
  match xdr.GetBeginSponsoringFutureReservesOp (xdr.Operation_Body o) with
  | Some beginOp =>
      match xdr.AccountId_GetAddress
              (xdr.BeginSponsoringFutureReservesOp_SponsoredId beginOp) with
      | Some sponsored => (sponsored =? address)%string
      | None => false
      end
  | None => false
  end.

Definition lookback {L : xdr.Lib} (address : string)
  (operations : list xdr.Operation) (operationIndex : Z)
  : option xdr.Operation :=
  find (sponsors address) (rev (firstn (Z.to_nat operationIndex) operations)).

(** A begin-sponsoring operation whose sponsored account renders, or any
    operation of another kind. *)
Definition sponsoredRenders {L : xdr.Lib} (o : xdr.Operation) : Prop :=
  match xdr.GetBeginSponsoringFutureReservesOp (xdr.Operation_Body o) with
  | Some beginOp =>
      xdr.AccountId_GetAddress
        (xdr.BeginSponsoringFutureReservesOp_SponsoredId beginOp) <> None
  | None => True
  end.

(** The kinds whose case calls the asset helper without reading the error
    it returns. *)
Definition dropsAssetError {L : xdr.Lib} (body : xdr.OperationBody) : Prop :=
  match body with
  | xdr.BodyPathPaymentStrictReceive _
  | xdr.BodyPathPaymentStrictSend _
  | xdr.BodyManageBuyOffer _
  | xdr.BodyManageSellOffer _
  | xdr.BodyCreatePassiveSellOffer _ => True
  | _ => False
  end.

(** [extracted a p]: [p] holds the type, code and issuer that [Extract]
    reads from [a]. *)
Definition extracted {L : xdr.Lib} (a : xdr.Asset) (p : PathT) : Prop :=
  xdr.Asset_Extract a
  = Some (Path_AssetType p, Path_AssetCode p, Path_AssetIssuer p).

(** The declared path of a path-payment body. *)
Definition declaredPath {L : xdr.Lib} (body : xdr.OperationBody)
  : option (list xdr.Asset) :=
  match body with
  | xdr.BodyPathPaymentStrictReceive op =>
      Some (xdr.PathPaymentStrictReceiveOp_Path op)
  | xdr.BodyPathPaymentStrictSend op =>
      Some (xdr.PathPaymentStrictSendOp_Path op)
  | _ => None
  end.

(** The rendered address of the effective source account of an operation,
    when it renders. *)
Definition sourceAddress {L : xdr.Lib}
  (operation : xdr.Operation) (transaction : ingest.LedgerTransaction)
  : option string :=
  xdr.AccountId_GetAddress
    (xdr.MuxedAccount_ToAccountId
       (getOperationSourceAccount operation transaction)).

(** The execution result of the operation at [operationIndex], when the
    transaction exposes a results list that is longer than the index. *)
Definition resultAt {L : xdr.Lib}
  (transaction : ingest.LedgerTransaction) (operationIndex : Z)
  : option xdr.OperationResult :=
  match xdr.TransactionResultPair_OperationResults
          (ingest.Result transaction) with
  | Some allOperationResults =>
      if 0 <=? operationIndex
      then nth_error allOperationResults (Z.to_nat operationIndex)
      else None
  | None => None
  end.

(** The four asset slots of a record and the slot a prefix selects: any
    prefix other than "buying", "selling" and "source" selects the plain
    one. *)
Inductive AssetSlot : Type :=
| SlotPlain
| SlotBuying
| SlotSelling
| SlotSource.

Definition slotOf (prefix : string) : AssetSlot :=
  if (prefix =? "buying")%string then SlotBuying
  else if (prefix =? "selling")%string then SlotSelling
  else if (prefix =? "source")%string then SlotSource
  else SlotPlain.

(** The (type, code, issuer) fields of a slot. *)
Definition slot {L : xdr.Lib} (s : AssetSlot) (d : Details)
  : string * string * string :=
  match s with
  | SlotPlain => (AssetType d, AssetCode d, AssetIssuer d)
  | SlotBuying => (BuyingAssetType d, BuyingAssetCode d, BuyingAssetIssuer d)
  | SlotSelling =>
      (SellingAssetType d, SellingAssetCode d, SellingAssetIssuer d)
  | SlotSource => (SourceAssetType d, SourceAssetCode d, SourceAssetIssuer d)
  end.

(** The five slices of a record that the post-pass allocates. *)
Definition listFields {L : xdr.Lib} (d : Details)
  : slice PathT * slice Z * slice string * slice Z * slice string :=
  (Path d, SetFlags d, SetFlagsString d, ClearFlags d, ClearFlagsString d).

(** What an error of [extractOperationDetails] says about its input: the
    kinds that can return it and the condition under which they do. *)
Definition explains {L : xdr.Lib}
  (operation : xdr.Operation) (transaction : ingest.LedgerTransaction)
  (operationIndex : Z) (e : error) : Prop :=
  let kind := xdr.OperationBody_Type (xdr.Operation_Body operation) in
  let successful :=
    xdr.TransactionResultPair_Successful (ingest.Result transaction) in
  match e with
  | AddressDecodeError =>
      sourceAddress operation transaction = None
      \/ kind = xdr.OperationTypePayment
      \/ kind = xdr.OperationTypePathPaymentStrictReceive
      \/ kind = xdr.OperationTypePathPaymentStrictSend
      \/ kind = xdr.OperationTypeAccountMerge
      \/ kind = xdr.OperationTypeClawback
  | MissingResults =>
      xdr.TransactionResultPair_OperationResults (ingest.Result transaction)
      = None
  | SchemaMismatch _ i =>
      i = operationIndex
      /\ exists t, xdr.Operation_Body operation = xdr.BodyOther t
  | MissingResultBody i | MissingResultInfo _ i =>
      i = operationIndex /\ successful = true
      /\ (kind = xdr.OperationTypePathPaymentStrictReceive
          \/ kind = xdr.OperationTypePathPaymentStrictSend)
  | UnsupportedOperationType t => t = kind /\ (kind < 0 \/ 21 < kind)
  | MalformedBalanceId i =>
      i = operationIndex
      /\ (kind = xdr.OperationTypeClaimClaimableBalance
          \/ kind = xdr.OperationTypeClawbackClaimableBalance)
  | MalformedLedgerKey cause =>
      cause = MarshalHexError /\ kind = xdr.OperationTypeRevokeSponsorship
  | SponsorAddressError i =>
      i = operationIndex /\ successful = true
      /\ kind = xdr.OperationTypeEndSponsoringFutureReserves
  | AssetExtractError =>
      exists op, xdr.Operation_Body operation = xdr.BodyPayment op
                 /\ xdr.Asset_Extract (xdr.PaymentOp_Asset op) = None
  | ParseFloatError =>
      kind = xdr.OperationTypeManageSellOffer
      \/ kind = xdr.OperationTypeCreatePassiveSellOffer
      \/ kind = xdr.OperationTypeManageBuyOffer
  | ErrForOperation _ _ _ | NegativeTypeError _ _ _ | MarshalHexError => False
  end.

(** The flags a record lists for a mask: the named bits that are set in it,
    and none for a mask that is absent or is not positive. *)
Definition reportedFlags (bits : list (Z * string)) (mask : option Z)
  : list (Z * string) :=
  match mask with
  | Some m => if m >? 0 then setBits bits m else []
  | None => []
  end.

(** [renderedClaimant c out]: [c] holds the V0 arm, [out] carries its
    predicate and the rendered address of its destination. *)
Definition renderedClaimant {L : xdr.Lib} (c : xdr.Claimant) (out : Claimant)
  : Prop :=
  exists cv0 : xdr.ClaimantV0,
    c = xdr.ClaimantTypeV0 cv0
    /\ xdr.AccountId_GetAddress (xdr.ClaimantV0_Destination cv0)
       = Some (Claimant_Destination out)
    /\ Claimant_Predicate out = xdr.ClaimantV0_Predicate cv0.

(** The account id that [addLedgerKeyToDetails] renders for a ledger key:
    the offer key has a seller, which is not rendered. *)
Definition renderedAccount {L : xdr.Lib} (ledgerKey : xdr.LedgerKey)
  : option xdr.AccountId :=
  match ledgerKey with
  | xdr.LedgerEntryTypeAccount accountId
  | xdr.LedgerEntryTypeTrustline accountId _
  | xdr.LedgerEntryTypeData accountId _ => Some accountId
  | _ => None
  end.

(** * Properties *)

(** ** Integers and identifiers *)


Lemma int32_of_small (v : Z) : - 2 ^ 31 <= v < 2 ^ 31 -> int32_of v = v.
Proof.
  intros H. unfold int32_of. rewrite Z.mod_small; lia.
Qed.





(** ** Fixed-point amounts *)

(** C8. The stroop conversion is the exact quotient by 10^7: multiplying the
    result by 10^7 gives back the stroop value, two different stroop values
    never convert to the same decimal, 15000000 stroops are 1.5000000 and one
    stroop is 0.0000001. *)
Theorem C8_stroop_conversion_exact :
  (forall input : Z,
      utils.ConvertStroopValueToReal input * inject_Z (10 ^ 7)
      == inject_Z input)%Q
  /\ (forall a b : Z,
         (utils.ConvertStroopValueToReal a
          == utils.ConvertStroopValueToReal b)%Q -> a = b)
  /\ (utils.ConvertStroopValueToReal 15000000 == 1.5000000)%Q
  /\ (utils.ConvertStroopValueToReal 1 == 0.0000001)%Q.
Proof.
  repeat split.
  - intros input. unfold utils.ConvertStroopValueToReal, Qeq. cbn. lia.
  - intros a b. unfold utils.ConvertStroopValueToReal, Qeq. cbn. lia.
Qed.

(** ** Flag decomposition *)

Lemma land_pow2 (x k : Z) :
  0 <= k -> Z.land x (2 ^ k) = if Z.testbit x k then 2 ^ k else 0.
Proof.
  intros Hk. apply Z.bits_inj'. intros i Hi.
  rewrite Z.land_spec, Z.pow2_bits_eqb by assumption.
  destruct (Z.eqb_spec k i) as [-> | Hne].
  - destruct (Z.testbit x i) eqn:Hx.
    + rewrite Z.pow2_bits_true by assumption. reflexivity.
    + rewrite Z.bits_0. reflexivity.
  - rewrite andb_false_r. destruct (Z.testbit x k).
    + rewrite Z.pow2_bits_false by assumption. reflexivity.
    + rewrite Z.bits_0. reflexivity.
Qed.

Lemma testbit_int64_of (x k : Z) :
  0 <= k < 64 -> Z.testbit (int64_of x) k = Z.testbit x k.
Proof.
  intros Hk. unfold int64_of.
  rewrite Z.mod_eq by lia.
  replace (x + 2 ^ 63 - 2 ^ 64 * ((x + 2 ^ 63) / 2 ^ 64) - 2 ^ 63)
    with (x + - ((x + 2 ^ 63) / 2 ^ 64) * 2 ^ 64) by lia.
  rewrite <- (Z.mod_pow2_bits_low (x + _ * 2 ^ 64) 64 k) by lia.
  rewrite Z.mod_add by lia.
  apply Z.mod_pow2_bits_low. lia.
Qed.

(** The test [(int64(flag) & int64(bit)) > 0] of the source reads one bit. *)
Lemma flag_test (flag k : Z) :
  0 <= k < 63 ->
  (Z.land (int64_of flag) (2 ^ k) >? 0) = negb (Z.land flag (2 ^ k) =? 0).
Proof.
  intros Hk. rewrite !land_pow2 by lia.
  rewrite testbit_int64_of by lia.
  assert (0 < 2 ^ k) by (apply Z.pow_pos_nonneg; lia).
  destruct (Z.testbit flag k).
  - destruct (Z.gtb_spec (2 ^ k) 0), (Z.eqb_spec (2 ^ k) 0);
      try reflexivity; lia.
  - reflexivity.
Qed.

Lemma operationFlagSlices_setBits (flag : Z) :
  operationFlagSlices flag
  = (Some (map fst (setBits accountFlagBits flag)),
     Some (map snd (setBits accountFlagBits flag))).
Proof.
  pose proof (flag_test flag 0 ltac:(lia)) as H0.
  pose proof (flag_test flag 1 ltac:(lia)) as H1.
  pose proof (flag_test flag 2 ltac:(lia)) as H2.
  change (2 ^ 0) with 1 in H0. change (2 ^ 1) with 2 in H1.
  change (2 ^ 2) with 4 in H2.
  unfold operationFlagSlices, setBits, accountFlagBits.
  change (int64_of 1) with 1. change (int64_of 2) with 2.
  change (int64_of 4) with 4.
  rewrite H0, H1, H2. cbn [filter fst snd].
  destruct (negb (Z.land flag 1 =? 0)), (negb (Z.land flag 2 =? 0)),
    (negb (Z.land flag 4 =? 0)); reflexivity.
Qed.

Lemma trustLineFlagSlices_setBits (f : Z) :
  elems (fst (trustLineFlagSlices f)) = map fst (setBits trustLineFlagBits f)
  /\ elems (snd (trustLineFlagSlices f))
     = map snd (setBits trustLineFlagBits f).
Proof.
  unfold trustLineFlagSlices, setBits, trustLineFlagBits, xdr.IsAuthorized,
    xdr.IsAuthorizedToMaintainLiabilitiesFlag, xdr.IsClawbackEnabledFlag.
  cbn [filter fst snd].
  destruct (negb (Z.land f 1 =? 0)), (negb (Z.land f 2 =? 0)),
    (negb (Z.land f 4 =? 0)); split; reflexivity.
Qed.

Section Properties.
Context {L : xdr.Lib} {R : GoRuntime}.

(** What the flag helpers store in the record. *)
Lemma addOperationFlagToOperationDetails_set (d : Details) (flag : Z) :
  SetFlags (addOperationFlagToOperationDetails d flag "set")
  = fst (operationFlagSlices flag)
  /\ SetFlagsString (addOperationFlagToOperationDetails d flag "set")
     = snd (operationFlagSlices flag).
Proof.
  unfold addOperationFlagToOperationDetails.
  destruct (operationFlagSlices flag). split; reflexivity.
Qed.

Lemma addOperationFlagToOperationDetails_clear (d : Details) (flag : Z) :
  ClearFlags (addOperationFlagToOperationDetails d flag "clear")
  = fst (operationFlagSlices flag)
  /\ ClearFlagsString (addOperationFlagToOperationDetails d flag "clear")
     = snd (operationFlagSlices flag).
Proof.
  unfold addOperationFlagToOperationDetails.
  destruct (operationFlagSlices flag). split; reflexivity.
Qed.

Lemma addTrustLineFlagToDetails_set (d : Details) (f : Z) :
  SetFlags (addTrustLineFlagToDetails d f "set")
  = fst (trustLineFlagSlices f)
  /\ SetFlagsString (addTrustLineFlagToDetails d f "set")
     = snd (trustLineFlagSlices f).
Proof.
  unfold addTrustLineFlagToDetails.
  destruct (trustLineFlagSlices f). split; reflexivity.
Qed.

Lemma addTrustLineFlagToDetails_clear (d : Details) (f : Z) :
  ClearFlags (addTrustLineFlagToDetails d f "clear")
  = fst (trustLineFlagSlices f)
  /\ ClearFlagsString (addTrustLineFlagToDetails d f "clear")
     = snd (trustLineFlagSlices f).
Proof.
  unfold addTrustLineFlagToDetails.
  destruct (trustLineFlagSlices f). split; reflexivity.
Qed.

(** C6. For every bitmask, the account-flag and the trustline-flag
    decompositions build the values and the names of exactly the bits of
    their domain that are set in the mask, in the enumeration order of the
    domain; the two sequences have the same length; these are the sequences
    stored in the record under the "set" and the "clear" prefix; and the mask
    of auth-revocable and auth-immutable gives those two names in that
    order. *)
Theorem C6_flag_decomposition :
  (forall flag : Z,
      let '(intFlags, stringFlags) := operationFlagSlices flag in
      elems intFlags = map fst (setBits accountFlagBits flag)
      /\ elems stringFlags = map snd (setBits accountFlagBits flag)
      /\ List.length (elems intFlags) = List.length (elems stringFlags))
  /\ (forall f : Z,
         let '(n, s) := trustLineFlagSlices f in
         elems n = map fst (setBits trustLineFlagBits f)
         /\ elems s = map snd (setBits trustLineFlagBits f)
         /\ List.length (elems n) = List.length (elems s))
  /\ (forall (b : Z * string) (mask : Z) (bits : list (Z * string)),
         In b (setBits bits mask) <-> In b bits /\ Z.land mask (fst b) <> 0)
  /\ (forall (d : Details) (mask : Z),
         elems (SetFlags (addOperationFlagToOperationDetails d mask "set"))
         = map fst (setBits accountFlagBits mask)
         /\ elems
              (SetFlagsString (addOperationFlagToOperationDetails d mask "set"))
            = map snd (setBits accountFlagBits mask)
         /\ elems
              (ClearFlags (addOperationFlagToOperationDetails d mask "clear"))
            = map fst (setBits accountFlagBits mask)
         /\ elems
              (ClearFlagsString
                 (addOperationFlagToOperationDetails d mask "clear"))
            = map snd (setBits accountFlagBits mask)
         /\ elems (SetFlags (addTrustLineFlagToDetails d mask "set"))
            = map fst (setBits trustLineFlagBits mask)
         /\ elems (SetFlagsString (addTrustLineFlagToDetails d mask "set"))
            = map snd (setBits trustLineFlagBits mask)
         /\ elems (ClearFlags (addTrustLineFlagToDetails d mask "clear"))
            = map fst (setBits trustLineFlagBits mask)
         /\ elems
              (ClearFlagsString (addTrustLineFlagToDetails d mask "clear"))
            = map snd (setBits trustLineFlagBits mask))
  /\ snd (operationFlagSlices
            (Z.lor xdr.AccountFlagsAuthRevocableFlag
               xdr.AccountFlagsAuthImmutableFlag))
     = Some ["auth_revocable"; "auth_immutable"].
Proof.
  split; [| split; [| split; [| split]]].
  - intros flag. rewrite operationFlagSlices_setBits. cbn [elems].
    rewrite !length_map. auto.
  - intros f. pose proof (trustLineFlagSlices_setBits f) as [Hn Hs].
    destruct (trustLineFlagSlices f) as [n s]. cbn [fst snd] in Hn, Hs.
    rewrite Hn, Hs, !length_map. auto.
  - intros b mask bits. unfold setBits. rewrite filter_In.
    destruct (Z.eqb_spec (Z.land mask (fst b)) 0); cbn; intuition congruence.
  - intros d mask.
    destruct (addOperationFlagToOperationDetails_set d mask) as [-> ->].
    destruct (addOperationFlagToOperationDetails_clear d mask) as [-> ->].
    destruct (addTrustLineFlagToDetails_set d mask) as [-> ->].
    destruct (addTrustLineFlagToDetails_clear d mask) as [-> ->].
    rewrite operationFlagSlices_setBits. cbn [fst snd elems].
    pose proof (trustLineFlagSlices_setBits mask) as [Hn Hs].
    rewrite Hn, Hs. repeat split; reflexivity.
  - reflexivity.
Qed.

(** ** Returns, errors and panics *)

Lemma bind_Done_inv {A B : Type} (m : exec A) (k : A -> exec B) (b : B) :
  bind m k = Done b -> exists a, m = Done a /\ k a = Done b.
Proof.
  destruct m as [a | p]; cbn; [eauto | discriminate].
Qed.

Lemma check_ok_inv {A B : Type} `{Zero B}
  (m : result A) (k : A -> result B) (b : B) :
  check m k = Done (b, None) ->
  exists a, m = Done (a, None) /\ k a = Done (b, None).
Proof.
  unfold check, fail. destruct m as [[a [e |]] | p]; cbn;
    [discriminate | eauto | discriminate].
Qed.

Lemma check_err_inv {A B : Type} `{Zero B}
  (m : result A) (k : A -> result B) (b : B) (e : error) :
  check m k = Done (b, Some e) ->
  (b = zero /\ exists a, m = Done (a, Some e))
  \/ (exists a, m = Done (a, None) /\ k a = Done (b, Some e)).
Proof.
  unfold check, fail. destruct m as [[a [e' |]] | p]; cbn.
  - intros Heq. inversion Heq; subst. left. eauto.
  - right. eauto.
  - discriminate.
Qed.

Lemma index_in_range {A : Type} (name : string) (s : list A) (i : Z) :
  0 <= i < Z.of_nat (List.length s) ->
  exists x, nth_error s (Z.to_nat i) = Some x /\ index name s i = Done x.
Proof.
  intros Hi. unfold index.
  destruct (Z.leb_spec 0 i); [| lia]. destruct (Z.ltb_spec i (Z.of_nat (List.length s))); [| lia].
  cbn [andb].
  destruct (nth_error s (Z.to_nat i)) as [x |] eqn:Hx; [eauto |].
  apply nth_error_None in Hx. lia.
Qed.

Lemma index_out_of_range {A : Type} (name : string) (s : list A) (i : Z) :
  ~ 0 <= i < Z.of_nat (List.length s) ->
  index name s i = Panics (IndexOutOfRange name i (Z.of_nat (List.length s))).
Proof.
  intros Hi. unfold index.
  destruct (Z.leb_spec 0 i); destruct (Z.ltb_spec i (Z.of_nat (List.length s)));
    cbn [andb]; try reflexivity; lia.
Qed.

(** ** The never-nil slices *)

Lemma ensureSlicesAreNotNil_present (d : Details) :
  Path (ensureSlicesAreNotNil d) <> None
  /\ SetFlags (ensureSlicesAreNotNil d) <> None
  /\ SetFlagsString (ensureSlicesAreNotNil d) <> None
  /\ ClearFlags (ensureSlicesAreNotNil d) <> None
  /\ ClearFlagsString (ensureSlicesAreNotNil d) <> None.
Proof.
  destruct d as [? ? ? ? ? ? ? ? ? ? ? ? ? ? ? clearFlags clearFlagsString
                   ? ? ? ? ? ? ? ? ? ? ? ? ? ? ? path ? ? ? ? ? setFlags
                   setFlagsString ? ? ? ? ? ? ? ? ? ? ? ? ? ? ? ?].
  destruct path, setFlags, setFlagsString, clearFlags, clearFlagsString;
    cbn; unfold make_empty; repeat split; discriminate.
Qed.

Lemma extractOperationDetails_ok_inv
  (operation : xdr.Operation) (transaction : ingest.LedgerTransaction)
  (operationIndex : Z) (d : Details) :
  extractOperationDetails operation transaction operationIndex
  = Done (d, None) ->
  exists (address : string) (allOperationResults : list xdr.OperationResult)
         (currentOperationResult : xdr.OperationResult) (d' : Details),
    utils.GetAccountAddressFromMuxedAccount
      (getOperationSourceAccount operation transaction)
    = Done (address, None)
    /\ xdr.TransactionResultPair_OperationResults (ingest.Result transaction)
       = Some allOperationResults
    /\ index "allOperationResults" allOperationResults operationIndex
       = Done currentOperationResult
    /\ switch_operationType operation transaction operationIndex
         (getOperationSourceAccount operation transaction) address
         currentOperationResult Details_zero
         (xdr.OperationBody_Type (xdr.Operation_Body operation))
       = Done (d', None)
    /\ d = ensureSlicesAreNotNil d'.
Proof.
  unfold extractOperationDetails. intros H.
  apply check_ok_inv in H as (address & Haddr & H).
  destruct (xdr.TransactionResultPair_OperationResults
              (ingest.Result transaction)) as [results |]; [| discriminate].
  apply bind_Done_inv in H as (current & Hidx & H).
  apply check_ok_inv in H as (d' & Hswitch & H).
  inversion H; subst. exists address, results, current, d'. auto.
Qed.

(** C3. Whenever [TransformOperation] returns a record without an error,
    whatever the kind of the operation, the record's [path], [set_flags],
    [set_flags_string], [clear_flags] and [clear_flags_string] are allocated
    slices, never nil. *)
Theorem C3_list_fields_never_nil
  (operation : xdr.Operation) (operationIndex : Z)
  (transaction : ingest.LedgerTransaction) (ledgerSeq : Z)
  (output : OperationOutput) :
  TransformOperation operation operationIndex transaction ledgerSeq
  = Done (output, None) ->
  Path (OperationDetails output) <> None
  /\ SetFlags (OperationDetails output) <> None
  /\ SetFlagsString (OperationDetails output) <> None
  /\ ClearFlags (OperationDetails output) <> None
  /\ ClearFlagsString (OperationDetails output) <> None.
Proof.
  unfold TransformOperation. intros H.
  apply bind_Done_inv in H as ([address [e |]] & _ & H); [discriminate |].
  destruct (int32_of _ <? 0); [discriminate |].
  apply check_ok_inv in H as (d & Hd & H).
  inversion H; subst. cbn [OperationDetails].
  apply extractOperationDetails_ok_inv in Hd as (_ & _ & _ & d' & _ & _ & _ & _ & ->).
  apply ensureSlicesAreNotNil_present.
Qed.

(** ** Unsupported operation types *)

Lemma switch_operationType_default
  (operation : xdr.Operation) (transaction : ingest.LedgerTransaction)
  (operationIndex : Z) (sourceAccount : xdr.MuxedAccount)
  (sourceAccountAddress : string)
  (currentOperationResult : xdr.OperationResult) (outputDetails : Details)
  (operationType : Z) :
  operationType < 0 \/ 21 < operationType ->
  switch_operationType operation transaction operationIndex sourceAccount
    sourceAccountAddress currentOperationResult outputDetails operationType
  = fail (UnsupportedOperationType
            (xdr.OperationBody_Type (xdr.Operation_Body operation))).
Proof.
  intros Ht. unfold switch_operationType.
  destruct operationType as [| p | p]; [lia | | reflexivity].
  repeat match goal with
         | p : positive |- _ => destruct p; try reflexivity; try lia
         end.
Qed.

Lemma GetAccountAddressFromMuxedAccount_renders
  (account : xdr.MuxedAccount) (address : string) :
  xdr.AccountId_GetAddress (xdr.MuxedAccount_ToAccountId account)
  = Some address ->
  utils.GetAccountAddressFromMuxedAccount account = Done (address, None).
Proof.
  intros H. unfold utils.GetAccountAddressFromMuxedAccount. rewrite H.
  reflexivity.
Qed.

(** The shape of [extractOperationDetails] once the source address renders
    and the result of the operation has been read. *)
Lemma extractOperationDetails_switch
  (operation : xdr.Operation) (transaction : ingest.LedgerTransaction)
  (operationIndex : Z) (address : string)
  (allOperationResults : list xdr.OperationResult) :
  xdr.AccountId_GetAddress
    (xdr.MuxedAccount_ToAccountId
       (getOperationSourceAccount operation transaction)) = Some address ->
  xdr.TransactionResultPair_OperationResults (ingest.Result transaction)
  = Some allOperationResults ->
  0 <= operationIndex < Z.of_nat (List.length allOperationResults) ->
  exists currentOperationResult : xdr.OperationResult,
    nth_error allOperationResults (Z.to_nat operationIndex)
    = Some currentOperationResult
    /\ index "allOperationResults" allOperationResults operationIndex
       = Done currentOperationResult
    /\ extractOperationDetails operation transaction operationIndex
       = (outputDetails <-?
            switch_operationType operation transaction operationIndex
              (getOperationSourceAccount operation transaction) address
              currentOperationResult Details_zero
              (xdr.OperationBody_Type (xdr.Operation_Body operation)) ;;
          ok (ensureSlicesAreNotNil outputDetails)).
Proof.
  intros Haddr Hres Hidx.
  destruct (index_in_range "allOperationResults" allOperationResults
              operationIndex Hidx) as (current & Hnth & Hindex).
  exists current. split; [assumption | split; [assumption |]].
  unfold extractOperationDetails.
  rewrite (GetAccountAddressFromMuxedAccount_renders _ _ Haddr).
  cbn [check bind]. rewrite Hres, Hindex. reflexivity.
Qed.

(** C5 (as amended). An operation whose type tag is non-negative and
    outside the handled kinds (above 21) never yields a record. When the
    checks that run before the switch pass, that is, its source account
    renders and the transaction's results list is present and covers the
    operation index, [TransformOperation] fails with
    [UnsupportedOperationType]; when the source account does not render it
    fails with the wrapped address error, when the results list is absent
    with the missing-results error, and when the list does not cover the
    operation index the index panics. On every error the returned output is
    the zero value. *)
Theorem C5_unsupported_type_fails_without_partial_record :
  (forall (operation : xdr.Operation) (operationIndex : Z)
          (transaction : ingest.LedgerTransaction) (ledgerSeq : Z)
          (address : string)
          (allOperationResults : list xdr.OperationResult),
      21 < xdr.OperationBody_Type (xdr.Operation_Body operation) < 2 ^ 31 ->
      xdr.AccountId_GetAddress
        (xdr.MuxedAccount_ToAccountId
           (getOperationSourceAccount operation transaction))
      = Some address ->
      xdr.TransactionResultPair_OperationResults (ingest.Result transaction)
      = Some allOperationResults ->
      0 <= operationIndex < Z.of_nat (List.length allOperationResults) ->
      TransformOperation operation operationIndex transaction ledgerSeq
      = Done (OperationOutput_zero,
              Some (UnsupportedOperationType
                      (xdr.OperationBody_Type (xdr.Operation_Body operation)))))
  /\ (forall (operation : xdr.Operation) (operationIndex : Z)
             (transaction : ingest.LedgerTransaction) (ledgerSeq : Z)
             (output : OperationOutput),
         xdr.OperationBody_Type (xdr.Operation_Body operation) < 0
         \/ 21 < xdr.OperationBody_Type (xdr.Operation_Body operation) ->
         TransformOperation operation operationIndex transaction ledgerSeq
         <> Done (output, None))
  /\ (forall (operation : xdr.Operation) (operationIndex : Z)
             (transaction : ingest.LedgerTransaction) (ledgerSeq : Z)
             (output : OperationOutput) (e : error),
         TransformOperation operation operationIndex transaction ledgerSeq
         = Done (output, Some e) ->
         output = OperationOutput_zero)
  /\ (forall (operation : xdr.Operation) (operationIndex : Z)
             (transaction : ingest.LedgerTransaction) (ledgerSeq : Z),
         21 < xdr.OperationBody_Type (xdr.Operation_Body operation) < 2 ^ 31 ->
         sourceAddress operation transaction = None ->
         TransformOperation operation operationIndex transaction ledgerSeq
         = Done (OperationOutput_zero,
                 Some (ErrForOperation operationIndex
                         (toid.ToInt64
                            (toid.New ledgerSeq
                               (int32_of (ingest.Index transaction))
                               (int32_of (operationIndex + 1))))
                         AddressDecodeError)))
  /\ (forall (operation : xdr.Operation) (operationIndex : Z)
             (transaction : ingest.LedgerTransaction) (ledgerSeq : Z),
         21 < xdr.OperationBody_Type (xdr.Operation_Body operation) < 2 ^ 31 ->
         sourceAddress operation transaction <> None ->
         xdr.TransactionResultPair_OperationResults
           (ingest.Result transaction) = None ->
         TransformOperation operation operationIndex transaction ledgerSeq
         = Done (OperationOutput_zero, Some MissingResults))
  /\ (forall (operation : xdr.Operation) (operationIndex : Z)
             (transaction : ingest.LedgerTransaction) (ledgerSeq : Z)
             (allOperationResults : list xdr.OperationResult),
         21 < xdr.OperationBody_Type (xdr.Operation_Body operation) < 2 ^ 31 ->
         sourceAddress operation transaction <> None ->
         xdr.TransactionResultPair_OperationResults
           (ingest.Result transaction) = Some allOperationResults ->
         ~ 0 <= operationIndex < Z.of_nat (List.length allOperationResults) ->
         TransformOperation operation operationIndex transaction ledgerSeq
         = Panics (IndexOutOfRange "allOperationResults" operationIndex
                     (Z.of_nat (List.length allOperationResults)))).
Proof.
  split; [| split; [| split; [| split; [| split]]]].
  - intros operation operationIndex transaction ledgerSeq address results
      Ht Haddr Hres Hidx.
    destruct (extractOperationDetails_switch operation transaction
                operationIndex address results Haddr Hres Hidx)
      as (current & _ & _ & Hextract).
    unfold TransformOperation.
    rewrite (GetAccountAddressFromMuxedAccount_renders _ _ Haddr).
    cbn [bind]. rewrite int32_of_small by lia.
    destruct (Z.ltb_spec (xdr.OperationBody_Type (xdr.Operation_Body operation)) 0);
      [lia |].
    rewrite Hextract, switch_operationType_default by lia. reflexivity.
  - intros operation operationIndex transaction ledgerSeq output Ht H.
    unfold TransformOperation in H.
    apply bind_Done_inv in H as ([address [e |]] & _ & H); [discriminate |].
    destruct (int32_of _ <? 0); [discriminate |].
    apply check_ok_inv in H as (d & Hd & _).
    apply extractOperationDetails_ok_inv in Hd
      as (a & rs & cur & d' & _ & _ & _ & Hswitch & _).
    rewrite switch_operationType_default in Hswitch by assumption.
    discriminate.
  - intros operation operationIndex transaction ledgerSeq output e H.
    unfold TransformOperation in H.
    apply bind_Done_inv in H as ([address [e' |]] & _ & H).
    + inversion H. reflexivity.
    + destruct (int32_of _ <? 0).
      * inversion H. reflexivity.
      * apply check_err_inv in H as [[-> _] | (d & _ & H)];
          [reflexivity | discriminate].
  - intros operation operationIndex transaction ledgerSeq Ht Haddr.
    unfold sourceAddress in Haddr.
    unfold TransformOperation, utils.GetAccountAddressFromMuxedAccount.
    rewrite Haddr. reflexivity.
  - intros operation operationIndex transaction ledgerSeq Ht Haddr Hres.
    unfold sourceAddress in Haddr.
    destruct (xdr.AccountId_GetAddress
                (xdr.MuxedAccount_ToAccountId
                   (getOperationSourceAccount operation transaction)))
      as [address |] eqn:Ha; [| congruence].
    unfold TransformOperation, extractOperationDetails.
    rewrite (GetAccountAddressFromMuxedAccount_renders _ _ Ha).
    cbn [bind check]. rewrite int32_of_small by lia.
    destruct (Z.ltb_spec
                (xdr.OperationBody_Type (xdr.Operation_Body operation)) 0);
      [lia |].
    rewrite Hres. reflexivity.
  - intros operation operationIndex transaction ledgerSeq results Ht Haddr
      Hres Hout.
    unfold sourceAddress in Haddr.
    destruct (xdr.AccountId_GetAddress
                (xdr.MuxedAccount_ToAccountId
                   (getOperationSourceAccount operation transaction)))
      as [address |] eqn:Ha; [| congruence].
    unfold TransformOperation, extractOperationDetails.
    rewrite (GetAccountAddressFromMuxedAccount_renders _ _ Ha).
    cbn [bind check]. rewrite int32_of_small by lia.
    destruct (Z.ltb_spec
                (xdr.OperationBody_Type (xdr.Operation_Body operation)) 0);
      [lia |].
    rewrite Hres, (index_out_of_range _ _ _ Hout). reflexivity.
Qed.

(** ** The results list is read for every kind *)

(** C9. For every operation kind and whether or not the transaction
    succeeded, [extractOperationDetails] fails with an error when the
    transaction exposes no results list; when the list is present it is
    indexed at the operation index without a bounds check, which panics when
    the index is not below the length of the list; and when the index is
    below the length the access yields the result at that index and
    extraction goes on with the switch on the operation type. *)
Theorem C9_results_list_indexed_before_dispatch :
  (forall (operation : xdr.Operation) (transaction : ingest.LedgerTransaction)
          (operationIndex : Z),
      xdr.TransactionResultPair_OperationResults (ingest.Result transaction)
      = None ->
      exists e : error,
        extractOperationDetails operation transaction operationIndex
        = Done (Details_zero, Some e))
  /\ (forall (operation : xdr.Operation)
             (transaction : ingest.LedgerTransaction) (operationIndex : Z)
             (address : string),
         xdr.AccountId_GetAddress
           (xdr.MuxedAccount_ToAccountId
              (getOperationSourceAccount operation transaction))
         = Some address ->
         xdr.TransactionResultPair_OperationResults (ingest.Result transaction)
         = None ->
         extractOperationDetails operation transaction operationIndex
         = Done (Details_zero, Some MissingResults))
  /\ (forall (operation : xdr.Operation)
             (transaction : ingest.LedgerTransaction) (operationIndex : Z)
             (address : string)
             (allOperationResults : list xdr.OperationResult),
         xdr.AccountId_GetAddress
           (xdr.MuxedAccount_ToAccountId
              (getOperationSourceAccount operation transaction))
         = Some address ->
         xdr.TransactionResultPair_OperationResults (ingest.Result transaction)
         = Some allOperationResults ->
         ~ 0 <= operationIndex < Z.of_nat (List.length allOperationResults) ->
         extractOperationDetails operation transaction operationIndex
         = Panics (IndexOutOfRange "allOperationResults" operationIndex
                     (Z.of_nat (List.length allOperationResults))))
  /\ (forall (operation : xdr.Operation)
             (transaction : ingest.LedgerTransaction) (operationIndex : Z)
             (address : string)
             (allOperationResults : list xdr.OperationResult),
         xdr.AccountId_GetAddress
           (xdr.MuxedAccount_ToAccountId
              (getOperationSourceAccount operation transaction))
         = Some address ->
         xdr.TransactionResultPair_OperationResults (ingest.Result transaction)
         = Some allOperationResults ->
         0 <= operationIndex < Z.of_nat (List.length allOperationResults) ->
         exists currentOperationResult : xdr.OperationResult,
           nth_error allOperationResults (Z.to_nat operationIndex)
           = Some currentOperationResult
           /\ index "allOperationResults" allOperationResults operationIndex
              = Done currentOperationResult
           /\ extractOperationDetails operation transaction operationIndex
              = (outputDetails <-?
                   switch_operationType operation transaction operationIndex
                     (getOperationSourceAccount operation transaction)
                     address currentOperationResult Details_zero
                     (xdr.OperationBody_Type (xdr.Operation_Body operation)) ;;
                 ok (ensureSlicesAreNotNil outputDetails))).
Proof.
  split; [| split; [| split]].
  - intros operation transaction operationIndex Hres.
    unfold extractOperationDetails, utils.GetAccountAddressFromMuxedAccount.
    destruct (xdr.AccountId_GetAddress _) as [address |].
    + exists MissingResults. cbn [check bind ok]. rewrite Hres. reflexivity.
    + exists AddressDecodeError. reflexivity.
  - intros operation transaction operationIndex address Haddr Hres.
    unfold extractOperationDetails.
    rewrite (GetAccountAddressFromMuxedAccount_renders _ _ Haddr).
    cbn [check bind]. rewrite Hres. reflexivity.
  - intros operation transaction operationIndex address results Haddr Hres
      Hidx.
    unfold extractOperationDetails.
    rewrite (GetAccountAddressFromMuxedAccount_renders _ _ Haddr).
    cbn [check bind]. rewrite Hres, index_out_of_range by assumption.
    reflexivity.
  - intros operation transaction operationIndex address results Haddr Hres
      Hidx.
    exact (extractOperationDetails_switch operation transaction
             operationIndex address results Haddr Hres Hidx).
Qed.

(** ** Shapes shared by the per-kind properties *)

(** The post-pass touches the five slices and nothing else. *)
Lemma ensureSlicesAreNotNil_shape (d : Details) :
  ensureSlicesAreNotNil d
  = set_ClearFlagsString (Some (elems (ClearFlagsString d)))
      (set_ClearFlags (Some (elems (ClearFlags d)))
         (set_SetFlagsString (Some (elems (SetFlagsString d)))
            (set_SetFlags (Some (elems (SetFlags d)))
               (set_Path (Some (elems (Path d))) d)))).
Proof.
  destruct d as [? ? ? ? ? ? ? ? ? ? ? ? ? ? ? clearFlags clearFlagsString
                   ? ? ? ? ? ? ? ? ? ? ? ? ? ? ? path ? ? ? ? ? setFlags
                   setFlagsString ? ? ? ? ? ? ? ? ? ? ? ? ? ? ? ?].
  destruct path, setFlags, setFlagsString, clearFlags, clearFlagsString;
    vm_compute; reflexivity.
Qed.

Lemma switch_operationType_Payment
  operation transaction operationIndex sourceAccount sourceAccountAddress
  currentOperationResult outputDetails :
  switch_operationType operation transaction operationIndex sourceAccount
    sourceAccountAddress currentOperationResult outputDetails
    xdr.OperationTypePayment
  = case_Payment operation operationIndex sourceAccountAddress outputDetails.
Proof. reflexivity. Qed.

Lemma switch_operationType_PathPaymentStrictReceive
  operation transaction operationIndex sourceAccount sourceAccountAddress
  currentOperationResult outputDetails :
  switch_operationType operation transaction operationIndex sourceAccount
    sourceAccountAddress currentOperationResult outputDetails
    xdr.OperationTypePathPaymentStrictReceive
  = case_PathPaymentStrictReceive operation transaction operationIndex
      sourceAccountAddress currentOperationResult outputDetails.
Proof. reflexivity. Qed.

Lemma switch_operationType_PathPaymentStrictSend
  operation transaction operationIndex sourceAccount sourceAccountAddress
  currentOperationResult outputDetails :
  switch_operationType operation transaction operationIndex sourceAccount
    sourceAccountAddress currentOperationResult outputDetails
    xdr.OperationTypePathPaymentStrictSend
  = case_PathPaymentStrictSend operation transaction operationIndex
      sourceAccountAddress currentOperationResult outputDetails.
Proof. reflexivity. Qed.

Lemma switch_operationType_ManageBuyOffer
  operation transaction operationIndex sourceAccount sourceAccountAddress
  currentOperationResult outputDetails :
  switch_operationType operation transaction operationIndex sourceAccount
    sourceAccountAddress currentOperationResult outputDetails
    xdr.OperationTypeManageBuyOffer
  = case_ManageBuyOffer operation operationIndex outputDetails.
Proof. reflexivity. Qed.

Lemma switch_operationType_ManageSellOffer
  operation transaction operationIndex sourceAccount sourceAccountAddress
  currentOperationResult outputDetails :
  switch_operationType operation transaction operationIndex sourceAccount
    sourceAccountAddress currentOperationResult outputDetails
    xdr.OperationTypeManageSellOffer
  = case_ManageSellOffer operation operationIndex outputDetails.
Proof. reflexivity. Qed.

Lemma switch_operationType_CreatePassiveSellOffer
  operation transaction operationIndex sourceAccount sourceAccountAddress
  currentOperationResult outputDetails :
  switch_operationType operation transaction operationIndex sourceAccount
    sourceAccountAddress currentOperationResult outputDetails
    xdr.OperationTypeCreatePassiveSellOffer
  = case_CreatePassiveSellOffer operation operationIndex outputDetails.
Proof. reflexivity. Qed.

Lemma switch_operationType_EndSponsoringFutureReserves
  operation transaction operationIndex sourceAccount sourceAccountAddress
  currentOperationResult outputDetails :
  switch_operationType operation transaction operationIndex sourceAccount
    sourceAccountAddress currentOperationResult outputDetails
    xdr.OperationTypeEndSponsoringFutureReserves
  = case_EndSponsoringFutureReserves operation transaction operationIndex
      outputDetails.
Proof. reflexivity. Qed.

(** ** Path normalization *)

Lemma transformPath_loop_extracts (rest : list xdr.Asset) :
  forall acc : list PathT,
    (forall a, In a rest -> xdr.Asset_Extract a <> None) ->
    exists out : list PathT,
      transformPath_loop (Some acc) rest = Some (acc ++ out)
      /\ Forall2 extracted rest out.
Proof.
  induction rest as [| a rest IH]; intros acc Hall; cbn [transformPath_loop].
  - exists []. rewrite app_nil_r. split; [reflexivity | constructor].
  - destruct (xdr.Asset_Extract a) as [[[assetType code] issuer] |] eqn:Ha.
    + destruct (IH (acc ++ [ {| Path_AssetCode := code;
                                Path_AssetIssuer := issuer;
                                Path_AssetType := assetType |} ]))
        as (out & Hout & Hrel).
      { intros b Hb. apply Hall. right. assumption. }
      eexists (_ :: out). cbn [append]. rewrite Hout, <- app_assoc.
      split; [reflexivity |]. constructor; [| assumption].
      unfold extracted. cbn. assumption.
    + exfalso. apply (Hall a); [left; reflexivity | assumption].
Qed.

Lemma transformPath_loop_fails (rest : list xdr.Asset) :
  forall path : slice PathT,
    (exists a, In a rest /\ xdr.Asset_Extract a = None) ->
    transformPath_loop path rest = None.
Proof.
  induction rest as [| a rest IH]; intros path (b & Hb & Hnone).
  - destruct Hb.
  - cbn [transformPath_loop].
    destruct (xdr.Asset_Extract a) as [[[assetType code] issuer] |] eqn:Ha;
      [| reflexivity].
    apply IH. destruct Hb as [-> | Hb]; [congruence | eauto].
Qed.

Lemma transformPath_extracts (initialPath : list xdr.Asset) :
  initialPath <> [] ->
  (forall a, In a initialPath -> xdr.Asset_Extract a <> None) ->
  exists out : list PathT,
    transformPath initialPath = Some out /\ Forall2 extracted initialPath out.
Proof.
  intros Hne Hall. unfold transformPath, make_empty.
  destruct initialPath as [| a rest]; [congruence |].
  cbn [List.length]. destruct (Z.eqb_spec (Z.of_nat (S (List.length rest))) 0);
    [lia |].
  apply (transformPath_loop_extracts (a :: rest) [] Hall).
Qed.

Lemma transformPath_fails (initialPath : list xdr.Asset) :
  (exists a, In a initialPath /\ xdr.Asset_Extract a = None) ->
  transformPath initialPath = None.
Proof.
  intros H. unfold transformPath.
  destruct (Z.of_nat (List.length initialPath) =? 0); [reflexivity |].
  apply transformPath_loop_fails. assumption.
Qed.

(** ** The path-payment cases *)

Lemma GetAccountAddressFromMuxedAccount_ok_inv
  (account : xdr.MuxedAccount) (address : string) :
  utils.GetAccountAddressFromMuxedAccount account = Done (address, None) ->
  xdr.AccountId_GetAddress (xdr.MuxedAccount_ToAccountId account)
  = Some address.
Proof.
  unfold utils.GetAccountAddressFromMuxedAccount.
  destruct (xdr.AccountId_GetAddress _); cbn; intros H; inversion H.
  reflexivity.
Qed.

Lemma GetAccountAddressFromMuxedAccount_fails (account : xdr.MuxedAccount) :
  xdr.AccountId_GetAddress (xdr.MuxedAccount_ToAccountId account) = None ->
  utils.GetAccountAddressFromMuxedAccount account
  = Done ("", Some AddressDecodeError).
Proof.
  intros H. unfold utils.GetAccountAddressFromMuxedAccount. rewrite H.
  reflexivity.
Qed.

(** The strict-receive case once the destination renders. *)
Lemma case_PathPaymentStrictReceive_eq
  (operation : xdr.Operation) (transaction : ingest.LedgerTransaction)
  (operationIndex : Z) (sourceAccountAddress : string)
  (currentOperationResult : xdr.OperationResult) (outputDetails : Details)
  (op : xdr.PathPaymentStrictReceiveOp) (toAccountAddress : string) :
  xdr.Operation_Body operation = xdr.BodyPathPaymentStrictReceive op ->
  xdr.AccountId_GetAddress
    (xdr.MuxedAccount_ToAccountId
       (xdr.PathPaymentStrictReceiveOp_Destination op))
  = Some toAccountAddress ->
  case_PathPaymentStrictReceive operation transaction operationIndex
    sourceAccountAddress currentOperationResult outputDetails
  = let declared :=
      fst (addAssetDetailsToOperationDetails
             (fst (addAssetDetailsToOperationDetails
                     (set_SourceMax
                        (utils.ConvertStroopValueToReal
                           (xdr.PathPaymentStrictReceiveOp_SendMax op))
                        (set_Amount
                           (utils.ConvertStroopValueToReal
                              (xdr.PathPaymentStrictReceiveOp_DestAmount op))
                           (set_To toAccountAddress
                              (set_From sourceAccountAddress outputDetails))))
                     (xdr.PathPaymentStrictReceiveOp_DestAsset op) ""))
             (xdr.PathPaymentStrictReceiveOp_SendAsset op) "source") in
    let path := transformPath (xdr.PathPaymentStrictReceiveOp_Path op) in
    if xdr.TransactionResultPair_Successful (ingest.Result transaction) then
      match xdr.GetTr currentOperationResult with
      | None => fail (MissingResultBody operationIndex)
      | Some resultBody =>
          match xdr.GetPathPaymentStrictReceiveResult resultBody with
          | None =>
              fail (MissingResultInfo "PathPaymentStrictReceive"
                      operationIndex)
          | Some result_ =>
              ok (set_Path path
                    (set_SourceAmount
                       (utils.ConvertStroopValueToReal
                          (xdr.PathPaymentStrictReceiveResult_SendAmount
                             result_)) declared))
          end
      end
    else ok (set_Path path declared).
Proof.
  intros Hbody Hto. unfold case_PathPaymentStrictReceive.
  rewrite Hbody. cbn [xdr.GetPathPaymentStrictReceiveOp].
  rewrite (GetAccountAddressFromMuxedAccount_renders _ _ Hto).
  cbn [check bind].
  destruct (addAssetDetailsToOperationDetails _
              (xdr.PathPaymentStrictReceiveOp_DestAsset op) "")
    as [d1 e1].
  cbn [fst].
  destruct (addAssetDetailsToOperationDetails d1 _ "source") as [d2 e2].
  cbn [fst].
  destruct (xdr.TransactionResultPair_Successful (ingest.Result transaction));
    [| reflexivity].
  destruct (xdr.GetTr currentOperationResult) as [resultBody |];
    [| reflexivity].
  destruct (xdr.GetPathPaymentStrictReceiveResult resultBody);
    reflexivity.
Qed.

Lemma resultAt_Some
  (transaction : ingest.LedgerTransaction) (operationIndex : Z)
  (currentOperationResult : xdr.OperationResult) :
  resultAt transaction operationIndex = Some currentOperationResult ->
  exists allOperationResults : list xdr.OperationResult,
    xdr.TransactionResultPair_OperationResults (ingest.Result transaction)
    = Some allOperationResults
    /\ 0 <= operationIndex < Z.of_nat (List.length allOperationResults)
    /\ nth_error allOperationResults (Z.to_nat operationIndex)
       = Some currentOperationResult.
Proof.
  unfold resultAt.
  destruct (xdr.TransactionResultPair_OperationResults _) as [results |];
    [| discriminate].
  destruct (Z.leb_spec 0 operationIndex); [| discriminate].
  intros Hnth. exists results. split; [reflexivity | split; [| assumption]].
  assert (Z.to_nat operationIndex < List.length results)%nat
    by (apply nth_error_Some; congruence).
  lia.
Qed.

(** [extractOperationDetails] on an operation whose source renders and whose
    result is there: the switch, then the post-pass. *)
Lemma extractOperationDetails_eq
  (operation : xdr.Operation) (transaction : ingest.LedgerTransaction)
  (operationIndex : Z) (address : string)
  (currentOperationResult : xdr.OperationResult) :
  sourceAddress operation transaction = Some address ->
  resultAt transaction operationIndex = Some currentOperationResult ->
  extractOperationDetails operation transaction operationIndex
  = (outputDetails <-?
       switch_operationType operation transaction operationIndex
         (getOperationSourceAccount operation transaction) address
         currentOperationResult Details_zero
         (xdr.OperationBody_Type (xdr.Operation_Body operation)) ;;
     ok (ensureSlicesAreNotNil outputDetails)).
Proof.
  intros Haddr Hres.
  apply resultAt_Some in Hres as (results & Hres & Hidx & Hnth).
  destruct (extractOperationDetails_switch operation transaction
              operationIndex address results Haddr Hres Hidx)
    as (current & Hnth' & _ & Heq).
  rewrite Heq. congruence.
Qed.

(** What [addAssetDetailsToOperationDetails] leaves alone. *)
Lemma addAssetDetailsToOperationDetails_fails
  (d : Details) (asset : xdr.Asset) (prefix : string) :
  xdr.Asset_Extract asset = None ->
  addAssetDetailsToOperationDetails d asset prefix
  = (d, Some AssetExtractError).
Proof.
  intros H. unfold addAssetDetailsToOperationDetails. rewrite H. reflexivity.
Qed.

Lemma addAssetDetailsToOperationDetails_amounts
  (d : Details) (asset : xdr.Asset) (prefix : string) :
  let d' := fst (addAssetDetailsToOperationDetails d asset prefix) in
  SourceAmount d' = SourceAmount d /\ SourceMax d' = SourceMax d
  /\ Amount d' = Amount d /\ Path d' = Path d.
Proof.
  unfold addAssetDetailsToOperationDetails.
  destruct (xdr.Asset_Extract asset) as [[[assetType code] issuer] |];
    [| cbn; auto].
  destruct (prefix =? "buying")%string; [| destruct (prefix =? "selling")%string;
    [| destruct (prefix =? "source")%string]];
    destruct (negb _); cbn; auto.
Qed.

Lemma addAssetDetailsToOperationDetails_source_slot
  (d : Details) (asset : xdr.Asset) :
  let d' := fst (addAssetDetailsToOperationDetails d asset "source") in
  AssetType d' = AssetType d /\ AssetCode d' = AssetCode d
  /\ AssetIssuer d' = AssetIssuer d.
Proof.
  unfold addAssetDetailsToOperationDetails.
  destruct (xdr.Asset_Extract asset) as [[[assetType code] issuer] |];
    [| cbn; auto].
  cbn [String.eqb Ascii.eqb Bool.eqb]. destruct (negb _); cbn; auto.
Qed.

Lemma addAssetDetailsToOperationDetails_plain_slot
  (d : Details) (asset : xdr.Asset) :
  let d' := fst (addAssetDetailsToOperationDetails d asset "") in
  SourceAssetType d' = SourceAssetType d
  /\ SourceAssetCode d' = SourceAssetCode d
  /\ SourceAssetIssuer d' = SourceAssetIssuer d.
Proof.
  unfold addAssetDetailsToOperationDetails.
  destruct (xdr.Asset_Extract asset) as [[[assetType code] issuer] |];
    [| cbn; auto].
  cbn [String.eqb Ascii.eqb Bool.eqb]. destruct (negb _); cbn; auto.
Qed.

Lemma addAssetDetailsToOperationDetails_selling_slot
  (d : Details) (asset : xdr.Asset) :
  let d' := fst (addAssetDetailsToOperationDetails d asset "selling") in
  BuyingAssetType d' = BuyingAssetType d
  /\ BuyingAssetCode d' = BuyingAssetCode d
  /\ BuyingAssetIssuer d' = BuyingAssetIssuer d.
Proof.
  unfold addAssetDetailsToOperationDetails.
  destruct (xdr.Asset_Extract asset) as [[[assetType code] issuer] |];
    [| cbn; auto].
  cbn [String.eqb Ascii.eqb Bool.eqb]. destruct (negb _); cbn; auto.
Qed.

Lemma addAssetDetailsToOperationDetails_buying_slot
  (d : Details) (asset : xdr.Asset) :
  let d' := fst (addAssetDetailsToOperationDetails d asset "buying") in
  SellingAssetType d' = SellingAssetType d
  /\ SellingAssetCode d' = SellingAssetCode d
  /\ SellingAssetIssuer d' = SellingAssetIssuer d.
Proof.
  unfold addAssetDetailsToOperationDetails.
  destruct (xdr.Asset_Extract asset) as [[[assetType code] issuer] |];
    [| cbn; auto].
  cbn [String.eqb Ascii.eqb Bool.eqb]. destruct (negb _); cbn; auto.
Qed.

Lemma extractOperationDetails_no_results
  (operation : xdr.Operation) (transaction : ingest.LedgerTransaction)
  (operationIndex : Z) (address : string) :
  sourceAddress operation transaction = Some address ->
  xdr.TransactionResultPair_OperationResults (ingest.Result transaction)
  = None ->
  extractOperationDetails operation transaction operationIndex
  = Done (Details_zero, Some MissingResults).
Proof.
  intros Haddr Hres. unfold extractOperationDetails.
  rewrite (GetAccountAddressFromMuxedAccount_renders _ _ Haddr).
  cbn [check bind]. rewrite Hres. reflexivity.
Qed.

(** C2 (as amended). For a path-payment strict-receive operation whose
    source and destination render: on a successful transaction whose result
    entry carries the strict-receive result, the record's [source_amount] is
    the send amount of that result, whatever the declared send-max; on a
    successful transaction whose result entry has no body or another body,
    or whose results list is absent, the transform fails with an error; on a
    failed transaction whose results list covers the operation index,
    [source_amount] is zero and the content of the result entry is not
    looked at, but the results list itself is still required: without it the
    transform fails; and, successful or not, a results list that does not
    cover the operation index makes the unchecked index panic. *)
Theorem C2_strict_receive_source_amount
  (operation : xdr.Operation) (transaction : ingest.LedgerTransaction)
  (operationIndex : Z) (op : xdr.PathPaymentStrictReceiveOp)
  (address toAccountAddress : string) :
  xdr.Operation_Body operation = xdr.BodyPathPaymentStrictReceive op ->
  sourceAddress operation transaction = Some address ->
  xdr.AccountId_GetAddress
    (xdr.MuxedAccount_ToAccountId
       (xdr.PathPaymentStrictReceiveOp_Destination op))
  = Some toAccountAddress ->
  (xdr.TransactionResultPair_Successful (ingest.Result transaction) = true ->
   (forall (current : xdr.OperationResult) (resultBody : xdr.OperationResultTr)
           (result_ : xdr.PathPaymentStrictReceiveResult),
       resultAt transaction operationIndex = Some current ->
       xdr.GetTr current = Some resultBody ->
       xdr.GetPathPaymentStrictReceiveResult resultBody = Some result_ ->
       exists d : Details,
         extractOperationDetails operation transaction operationIndex
         = Done (d, None)
         /\ SourceAmount d
            = utils.ConvertStroopValueToReal
                (xdr.PathPaymentStrictReceiveResult_SendAmount result_))
   /\ (forall current : xdr.OperationResult,
          resultAt transaction operationIndex = Some current ->
          xdr.GetTr current = None ->
          extractOperationDetails operation transaction operationIndex
          = Done (Details_zero, Some (MissingResultBody operationIndex)))
   /\ (forall (current : xdr.OperationResult)
              (resultBody : xdr.OperationResultTr),
          resultAt transaction operationIndex = Some current ->
          xdr.GetTr current = Some resultBody ->
          xdr.GetPathPaymentStrictReceiveResult resultBody = None ->
          extractOperationDetails operation transaction operationIndex
          = Done (Details_zero,
                  Some (MissingResultInfo "PathPaymentStrictReceive"
                          operationIndex))))
  /\ (xdr.TransactionResultPair_Successful (ingest.Result transaction) = false ->
      forall current : xdr.OperationResult,
        resultAt transaction operationIndex = Some current ->
        exists d : Details,
          extractOperationDetails operation transaction operationIndex
          = Done (d, None)
          /\ SourceAmount d = 0%Q
          /\ forall transaction' : ingest.LedgerTransaction,
               ingest.Envelope transaction' = ingest.Envelope transaction ->
               xdr.TransactionResultPair_Successful (ingest.Result transaction')
               = false ->
               resultAt transaction' operationIndex <> None ->
               extractOperationDetails operation transaction' operationIndex
               = Done (d, None))
  /\ (xdr.TransactionResultPair_OperationResults (ingest.Result transaction)
      = None ->
      extractOperationDetails operation transaction operationIndex
      = Done (Details_zero, Some MissingResults))
  /\ (forall allOperationResults : list xdr.OperationResult,
         xdr.TransactionResultPair_OperationResults
           (ingest.Result transaction) = Some allOperationResults ->
         ~ 0 <= operationIndex < Z.of_nat (List.length allOperationResults) ->
         extractOperationDetails operation transaction operationIndex
         = Panics (IndexOutOfRange "allOperationResults" operationIndex
                     (Z.of_nat (List.length allOperationResults)))).
Proof.
  intros Hbody Haddr Hto.
  assert (Hfailed :
    forall (t : ingest.LedgerTransaction) (current : xdr.OperationResult),
      sourceAddress operation t = Some address ->
      xdr.TransactionResultPair_Successful (ingest.Result t) = false ->
      resultAt t operationIndex = Some current ->
      extractOperationDetails operation t operationIndex
      = Done
          (ensureSlicesAreNotNil
             (set_Path (transformPath (xdr.PathPaymentStrictReceiveOp_Path op))
                (fst (addAssetDetailsToOperationDetails
                        (fst (addAssetDetailsToOperationDetails
                                (set_SourceMax
                                   (utils.ConvertStroopValueToReal
                                      (xdr.PathPaymentStrictReceiveOp_SendMax op))
                                   (set_Amount
                                      (utils.ConvertStroopValueToReal
                                         (xdr.PathPaymentStrictReceiveOp_DestAmount op))
                                      (set_To toAccountAddress
                                         (set_From address Details_zero))))
                                (xdr.PathPaymentStrictReceiveOp_DestAsset op) ""))
                        (xdr.PathPaymentStrictReceiveOp_SendAsset op) "source"))),
           None)).
  { intros t current Ha Hs Hr.
    rewrite (extractOperationDetails_eq _ _ _ _ _ Ha Hr), Hbody.
    cbn [xdr.OperationBody_Type].
    rewrite switch_operationType_PathPaymentStrictReceive.
    rewrite (case_PathPaymentStrictReceive_eq _ _ _ _ _ _ _ _ Hbody Hto).
    cbv zeta. rewrite Hs. reflexivity. }
  split; [| split; [| split]].
  - intros Hsucc. split; [| split].
    + intros current resultBody result_ Hres Htr Hreceive.
      rewrite (extractOperationDetails_eq _ _ _ _ _ Haddr Hres), Hbody.
      cbn [xdr.OperationBody_Type].
      rewrite switch_operationType_PathPaymentStrictReceive.
      rewrite (case_PathPaymentStrictReceive_eq _ _ _ _ _ _ _ _ Hbody Hto).
      cbv zeta. rewrite Hsucc, Htr, Hreceive.
      eexists. split; [reflexivity |].
      rewrite ensureSlicesAreNotNil_shape. reflexivity.
    + intros current Hres Htr.
      rewrite (extractOperationDetails_eq _ _ _ _ _ Haddr Hres), Hbody.
      cbn [xdr.OperationBody_Type].
      rewrite switch_operationType_PathPaymentStrictReceive.
      rewrite (case_PathPaymentStrictReceive_eq _ _ _ _ _ _ _ _ Hbody Hto).
      cbv zeta. rewrite Hsucc, Htr. reflexivity.
    + intros current resultBody Hres Htr Hreceive.
      rewrite (extractOperationDetails_eq _ _ _ _ _ Haddr Hres), Hbody.
      cbn [xdr.OperationBody_Type].
      rewrite switch_operationType_PathPaymentStrictReceive.
      rewrite (case_PathPaymentStrictReceive_eq _ _ _ _ _ _ _ _ Hbody Hto).
      cbv zeta. rewrite Hsucc, Htr, Hreceive. reflexivity.
  - intros Hfail current Hres.
    eexists. split; [apply (Hfailed transaction current Haddr Hfail Hres) |].
    split.
    + rewrite ensureSlicesAreNotNil_shape.
      cbn [SourceAmount set_ClearFlagsString set_ClearFlags
             set_SetFlagsString set_SetFlags set_Path].
      rewrite (proj1 (addAssetDetailsToOperationDetails_amounts _ _ _)).
      rewrite (proj1 (addAssetDetailsToOperationDetails_amounts _ _ _)).
      reflexivity.
    + intros transaction' Henv Hfail' Hres'.
      destruct (resultAt transaction' operationIndex) as [current' |] eqn:Hr;
        [| congruence].
      apply (Hfailed transaction' current'); try assumption.
      unfold sourceAddress, getOperationSourceAccount in *.
      rewrite Henv. assumption.
  - intros Hnone.
    apply (extractOperationDetails_no_results _ _ _ _ Haddr Hnone).
  - intros results Hresults Hout. unfold extractOperationDetails.
    rewrite (GetAccountAddressFromMuxedAccount_renders _ _ Haddr).
    cbn [check bind]. rewrite Hresults.
    rewrite (index_out_of_range _ _ _ Hout). reflexivity.
Qed.

(** The strict-send case once the destination renders. *)
Lemma case_PathPaymentStrictSend_eq
  (operation : xdr.Operation) (transaction : ingest.LedgerTransaction)
  (operationIndex : Z) (sourceAccountAddress : string)
  (currentOperationResult : xdr.OperationResult) (outputDetails : Details)
  (op : xdr.PathPaymentStrictSendOp) (toAccountAddress : string) :
  xdr.Operation_Body operation = xdr.BodyPathPaymentStrictSend op ->
  xdr.AccountId_GetAddress
    (xdr.MuxedAccount_ToAccountId (xdr.PathPaymentStrictSendOp_Destination op))
  = Some toAccountAddress ->
  case_PathPaymentStrictSend operation transaction operationIndex
    sourceAccountAddress currentOperationResult outputDetails
  = let declared :=
      fst (addAssetDetailsToOperationDetails
             (fst (addAssetDetailsToOperationDetails
                     (set_DestinationMin
                        (amount_String (xdr.PathPaymentStrictSendOp_DestMin op))
                        (set_SourceAmount
                           (utils.ConvertStroopValueToReal
                              (xdr.PathPaymentStrictSendOp_SendAmount op))
                           (set_To toAccountAddress
                              (set_From sourceAccountAddress outputDetails))))
                     (xdr.PathPaymentStrictSendOp_DestAsset op) ""))
             (xdr.PathPaymentStrictSendOp_SendAsset op) "source") in
    let path := transformPath (xdr.PathPaymentStrictSendOp_Path op) in
    if xdr.TransactionResultPair_Successful (ingest.Result transaction) then
      match xdr.GetTr currentOperationResult with
      | None => fail (MissingResultBody operationIndex)
      | Some resultBody =>
          match xdr.GetPathPaymentStrictSendResult resultBody with
          | None =>
              fail (MissingResultInfo "GetPathPaymentStrictSendResult"
                      operationIndex)
          | Some result_ =>
              ok (set_Path path
                    (set_Amount
                       (utils.ConvertStroopValueToReal
                          (xdr.PathPaymentStrictSendResult_DestAmount result_))
                       declared))
          end
      end
    else ok (set_Path path declared).
Proof.
  intros Hbody Hto. unfold case_PathPaymentStrictSend.
  rewrite Hbody. cbn [xdr.GetPathPaymentStrictSendOp].
  rewrite (GetAccountAddressFromMuxedAccount_renders _ _ Hto).
  cbn [check bind].
  destruct (addAssetDetailsToOperationDetails _
              (xdr.PathPaymentStrictSendOp_DestAsset op) "")
    as [d1 e1].
  cbn [fst].
  destruct (addAssetDetailsToOperationDetails d1 _ "source") as [d2 e2].
  cbn [fst].
  destruct (xdr.TransactionResultPair_Successful (ingest.Result transaction));
    [| reflexivity].
  destruct (xdr.GetTr currentOperationResult) as [resultBody |];
    [| reflexivity].
  destruct (xdr.GetPathPaymentStrictSendResult resultBody);
    reflexivity.
Qed.

Lemma case_PathPaymentStrictReceive_destination_fails
  (operation : xdr.Operation) (transaction : ingest.LedgerTransaction)
  (operationIndex : Z) (sourceAccountAddress : string)
  (currentOperationResult : xdr.OperationResult) (outputDetails : Details)
  (op : xdr.PathPaymentStrictReceiveOp) :
  xdr.Operation_Body operation = xdr.BodyPathPaymentStrictReceive op ->
  xdr.AccountId_GetAddress
    (xdr.MuxedAccount_ToAccountId
       (xdr.PathPaymentStrictReceiveOp_Destination op)) = None ->
  case_PathPaymentStrictReceive operation transaction operationIndex
    sourceAccountAddress currentOperationResult outputDetails
  = Done (Details_zero, Some AddressDecodeError).
Proof.
  intros Hbody Hto. unfold case_PathPaymentStrictReceive.
  rewrite Hbody. cbn [xdr.GetPathPaymentStrictReceiveOp].
  rewrite (GetAccountAddressFromMuxedAccount_fails _ Hto). reflexivity.
Qed.

Lemma case_PathPaymentStrictSend_destination_fails
  (operation : xdr.Operation) (transaction : ingest.LedgerTransaction)
  (operationIndex : Z) (sourceAccountAddress : string)
  (currentOperationResult : xdr.OperationResult) (outputDetails : Details)
  (op : xdr.PathPaymentStrictSendOp) :
  xdr.Operation_Body operation = xdr.BodyPathPaymentStrictSend op ->
  xdr.AccountId_GetAddress
    (xdr.MuxedAccount_ToAccountId (xdr.PathPaymentStrictSendOp_Destination op))
  = None ->
  case_PathPaymentStrictSend operation transaction operationIndex
    sourceAccountAddress currentOperationResult outputDetails
  = Done (Details_zero, Some AddressDecodeError).
Proof.
  intros Hbody Hto. unfold case_PathPaymentStrictSend.
  rewrite Hbody. cbn [xdr.GetPathPaymentStrictSendOp].
  rewrite (GetAccountAddressFromMuxedAccount_fails _ Hto). reflexivity.
Qed.

Lemma Path_ensureSlicesAreNotNil_set_Path (path : slice PathT) (d : Details) :
  Path (ensureSlicesAreNotNil (set_Path path d)) = Some (elems path).
Proof.
  rewrite ensureSlicesAreNotNil_shape. reflexivity.
Qed.

(** The path of every record of a path payment is the normalized declared
    path, allocated. *)
Lemma extractOperationDetails_Path
  (operation : xdr.Operation) (transaction : ingest.LedgerTransaction)
  (operationIndex : Z) (initialPath : list xdr.Asset) (d : Details) :
  declaredPath (xdr.Operation_Body operation) = Some initialPath ->
  extractOperationDetails operation transaction operationIndex
  = Done (d, None) ->
  Path d = Some (elems (transformPath initialPath)).
Proof.
  intros Hdeclared Hextract.
  apply extractOperationDetails_ok_inv in Hextract
    as (address & results & current & d' & _ & _ & _ & Hswitch & ->).
  destruct (xdr.Operation_Body operation) as
    [ | | op | | | | | | | | | | | op | | | | | | | | | ] eqn:Hbody;
    try discriminate; cbn [declaredPath] in Hdeclared;
    inversion Hdeclared; subst initialPath; clear Hdeclared;
    cbn [xdr.OperationBody_Type] in Hswitch.
  - rewrite switch_operationType_PathPaymentStrictReceive in Hswitch.
    destruct (xdr.AccountId_GetAddress
                (xdr.MuxedAccount_ToAccountId
                   (xdr.PathPaymentStrictReceiveOp_Destination op)))
      as [toAccountAddress |] eqn:Hto.
    + rewrite (case_PathPaymentStrictReceive_eq _ _ _ _ _ _ _ _ Hbody Hto)
        in Hswitch.
      cbv zeta in Hswitch.
      destruct (xdr.TransactionResultPair_Successful _);
        [destruct (xdr.GetTr current) as [resultBody |];
         [destruct (xdr.GetPathPaymentStrictReceiveResult resultBody) |] |];
        try discriminate; inversion Hswitch;
        apply Path_ensureSlicesAreNotNil_set_Path.
    + rewrite (case_PathPaymentStrictReceive_destination_fails
                 _ _ _ _ _ _ _ Hbody Hto) in Hswitch.
      discriminate.
  - rewrite switch_operationType_PathPaymentStrictSend in Hswitch.
    destruct (xdr.AccountId_GetAddress
                (xdr.MuxedAccount_ToAccountId
                   (xdr.PathPaymentStrictSendOp_Destination op)))
      as [toAccountAddress |] eqn:Hto.
    + rewrite (case_PathPaymentStrictSend_eq _ _ _ _ _ _ _ _ Hbody Hto)
        in Hswitch.
      cbv zeta in Hswitch.
      destruct (xdr.TransactionResultPair_Successful _);
        [destruct (xdr.GetTr current) as [resultBody |];
         [destruct (xdr.GetPathPaymentStrictSendResult resultBody) |] |];
        try discriminate; inversion Hswitch;
        apply Path_ensureSlicesAreNotNil_set_Path.
    + rewrite (case_PathPaymentStrictSend_destination_fails
                 _ _ _ _ _ _ _ Hbody Hto) in Hswitch.
      discriminate.
Qed.

(** C7. [transformPath] yields one element per asset of a non-empty path, in
    the input order, holding the type, code and issuer that [Extract] reads
    from that asset; in the record of a path-payment operation the path is
    that sequence, of the length of the declared path, and an empty declared
    path gives an empty, allocated path. [Extract] is a call into the xdr
    library with an error return: the sequence is the one of the assets'
    extracted triples when each call returns its triple, and the branch of
    [transformPath] taken on an error of [Extract] returns nil, which the
    post-pass then stores as an empty path. *)
Theorem C7_path_normalization :
  (forall initialPath : list xdr.Asset,
      initialPath <> [] ->
      (forall a, In a initialPath -> xdr.Asset_Extract a <> None) ->
      exists out : list PathT,
        transformPath initialPath = Some out
        /\ Forall2 extracted initialPath out
        /\ List.length out = List.length initialPath)
  /\ (forall initialPath : list xdr.Asset,
         (exists a, In a initialPath /\ xdr.Asset_Extract a = None) ->
         transformPath initialPath = None)
  /\ transformPath [] = None
  /\ (forall (operation : xdr.Operation)
             (transaction : ingest.LedgerTransaction) (operationIndex : Z)
             (initialPath : list xdr.Asset) (d : Details),
         declaredPath (xdr.Operation_Body operation) = Some initialPath ->
         extractOperationDetails operation transaction operationIndex
         = Done (d, None) ->
         ((forall a, In a initialPath -> xdr.Asset_Extract a <> None) ->
          exists out : list PathT,
            Path d = Some out
            /\ Forall2 extracted initialPath out
            /\ List.length out = List.length initialPath)
         /\ ((exists a, In a initialPath /\ xdr.Asset_Extract a = None) ->
             Path d = Some [])
         /\ (initialPath = [] -> Path d = Some [])).
Proof.
  assert (Hall : forall initialPath : list xdr.Asset,
             initialPath <> [] ->
             (forall a, In a initialPath -> xdr.Asset_Extract a <> None) ->
             exists out : list PathT,
               transformPath initialPath = Some out
               /\ Forall2 extracted initialPath out
               /\ List.length out = List.length initialPath).
  { intros initialPath Hne Hextracts.
    destruct (transformPath_extracts initialPath Hne Hextracts)
      as (out & Hout & Hrel).
    exists out. split; [assumption | split; [assumption |]].
    symmetry. apply (Forall2_length Hrel). }
  split; [exact Hall | split; [exact transformPath_fails | split]].
  - reflexivity.
  - intros operation transaction operationIndex initialPath d Hdeclared
      Hextract.
    pose proof (extractOperationDetails_Path _ _ _ _ _ Hdeclared Hextract)
      as HPath.
    split; [| split].
    + intros Hextracts. destruct initialPath as [| a rest].
      * exists []. rewrite HPath. split; [reflexivity |].
        split; [constructor | reflexivity].
      * destruct (Hall (a :: rest) ltac:(discriminate) Hextracts)
          as (out & Hout & Hrel & Hlen).
        exists out. rewrite HPath, Hout. auto.
    + intros Hfails. rewrite HPath, (transformPath_fails _ Hfails).
      reflexivity.
    + intros ->. rewrite HPath. reflexivity.
Qed.

(** ** The sponsorship lookback *)

Lemma firstn_snoc {A : Type} (l : list A) :
  forall (n : nat) (x : A),
    nth_error l n = Some x -> firstn (S n) l = firstn n l ++ [x].
Proof.
  induction l as [| y l IH]; intros [| n] x Hx; cbn in *; try discriminate.
  - inversion Hx. reflexivity.
  - f_equal. apply IH. assumption.
Qed.

Lemma lookback_step
  (address : string) (operations : list xdr.Operation) (n : nat)
  (o : xdr.Operation) :
  nth_error operations n = Some o ->
  find (sponsors address) (rev (firstn (S n) operations))
  = if sponsors address o then Some o
    else find (sponsors address) (rev (firstn n operations)).
Proof.
  intros Hn. rewrite (firstn_snoc _ _ _ Hn), rev_app_distr. reflexivity.
Qed.

Lemma index_Done_inv {A : Type} (name : string) (s : list A) (i : Z) (x : A) :
  index name s i = Done x -> nth_error s (Z.to_nat i) = Some x.
Proof.
  unfold index. destruct ((0 <=? i) && (i <? Z.of_nat (List.length s)));
    [| discriminate].
  destruct (nth_error s (Z.to_nat i)); [| discriminate].
  intros H. inversion H. reflexivity.
Qed.

Lemma AccountId_Address_Done_inv (a : xdr.AccountId) (s : string) :
  xdr.AccountId_Address a = Done s -> xdr.AccountId_GetAddress a = Some s.
Proof.
  unfold xdr.AccountId_Address. destruct (xdr.AccountId_GetAddress a);
    [| discriminate].
  intros H. inversion H. reflexivity.
Qed.

(** Whenever the loop returns, it returns the operation the lookback
    designates, with its index. *)
Lemma findInitatingBeginSponsoringOp_loop_Done
  (sponsoree : xdr.AccountId) (address : string)
  (operations : list xdr.Operation) :
  xdr.AccountId_GetAddress sponsoree = Some address ->
  forall (n : nat) (found : option SponsorshipOutput),
    findInitatingBeginSponsoringOp_loop sponsoree operations n = Done found ->
    option_map SponsorshipOutput_Operation found
    = find (sponsors address) (rev (firstn n operations))
    /\ (forall output, found = Some output ->
          nth_error operations
            (Z.to_nat (SponsorshipOutput_OperationIndex output))
          = Some (SponsorshipOutput_Operation output)
          /\ 0 <= SponsorshipOutput_OperationIndex output < Z.of_nat n).
Proof.
  intros Haddr. induction n as [| n IH]; intros found Hloop.
  - cbn in Hloop. inversion Hloop. split; [reflexivity | discriminate].
  - cbn [findInitatingBeginSponsoringOp_loop] in Hloop.
    apply bind_Done_inv in Hloop as (o & Hindex & Hloop).
    apply index_Done_inv in Hindex. rewrite Nat2Z.id in Hindex.
    rewrite (lookback_step _ _ _ _ Hindex). unfold sponsors at 1.
    destruct (xdr.GetBeginSponsoringFutureReservesOp (xdr.Operation_Body o))
      as [beginOp |].
    + apply bind_Done_inv in Hloop as (sponsored & Hsponsored & Hloop).
      apply bind_Done_inv in Hloop as (address' & Haddress' & Hloop).
      apply AccountId_Address_Done_inv in Hsponsored, Haddress'.
      rewrite Hsponsored.
      assert (address' = address) by congruence. subst address'.
      destruct (sponsored =? address)%string.
      * inversion Hloop; subst found. cbn. split; [reflexivity |].
        intros output Hout. inversion Hout; subst output. cbn.
        rewrite Nat2Z.id. split; [assumption | lia].
      * destruct (IH found Hloop) as [Hfind Hidx]. split; [assumption |].
        intros output Hout. destruct (Hidx output Hout). split; [assumption | lia].
    + destruct (IH found Hloop) as [Hfind Hidx]. split; [assumption |].
      intros output Hout. destruct (Hidx output Hout). split; [assumption | lia].
Qed.

(** The loop returns when the operations it may read are there and the
    sponsored accounts among them render. *)
Lemma findInitatingBeginSponsoringOp_loop_returns
  (sponsoree : xdr.AccountId) (address : string)
  (operations : list xdr.Operation) :
  xdr.AccountId_GetAddress sponsoree = Some address ->
  forall n : nat,
    (n <= List.length operations)%nat ->
    Forall sponsoredRenders (firstn n operations) ->
    exists found : option SponsorshipOutput,
      findInitatingBeginSponsoringOp_loop sponsoree operations n = Done found.
Proof.
  intros Haddr. induction n as [| n IH]; intros Hlen Hrenders.
  - exists None. reflexivity.
  - destruct (nth_error operations n) as [o |] eqn:Hn;
      [| apply nth_error_None in Hn; lia].
    rewrite (firstn_snoc _ _ _ Hn) in Hrenders.
    apply Forall_app in Hrenders as [Hbefore Ho].
    inversion Ho as [| ? ? Hrender _]; subst.
    destruct (IH ltac:(lia) Hbefore) as (found & Hfound).
    cbn [findInitatingBeginSponsoringOp_loop].
    destruct (index_in_range "operations" operations (Z.of_nat n) ltac:(lia))
      as (o' & Hn' & ->).
    rewrite Nat2Z.id in Hn'. assert (o' = o) by congruence. subst o'.
    cbn [bind]. unfold sponsoredRenders in Hrender.
    destruct (xdr.GetBeginSponsoringFutureReservesOp (xdr.Operation_Body o))
      as [beginOp |]; [| exists found; assumption].
    unfold xdr.AccountId_Address. rewrite Haddr.
    destruct (xdr.AccountId_GetAddress
                (xdr.BeginSponsoringFutureReservesOp_SponsoredId beginOp))
      as [sponsored |]; [| congruence].
    cbn [bind]. destruct (sponsored =? address)%string.
    + eexists. reflexivity.
    + exists found. assumption.
Qed.

Lemma findInitatingBeginSponsoringOp_Done
  (operation : xdr.Operation) (operationIndex : Z)
  (transaction : ingest.LedgerTransaction) (address : string)
  (found : option SponsorshipOutput) :
  sourceAddress operation transaction = Some address ->
  findInitatingBeginSponsoringOp operation operationIndex transaction
  = Done found ->
  (xdr.TransactionResultPair_Successful (ingest.Result transaction) = true ->
   option_map SponsorshipOutput_Operation found
   = lookback address
       (xdr.TransactionEnvelope_Operations (ingest.Envelope transaction))
       operationIndex)
  /\ (xdr.TransactionResultPair_Successful (ingest.Result transaction) = false ->
      found = None).
Proof.
  intros Haddr. unfold findInitatingBeginSponsoringOp.
  destruct (xdr.TransactionResultPair_Successful (ingest.Result transaction));
    cbn [negb]; intros Hfound.
  - split; [intros _ | discriminate].
    apply (findInitatingBeginSponsoringOp_loop_Done _ _ _ Haddr _ _ Hfound).
  - inversion Hfound. split; [discriminate | reflexivity].
Qed.

Lemma BeginSponsor_ensureSlicesAreNotNil (d : Details) :
  BeginSponsor (ensureSlicesAreNotNil d) = BeginSponsor d.
Proof.
  rewrite ensureSlicesAreNotNil_shape. reflexivity.
Qed.

(** C1. For an end-sponsoring operation whose source renders to [address]:
    on a failed transaction the resolver returns no match and the record's
    [begin_sponsor] is empty; on a successful transaction the resolver, when
    it returns, returns the first begin-sponsoring operation, scanning from
    [operationIndex - 1] down to 0, whose sponsored account renders to
    [address], and the record's [begin_sponsor] is the address of that
    operation's source, or empty when there is none. A record is returned
    whenever the results list covers the index and, for a successful
    transaction, the scanned operations exist, their sponsored accounts
    render and the source of the match renders. *)
Theorem C1_sponsorship_lookback
  (operation : xdr.Operation) (transaction : ingest.LedgerTransaction)
  (operationIndex : Z) (address : string) :
  let operations :=
    xdr.TransactionEnvelope_Operations (ingest.Envelope transaction) in
  let successful :=
    xdr.TransactionResultPair_Successful (ingest.Result transaction) in
  xdr.OperationBody_Type (xdr.Operation_Body operation)
  = xdr.OperationTypeEndSponsoringFutureReserves ->
  sourceAddress operation transaction = Some address ->
  (successful = false ->
   findInitatingBeginSponsoringOp operation operationIndex transaction
   = Done None)
  /\ (successful = true ->
      forall found : option SponsorshipOutput,
        findInitatingBeginSponsoringOp operation operationIndex transaction
        = Done found ->
        option_map SponsorshipOutput_Operation found
        = lookback address operations operationIndex)
  /\ (forall d : Details,
         extractOperationDetails operation transaction operationIndex
         = Done (d, None) ->
         (successful = true ->
          match lookback address operations operationIndex with
          | Some beginOp =>
              sourceAddress beginOp transaction = Some (BeginSponsor d)
          | None => BeginSponsor d = ""
          end)
         /\ (successful = false -> BeginSponsor d = ""))
  /\ (forall current : xdr.OperationResult,
         resultAt transaction operationIndex = Some current ->
         (successful = false ->
          exists d : Details,
            extractOperationDetails operation transaction operationIndex
            = Done (d, None))
         /\ (successful = true ->
             operationIndex <= Z.of_nat (List.length operations) ->
             Forall sponsoredRenders
               (firstn (Z.to_nat operationIndex) operations) ->
             (forall beginOp : xdr.Operation,
                 lookback address operations operationIndex = Some beginOp ->
                 sourceAddress beginOp transaction <> None) ->
             exists d : Details,
               extractOperationDetails operation transaction operationIndex
               = Done (d, None))).
Proof.
  intros operations successful HType Haddr.
  subst operations successful.
  split; [| split; [| split]].
  - intros Hfail. unfold findInitatingBeginSponsoringOp. rewrite Hfail.
    reflexivity.
  - intros Hsucc found Hfound.
    apply (proj1 (findInitatingBeginSponsoringOp_Done _ _ _ _ _ Haddr Hfound)
             Hsucc).
  - intros d Hextract.
    apply extractOperationDetails_ok_inv in Hextract
      as (address' & results & current & d' & _ & _ & _ & Hswitch & ->).
    rewrite HType, switch_operationType_EndSponsoringFutureReserves in Hswitch.
    unfold case_EndSponsoringFutureReserves in Hswitch.
    apply bind_Done_inv in Hswitch as (found & Hfound & Hswitch).
    destruct (findInitatingBeginSponsoringOp_Done _ _ _ _ _ Haddr Hfound)
      as [Htrue Hfalse].
    rewrite BeginSponsor_ensureSlicesAreNotNil.
    destruct found as [output |].
    + apply bind_Done_inv in Hswitch as ([sponsor [e |]] & Hsponsor & Hswitch);
        [discriminate |].
      inversion Hswitch; subst d'.
      apply GetAccountAddressFromMuxedAccount_ok_inv in Hsponsor.
      split.
      * intros Hsucc. rewrite <- (Htrue Hsucc). exact Hsponsor.
      * intros Hfail. specialize (Hfalse Hfail). discriminate.
    + inversion Hswitch; subst d'. split.
      * intros Hsucc. rewrite <- (Htrue Hsucc). reflexivity.
      * reflexivity.
  - intros current Hres.
    rewrite (extractOperationDetails_eq _ _ _ _ _ Haddr Hres), HType,
      switch_operationType_EndSponsoringFutureReserves.
    unfold case_EndSponsoringFutureReserves. split.
    + intros Hfail. unfold findInitatingBeginSponsoringOp. rewrite Hfail.
      eexists. reflexivity.
    + intros Hsucc Hlen Hrenders Hsource.
      destruct (findInitatingBeginSponsoringOp_loop_returns
                  (xdr.MuxedAccount_ToAccountId
                     (getOperationSourceAccount operation transaction))
                  address
                  (xdr.TransactionEnvelope_Operations
                     (ingest.Envelope transaction))
                  Haddr (Z.to_nat operationIndex) ltac:(lia) Hrenders)
        as (found & Hfound).
      assert (Hinit :
        findInitatingBeginSponsoringOp operation operationIndex transaction
        = Done found).
      { unfold findInitatingBeginSponsoringOp. rewrite Hsucc. exact Hfound. }
      rewrite Hinit. cbn [bind].
      destruct found as [output |]; [| eexists; reflexivity].
      pose proof (proj1 (findInitatingBeginSponsoringOp_Done
                           _ _ _ _ _ Haddr Hinit) Hsucc) as Hlook.
      cbn [option_map] in Hlook. symmetry in Hlook.
      specialize (Hsource _ Hlook).
      destruct (sourceAddress (SponsorshipOutput_Operation output) transaction)
        as [sponsor |] eqn:Hsponsor; [| congruence].
      rewrite (GetAccountAddressFromMuxedAccount_renders _ _ Hsponsor).
      eexists. reflexivity.
Qed.

(** ** Asset extraction failures *)

Lemma plain_then_source_slots (d : Details) (a1 a2 : xdr.Asset) :
  let d' :=
    fst (addAssetDetailsToOperationDetails
           (fst (addAssetDetailsToOperationDetails d a1 "")) a2 "source") in
  (xdr.Asset_Extract a1 = None ->
   AssetType d' = AssetType d /\ AssetCode d' = AssetCode d
   /\ AssetIssuer d' = AssetIssuer d)
  /\ (xdr.Asset_Extract a2 = None ->
      SourceAssetType d' = SourceAssetType d
      /\ SourceAssetCode d' = SourceAssetCode d
      /\ SourceAssetIssuer d' = SourceAssetIssuer d).
Proof.
  cbv zeta. split; intros Hfails.
  - destruct (addAssetDetailsToOperationDetails_source_slot
                (fst (addAssetDetailsToOperationDetails d a1 "")) a2)
      as (-> & -> & ->).
    rewrite (addAssetDetailsToOperationDetails_fails _ _ _ Hfails). auto.
  - rewrite (addAssetDetailsToOperationDetails_fails _ a2 _ Hfails).
    cbn [fst]. apply addAssetDetailsToOperationDetails_plain_slot.
Qed.

Lemma buying_then_selling_slots (d : Details) (a1 a2 : xdr.Asset) :
  let d' :=
    fst (addAssetDetailsToOperationDetails
           (fst (addAssetDetailsToOperationDetails d a1 "buying")) a2
           "selling") in
  (xdr.Asset_Extract a1 = None ->
   BuyingAssetType d' = BuyingAssetType d
   /\ BuyingAssetCode d' = BuyingAssetCode d
   /\ BuyingAssetIssuer d' = BuyingAssetIssuer d)
  /\ (xdr.Asset_Extract a2 = None ->
      SellingAssetType d' = SellingAssetType d
      /\ SellingAssetCode d' = SellingAssetCode d
      /\ SellingAssetIssuer d' = SellingAssetIssuer d).
Proof.
  cbv zeta. split; intros Hfails.
  - destruct (addAssetDetailsToOperationDetails_selling_slot
                (fst (addAssetDetailsToOperationDetails d a1 "buying")) a2)
      as (-> & -> & ->).
    rewrite (addAssetDetailsToOperationDetails_fails _ _ _ Hfails). auto.
  - rewrite (addAssetDetailsToOperationDetails_fails _ a2 _ Hfails).
    cbn [fst]. apply addAssetDetailsToOperationDetails_buying_slot.
Qed.

(** The asset slots of a record are those left by the case. *)
Lemma asset_slots_ensureSlicesAreNotNil (d : Details) :
  let d' := ensureSlicesAreNotNil d in
  (AssetType d' = AssetType d /\ AssetCode d' = AssetCode d
   /\ AssetIssuer d' = AssetIssuer d)
  /\ (SourceAssetType d' = SourceAssetType d
      /\ SourceAssetCode d' = SourceAssetCode d
      /\ SourceAssetIssuer d' = SourceAssetIssuer d)
  /\ (BuyingAssetType d' = BuyingAssetType d
      /\ BuyingAssetCode d' = BuyingAssetCode d
      /\ BuyingAssetIssuer d' = BuyingAssetIssuer d)
  /\ (SellingAssetType d' = SellingAssetType d
      /\ SellingAssetCode d' = SellingAssetCode d
      /\ SellingAssetIssuer d' = SellingAssetIssuer d).
Proof.
  cbv zeta. rewrite ensureSlicesAreNotNil_shape. cbn. intuition reflexivity.
Qed.

Lemma case_ManageBuyOffer_eq
  (operation : xdr.Operation) (operationIndex : Z) (outputDetails : Details)
  (op : xdr.ManageBuyOfferOp) (parsedPrice : float64) :
  xdr.Operation_Body operation = xdr.BodyManageBuyOffer op ->
  strconv_ParseFloat (xdr.Price_String (xdr.ManageBuyOfferOp_Price op))
  = Some parsedPrice ->
  case_ManageBuyOffer operation operationIndex outputDetails
  = ok (fst (addAssetDetailsToOperationDetails
               (fst (addAssetDetailsToOperationDetails
                       (set_PriceR
                          {| Numerator :=
                               int32_of (xdr.Price_N (xdr.ManageBuyOfferOp_Price op));
                             Denominator :=
                               int32_of (xdr.Price_D (xdr.ManageBuyOfferOp_Price op)) |}
                          (set_Price parsedPrice
                             (set_Amount
                                (utils.ConvertStroopValueToReal
                                   (xdr.ManageBuyOfferOp_BuyAmount op))
                                (set_OfferID
                                   (int64_of (xdr.ManageBuyOfferOp_OfferId op))
                                   outputDetails))))
                       (xdr.ManageBuyOfferOp_Buying op) "buying"))
               (xdr.ManageBuyOfferOp_Selling op) "selling")).
Proof.
  intros Hbody Hprice. unfold case_ManageBuyOffer.
  rewrite Hbody. cbn [xdr.GetManageBuyOfferOp]. rewrite Hprice.
  destruct (addAssetDetailsToOperationDetails _ (xdr.ManageBuyOfferOp_Buying op)
              "buying") as [d1 e1].
  cbn [fst].
  destruct (addAssetDetailsToOperationDetails d1 _ "selling") as [d2 e2].
  reflexivity.
Qed.

Lemma case_ManageSellOffer_eq
  (operation : xdr.Operation) (operationIndex : Z) (outputDetails : Details)
  (op : xdr.ManageSellOfferOp) (parsedPrice : float64) :
  xdr.Operation_Body operation = xdr.BodyManageSellOffer op ->
  strconv_ParseFloat (xdr.Price_String (xdr.ManageSellOfferOp_Price op))
  = Some parsedPrice ->
  case_ManageSellOffer operation operationIndex outputDetails
  = ok (fst (addAssetDetailsToOperationDetails
               (fst (addAssetDetailsToOperationDetails
                       (set_PriceR
                          {| Numerator :=
                               int32_of (xdr.Price_N (xdr.ManageSellOfferOp_Price op));
                             Denominator :=
                               int32_of (xdr.Price_D (xdr.ManageSellOfferOp_Price op)) |}
                          (set_Price parsedPrice
                             (set_Amount
                                (utils.ConvertStroopValueToReal
                                   (xdr.ManageSellOfferOp_Amount op))
                                (set_OfferID
                                   (int64_of (xdr.ManageSellOfferOp_OfferId op))
                                   outputDetails))))
                       (xdr.ManageSellOfferOp_Buying op) "buying"))
               (xdr.ManageSellOfferOp_Selling op) "selling")).
Proof.
  intros Hbody Hprice. unfold case_ManageSellOffer.
  rewrite Hbody. cbn [xdr.GetManageSellOfferOp]. rewrite Hprice.
  destruct (addAssetDetailsToOperationDetails _ (xdr.ManageSellOfferOp_Buying op)
              "buying") as [d1 e1].
  cbn [fst].
  destruct (addAssetDetailsToOperationDetails d1 _ "selling") as [d2 e2].
  reflexivity.
Qed.

Lemma case_CreatePassiveSellOffer_eq
  (operation : xdr.Operation) (operationIndex : Z) (outputDetails : Details)
  (op : xdr.CreatePassiveSellOfferOp) (parsedPrice : float64) :
  xdr.Operation_Body operation = xdr.BodyCreatePassiveSellOffer op ->
  strconv_ParseFloat (xdr.Price_String (xdr.CreatePassiveSellOfferOp_Price op))
  = Some parsedPrice ->
  case_CreatePassiveSellOffer operation operationIndex outputDetails
  = ok (fst (addAssetDetailsToOperationDetails
               (fst (addAssetDetailsToOperationDetails
                       (set_PriceR
                          {| Numerator :=
                               int32_of (xdr.Price_N (xdr.CreatePassiveSellOfferOp_Price op));
                             Denominator :=
                               int32_of (xdr.Price_D (xdr.CreatePassiveSellOfferOp_Price op)) |}
                          (set_Price parsedPrice
                             (set_Amount
                                (utils.ConvertStroopValueToReal
                                   (xdr.CreatePassiveSellOfferOp_Amount op))
                                outputDetails)))
                       (xdr.CreatePassiveSellOfferOp_Buying op) "buying"))
               (xdr.CreatePassiveSellOfferOp_Selling op) "selling")).
Proof.
  intros Hbody Hprice. unfold case_CreatePassiveSellOffer.
  rewrite Hbody. cbn [xdr.GetCreatePassiveSellOfferOp]. rewrite Hprice.
  destruct (addAssetDetailsToOperationDetails _ (xdr.CreatePassiveSellOfferOp_Buying op)
              "buying") as [d1 e1].
  cbn [fst].
  destruct (addAssetDetailsToOperationDetails d1 _ "selling") as [d2 e2].
  reflexivity.
Qed.

Lemma case_Payment_asset_fails
  (operation : xdr.Operation) (operationIndex : Z)
  (sourceAccountAddress : string) (outputDetails : Details)
  (op : xdr.PaymentOp) :
  xdr.Operation_Body operation = xdr.BodyPayment op ->
  xdr.Asset_Extract (xdr.PaymentOp_Asset op) = None ->
  exists e : error,
    case_Payment operation operationIndex sourceAccountAddress outputDetails
    = Done (Details_zero, Some e)
    /\ (xdr.AccountId_GetAddress
          (xdr.MuxedAccount_ToAccountId (xdr.PaymentOp_Destination op))
        <> None -> e = AssetExtractError).
Proof.
  intros Hbody Hfails. unfold case_Payment. rewrite Hbody.
  cbn [xdr.GetPaymentOp]. unfold utils.GetAccountAddressFromMuxedAccount.
  destruct (xdr.AccountId_GetAddress _) as [toAccountAddress |].
  - cbn [check bind ok].
    rewrite (addAssetDetailsToOperationDetails_fails _ _ _ Hfails).
    exists AssetExtractError. split; reflexivity.
  - exists AddressDecodeError. split; [reflexivity | congruence].
Qed.

Lemma extractOperationDetails_PathPaymentStrictReceive_asset_fails
  (operation : xdr.Operation) (transaction : ingest.LedgerTransaction)
  (operationIndex : Z) (op : xdr.PathPaymentStrictReceiveOp)
  (address toAccountAddress : string) (current : xdr.OperationResult) :
  xdr.Operation_Body operation = xdr.BodyPathPaymentStrictReceive op ->
  sourceAddress operation transaction = Some address ->
  xdr.AccountId_GetAddress
    (xdr.MuxedAccount_ToAccountId (xdr.PathPaymentStrictReceiveOp_Destination op))
  = Some toAccountAddress ->
  resultAt transaction operationIndex = Some current ->
  (xdr.TransactionResultPair_Successful (ingest.Result transaction) = true ->
   exists resultBody result_,
     xdr.GetTr current = Some resultBody
     /\ xdr.GetPathPaymentStrictReceiveResult resultBody = Some result_) ->
  exists d : Details,
    extractOperationDetails operation transaction operationIndex
    = Done (d, None)
    /\ (xdr.Asset_Extract (xdr.PathPaymentStrictReceiveOp_DestAsset op) = None ->
        AssetType d = "" /\ AssetCode d = "" /\ AssetIssuer d = "")
    /\ (xdr.Asset_Extract (xdr.PathPaymentStrictReceiveOp_SendAsset op) = None ->
        SourceAssetType d = "" /\ SourceAssetCode d = ""
        /\ SourceAssetIssuer d = "").
Proof.
  intros Hbody Haddr Hto Hres Hresult.
  rewrite (extractOperationDetails_eq _ _ _ _ _ Haddr Hres), Hbody.
  cbn [xdr.OperationBody_Type].
  rewrite switch_operationType_PathPaymentStrictReceive.
  rewrite (case_PathPaymentStrictReceive_eq _ _ _ _ _ _ _ _ Hbody Hto).
  cbv zeta.
  match goal with
  | |- context [fst (addAssetDetailsToOperationDetails
                       (fst (addAssetDetailsToOperationDetails ?base ?a1 ""))
                       ?a2 "source")] =>
      pose proof (plain_then_source_slots base a1 a2) as [Hplain Hsource];
      cbv zeta in Hplain, Hsource
  end.
  destruct (xdr.TransactionResultPair_Successful (ingest.Result transaction)).
  - destruct (Hresult eq_refl) as (resultBody & result_ & -> & ->).
    eexists. split; [reflexivity |].
    match goal with
    | |- context [ensureSlicesAreNotNil ?x] =>
        destruct (asset_slots_ensureSlicesAreNotNil x)
          as ((-> & -> & ->) & (-> & -> & ->) & _)
    end.
    cbn [AssetType AssetCode AssetIssuer SourceAssetType SourceAssetCode
           SourceAssetIssuer set_Path set_SourceAmount].
    split; intros Hfails.
    + destruct (Hplain Hfails) as (-> & -> & ->). auto.
    + destruct (Hsource Hfails) as (-> & -> & ->). auto.
  - eexists. split; [reflexivity |].
    match goal with
    | |- context [ensureSlicesAreNotNil ?x] =>
        destruct (asset_slots_ensureSlicesAreNotNil x)
          as ((-> & -> & ->) & (-> & -> & ->) & _)
    end.
    cbn [AssetType AssetCode AssetIssuer SourceAssetType SourceAssetCode
           SourceAssetIssuer set_Path].
    split; intros Hfails.
    + destruct (Hplain Hfails) as (-> & -> & ->). auto.
    + destruct (Hsource Hfails) as (-> & -> & ->). auto.
Qed.

Lemma extractOperationDetails_PathPaymentStrictSend_asset_fails
  (operation : xdr.Operation) (transaction : ingest.LedgerTransaction)
  (operationIndex : Z) (op : xdr.PathPaymentStrictSendOp)
  (address toAccountAddress : string) (current : xdr.OperationResult) :
  xdr.Operation_Body operation = xdr.BodyPathPaymentStrictSend op ->
  sourceAddress operation transaction = Some address ->
  xdr.AccountId_GetAddress
    (xdr.MuxedAccount_ToAccountId (xdr.PathPaymentStrictSendOp_Destination op))
  = Some toAccountAddress ->
  resultAt transaction operationIndex = Some current ->
  (xdr.TransactionResultPair_Successful (ingest.Result transaction) = true ->
   exists resultBody result_,
     xdr.GetTr current = Some resultBody
     /\ xdr.GetPathPaymentStrictSendResult resultBody = Some result_) ->
  exists d : Details,
    extractOperationDetails operation transaction operationIndex
    = Done (d, None)
    /\ (xdr.Asset_Extract (xdr.PathPaymentStrictSendOp_DestAsset op) = None ->
        AssetType d = "" /\ AssetCode d = "" /\ AssetIssuer d = "")
    /\ (xdr.Asset_Extract (xdr.PathPaymentStrictSendOp_SendAsset op) = None ->
        SourceAssetType d = "" /\ SourceAssetCode d = ""
        /\ SourceAssetIssuer d = "").
Proof.
  intros Hbody Haddr Hto Hres Hresult.
  rewrite (extractOperationDetails_eq _ _ _ _ _ Haddr Hres), Hbody.
  cbn [xdr.OperationBody_Type].
  rewrite switch_operationType_PathPaymentStrictSend.
  rewrite (case_PathPaymentStrictSend_eq _ _ _ _ _ _ _ _ Hbody Hto).
  cbv zeta.
  match goal with
  | |- context [fst (addAssetDetailsToOperationDetails
                       (fst (addAssetDetailsToOperationDetails ?base ?a1 ""))
                       ?a2 "source")] =>
      pose proof (plain_then_source_slots base a1 a2) as [Hplain Hsource];
      cbv zeta in Hplain, Hsource
  end.
  destruct (xdr.TransactionResultPair_Successful (ingest.Result transaction)).
  - destruct (Hresult eq_refl) as (resultBody & result_ & -> & ->).
    eexists. split; [reflexivity |].
    match goal with
    | |- context [ensureSlicesAreNotNil ?x] =>
        destruct (asset_slots_ensureSlicesAreNotNil x)
          as ((-> & -> & ->) & (-> & -> & ->) & _)
    end.
    cbn [AssetType AssetCode AssetIssuer SourceAssetType SourceAssetCode
           SourceAssetIssuer set_Path set_Amount].
    split; intros Hfails.
    + destruct (Hplain Hfails) as (-> & -> & ->). auto.
    + destruct (Hsource Hfails) as (-> & -> & ->). auto.
  - eexists. split; [reflexivity |].
    match goal with
    | |- context [ensureSlicesAreNotNil ?x] =>
        destruct (asset_slots_ensureSlicesAreNotNil x)
          as ((-> & -> & ->) & (-> & -> & ->) & _)
    end.
    cbn [AssetType AssetCode AssetIssuer SourceAssetType SourceAssetCode
           SourceAssetIssuer set_Path].
    split; intros Hfails.
    + destruct (Hplain Hfails) as (-> & -> & ->). auto.
    + destruct (Hsource Hfails) as (-> & -> & ->). auto.
Qed.

Lemma extractOperationDetails_ManageBuyOffer_asset_fails
  (operation : xdr.Operation) (transaction : ingest.LedgerTransaction)
  (operationIndex : Z) (op : xdr.ManageBuyOfferOp) (address : string)
  (current : xdr.OperationResult) (parsedPrice : float64) :
  xdr.Operation_Body operation = xdr.BodyManageBuyOffer op ->
  sourceAddress operation transaction = Some address ->
  resultAt transaction operationIndex = Some current ->
  strconv_ParseFloat (xdr.Price_String (xdr.ManageBuyOfferOp_Price op))
  = Some parsedPrice ->
  exists d : Details,
    extractOperationDetails operation transaction operationIndex
    = Done (d, None)
    /\ (xdr.Asset_Extract (xdr.ManageBuyOfferOp_Buying op) = None ->
        BuyingAssetType d = "" /\ BuyingAssetCode d = ""
        /\ BuyingAssetIssuer d = "")
    /\ (xdr.Asset_Extract (xdr.ManageBuyOfferOp_Selling op) = None ->
        SellingAssetType d = "" /\ SellingAssetCode d = ""
        /\ SellingAssetIssuer d = "").
Proof.
  intros Hbody Haddr Hres Hprice.
  rewrite (extractOperationDetails_eq _ _ _ _ _ Haddr Hres), Hbody.
  cbn [xdr.OperationBody_Type].
  rewrite switch_operationType_ManageBuyOffer.
  rewrite (case_ManageBuyOffer_eq _ _ _ _ _ Hbody Hprice).
  match goal with
  | |- context [fst (addAssetDetailsToOperationDetails
                       (fst (addAssetDetailsToOperationDetails ?base ?a1
                               "buying")) ?a2 "selling")] =>
      pose proof (buying_then_selling_slots base a1 a2) as [Hbuying Hselling];
      cbv zeta in Hbuying, Hselling
  end.
  eexists. split; [reflexivity |].
  match goal with
  | |- context [ensureSlicesAreNotNil ?x] =>
      destruct (asset_slots_ensureSlicesAreNotNil x)
        as (_ & _ & (-> & -> & ->) & (-> & -> & ->))
  end.
  split; intros Hfails.
  - destruct (Hbuying Hfails) as (-> & -> & ->). auto.
  - destruct (Hselling Hfails) as (-> & -> & ->). auto.
Qed.

Lemma extractOperationDetails_ManageSellOffer_asset_fails
  (operation : xdr.Operation) (transaction : ingest.LedgerTransaction)
  (operationIndex : Z) (op : xdr.ManageSellOfferOp) (address : string)
  (current : xdr.OperationResult) (parsedPrice : float64) :
  xdr.Operation_Body operation = xdr.BodyManageSellOffer op ->
  sourceAddress operation transaction = Some address ->
  resultAt transaction operationIndex = Some current ->
  strconv_ParseFloat (xdr.Price_String (xdr.ManageSellOfferOp_Price op))
  = Some parsedPrice ->
  exists d : Details,
    extractOperationDetails operation transaction operationIndex
    = Done (d, None)
    /\ (xdr.Asset_Extract (xdr.ManageSellOfferOp_Buying op) = None ->
        BuyingAssetType d = "" /\ BuyingAssetCode d = ""
        /\ BuyingAssetIssuer d = "")
    /\ (xdr.Asset_Extract (xdr.ManageSellOfferOp_Selling op) = None ->
        SellingAssetType d = "" /\ SellingAssetCode d = ""
        /\ SellingAssetIssuer d = "").
Proof.
  intros Hbody Haddr Hres Hprice.
  rewrite (extractOperationDetails_eq _ _ _ _ _ Haddr Hres), Hbody.
  cbn [xdr.OperationBody_Type].
  rewrite switch_operationType_ManageSellOffer.
  rewrite (case_ManageSellOffer_eq _ _ _ _ _ Hbody Hprice).
  match goal with
  | |- context [fst (addAssetDetailsToOperationDetails
                       (fst (addAssetDetailsToOperationDetails ?base ?a1
                               "buying")) ?a2 "selling")] =>
      pose proof (buying_then_selling_slots base a1 a2) as [Hbuying Hselling];
      cbv zeta in Hbuying, Hselling
  end.
  eexists. split; [reflexivity |].
  match goal with
  | |- context [ensureSlicesAreNotNil ?x] =>
      destruct (asset_slots_ensureSlicesAreNotNil x)
        as (_ & _ & (-> & -> & ->) & (-> & -> & ->))
  end.
  split; intros Hfails.
  - destruct (Hbuying Hfails) as (-> & -> & ->). auto.
  - destruct (Hselling Hfails) as (-> & -> & ->). auto.
Qed.

Lemma extractOperationDetails_CreatePassiveSellOffer_asset_fails
  (operation : xdr.Operation) (transaction : ingest.LedgerTransaction)
  (operationIndex : Z) (op : xdr.CreatePassiveSellOfferOp) (address : string)
  (current : xdr.OperationResult) (parsedPrice : float64) :
  xdr.Operation_Body operation = xdr.BodyCreatePassiveSellOffer op ->
  sourceAddress operation transaction = Some address ->
  resultAt transaction operationIndex = Some current ->
  strconv_ParseFloat (xdr.Price_String (xdr.CreatePassiveSellOfferOp_Price op))
  = Some parsedPrice ->
  exists d : Details,
    extractOperationDetails operation transaction operationIndex
    = Done (d, None)
    /\ (xdr.Asset_Extract (xdr.CreatePassiveSellOfferOp_Buying op) = None ->
        BuyingAssetType d = "" /\ BuyingAssetCode d = ""
        /\ BuyingAssetIssuer d = "")
    /\ (xdr.Asset_Extract (xdr.CreatePassiveSellOfferOp_Selling op) = None ->
        SellingAssetType d = "" /\ SellingAssetCode d = ""
        /\ SellingAssetIssuer d = "").
Proof.
  intros Hbody Haddr Hres Hprice.
  rewrite (extractOperationDetails_eq _ _ _ _ _ Haddr Hres), Hbody.
  cbn [xdr.OperationBody_Type].
  rewrite switch_operationType_CreatePassiveSellOffer.
  rewrite (case_CreatePassiveSellOffer_eq _ _ _ _ _ Hbody Hprice).
  match goal with
  | |- context [fst (addAssetDetailsToOperationDetails
                       (fst (addAssetDetailsToOperationDetails ?base ?a1
                               "buying")) ?a2 "selling")] =>
      pose proof (buying_then_selling_slots base a1 a2) as [Hbuying Hselling];
      cbv zeta in Hbuying, Hselling
  end.
  eexists. split; [reflexivity |].
  match goal with
  | |- context [ensureSlicesAreNotNil ?x] =>
      destruct (asset_slots_ensureSlicesAreNotNil x)
        as (_ & _ & (-> & -> & ->) & (-> & -> & ->))
  end.
  split; intros Hfails.
  - destruct (Hbuying Hfails) as (-> & -> & ->). auto.
  - destruct (Hselling Hfails) as (-> & -> & ->). auto.
Qed.

Lemma case_ManageBuyOffer_price_fails
  (operation : xdr.Operation) (operationIndex : Z) (outputDetails : Details)
  (op : xdr.ManageBuyOfferOp) :
  xdr.Operation_Body operation = xdr.BodyManageBuyOffer op ->
  strconv_ParseFloat (xdr.Price_String (xdr.ManageBuyOfferOp_Price op)) = None ->
  case_ManageBuyOffer operation operationIndex outputDetails
  = Done (Details_zero, Some ParseFloatError).
Proof.
  intros Hbody Hprice. unfold case_ManageBuyOffer.
  rewrite Hbody. cbn [xdr.GetManageBuyOfferOp]. rewrite Hprice. reflexivity.
Qed.

Lemma case_ManageSellOffer_price_fails
  (operation : xdr.Operation) (operationIndex : Z) (outputDetails : Details)
  (op : xdr.ManageSellOfferOp) :
  xdr.Operation_Body operation = xdr.BodyManageSellOffer op ->
  strconv_ParseFloat (xdr.Price_String (xdr.ManageSellOfferOp_Price op)) = None ->
  case_ManageSellOffer operation operationIndex outputDetails
  = Done (Details_zero, Some ParseFloatError).
Proof.
  intros Hbody Hprice. unfold case_ManageSellOffer.
  rewrite Hbody. cbn [xdr.GetManageSellOfferOp]. rewrite Hprice. reflexivity.
Qed.

Lemma case_CreatePassiveSellOffer_price_fails
  (operation : xdr.Operation) (operationIndex : Z) (outputDetails : Details)
  (op : xdr.CreatePassiveSellOfferOp) :
  xdr.Operation_Body operation = xdr.BodyCreatePassiveSellOffer op ->
  strconv_ParseFloat (xdr.Price_String (xdr.CreatePassiveSellOfferOp_Price op)) = None ->
  case_CreatePassiveSellOffer operation operationIndex outputDetails
  = Done (Details_zero, Some ParseFloatError).
Proof.
  intros Hbody Hprice. unfold case_CreatePassiveSellOffer.
  rewrite Hbody. cbn [xdr.GetCreatePassiveSellOfferOp]. rewrite Hprice. reflexivity.
Qed.

Lemma extractOperationDetails_err_inv
  (operation : xdr.Operation) (transaction : ingest.LedgerTransaction)
  (operationIndex : Z) (d : Details) (e : error) :
  extractOperationDetails operation transaction operationIndex
  = Done (d, Some e) ->
  e = AddressDecodeError \/ e = MissingResults
  \/ exists (address : string) (current : xdr.OperationResult) (d' : Details),
       switch_operationType operation transaction operationIndex
         (getOperationSourceAccount operation transaction) address current
         Details_zero (xdr.OperationBody_Type (xdr.Operation_Body operation))
       = Done (d', Some e).
Proof.
  unfold extractOperationDetails. intros H.
  apply check_err_inv in H as [[_ (a & H)] | (address & _ & H)].
  - left. unfold utils.GetAccountAddressFromMuxedAccount in H.
    destruct (xdr.AccountId_GetAddress _); inversion H. reflexivity.
  - right.
    destruct (xdr.TransactionResultPair_OperationResults
                (ingest.Result transaction)) as [results |].
    + right. apply bind_Done_inv in H as (current & _ & H).
      apply check_err_inv in H as [[_ (d' & H)] | (d' & _ & H)];
        [eauto | discriminate].
    + left. inversion H. reflexivity.
Qed.

(** In the kinds that drop it, the error of the asset helper is never the
    error of the transform. *)
Lemma extractOperationDetails_asset_error_dropped
  (operation : xdr.Operation) (transaction : ingest.LedgerTransaction)
  (operationIndex : Z) (d : Details) (e : error) :
  dropsAssetError (xdr.Operation_Body operation) ->
  extractOperationDetails operation transaction operationIndex
  = Done (d, Some e) ->
  e <> AssetExtractError.
Proof.
  intros Hkind H.
  apply extractOperationDetails_err_inv in H
    as [-> | [-> | (address & current & d' & H)]]; try discriminate.
  destruct (xdr.Operation_Body operation) as
    [ | | op | op | op | | | | | | | | op | op | | | | | | | | | ] eqn:Hbody;
    try contradiction; cbn [xdr.OperationBody_Type] in H.
  - rewrite switch_operationType_PathPaymentStrictReceive in H.
    destruct (xdr.AccountId_GetAddress
                (xdr.MuxedAccount_ToAccountId
                   (xdr.PathPaymentStrictReceiveOp_Destination op)))
      as [toAccountAddress |] eqn:Hto.
    + rewrite (case_PathPaymentStrictReceive_eq _ _ _ _ _ _ _ _ Hbody Hto)
        in H.
      cbv zeta in H.
      destruct (xdr.TransactionResultPair_Successful _);
        [destruct (xdr.GetTr current) as [resultBody |];
         [destruct (xdr.GetPathPaymentStrictReceiveResult resultBody) |] |];
        inversion H; discriminate.
    + rewrite (case_PathPaymentStrictReceive_destination_fails
                 _ _ _ _ _ _ _ Hbody Hto) in H.
      inversion H. discriminate.
  - rewrite switch_operationType_ManageSellOffer in H.
    destruct (strconv_ParseFloat
                (xdr.Price_String (xdr.ManageSellOfferOp_Price op)))
      as [parsedPrice |] eqn:Hprice.
    + rewrite (case_ManageSellOffer_eq _ _ _ _ _ Hbody Hprice) in H.
      discriminate.
    + rewrite (case_ManageSellOffer_price_fails _ _ _ _ Hbody Hprice) in H.
      inversion H. discriminate.
  - rewrite switch_operationType_CreatePassiveSellOffer in H.
    destruct (strconv_ParseFloat
                (xdr.Price_String (xdr.CreatePassiveSellOfferOp_Price op)))
      as [parsedPrice |] eqn:Hprice.
    + rewrite (case_CreatePassiveSellOffer_eq _ _ _ _ _ Hbody Hprice) in H.
      discriminate.
    + rewrite (case_CreatePassiveSellOffer_price_fails _ _ _ _ Hbody Hprice)
        in H.
      inversion H. discriminate.
  - rewrite switch_operationType_ManageBuyOffer in H.
    destruct (strconv_ParseFloat
                (xdr.Price_String (xdr.ManageBuyOfferOp_Price op)))
      as [parsedPrice |] eqn:Hprice.
    + rewrite (case_ManageBuyOffer_eq _ _ _ _ _ Hbody Hprice) in H.
      discriminate.
    + rewrite (case_ManageBuyOffer_price_fails _ _ _ _ Hbody Hprice) in H.
      inversion H. discriminate.
  - rewrite switch_operationType_PathPaymentStrictSend in H.
    destruct (xdr.AccountId_GetAddress
                (xdr.MuxedAccount_ToAccountId
                   (xdr.PathPaymentStrictSendOp_Destination op)))
      as [toAccountAddress |] eqn:Hto.
    + rewrite (case_PathPaymentStrictSend_eq _ _ _ _ _ _ _ _ Hbody Hto) in H.
      cbv zeta in H.
      destruct (xdr.TransactionResultPair_Successful _);
        [destruct (xdr.GetTr current) as [resultBody |];
         [destruct (xdr.GetPathPaymentStrictSendResult resultBody) |] |];
        inversion H; discriminate.
    + rewrite (case_PathPaymentStrictSend_destination_fails
                 _ _ _ _ _ _ _ Hbody Hto) in H.
      inversion H. discriminate.
Qed.

(** C10. An asset that [Extract] rejects is fatal in the payment case only.
    In the payment case the transform returns an error and the zero record
    (the extraction error itself when the destination renders). In the
    path-payment strict-receive and strict-send cases and in the manage-buy,
    manage-sell and create-passive-sell offer cases the error of the asset
    helper is dropped: the record is returned all the same, and the fields
    of the slot of the rejected asset keep their zero values; in these five
    cases no error of the transform is ever the extraction error. *)
Theorem C10_asset_extraction_failures :
  (forall (operation : xdr.Operation) (transaction : ingest.LedgerTransaction)
          (operationIndex : Z) (op : xdr.PaymentOp) (address : string)
          (current : xdr.OperationResult),
      xdr.Operation_Body operation = xdr.BodyPayment op ->
      sourceAddress operation transaction = Some address ->
      resultAt transaction operationIndex = Some current ->
      xdr.Asset_Extract (xdr.PaymentOp_Asset op) = None ->
      exists e : error,
        extractOperationDetails operation transaction operationIndex
        = Done (Details_zero, Some e)
        /\ (xdr.AccountId_GetAddress
              (xdr.MuxedAccount_ToAccountId (xdr.PaymentOp_Destination op))
            <> None -> e = AssetExtractError))
  /\ (forall (operation : xdr.Operation)
             (transaction : ingest.LedgerTransaction) (operationIndex : Z)
             (op : xdr.PathPaymentStrictReceiveOp)
             (address toAccountAddress : string)
             (current : xdr.OperationResult),
         xdr.Operation_Body operation = xdr.BodyPathPaymentStrictReceive op ->
         sourceAddress operation transaction = Some address ->
         xdr.AccountId_GetAddress
           (xdr.MuxedAccount_ToAccountId (xdr.PathPaymentStrictReceiveOp_Destination op))
         = Some toAccountAddress ->
         resultAt transaction operationIndex = Some current ->
         (xdr.TransactionResultPair_Successful (ingest.Result transaction)
          = true ->
          exists resultBody result_,
            xdr.GetTr current = Some resultBody
            /\ xdr.GetPathPaymentStrictReceiveResult resultBody = Some result_) ->
         exists d : Details,
           extractOperationDetails operation transaction operationIndex
           = Done (d, None)
           /\ (xdr.Asset_Extract (xdr.PathPaymentStrictReceiveOp_DestAsset op) = None ->
               AssetType d = "" /\ AssetCode d = "" /\ AssetIssuer d = "")
           /\ (xdr.Asset_Extract (xdr.PathPaymentStrictReceiveOp_SendAsset op) = None ->
               SourceAssetType d = "" /\ SourceAssetCode d = ""
               /\ SourceAssetIssuer d = ""))
  /\ (forall (operation : xdr.Operation)
             (transaction : ingest.LedgerTransaction) (operationIndex : Z)
             (op : xdr.PathPaymentStrictSendOp)
             (address toAccountAddress : string)
             (current : xdr.OperationResult),
         xdr.Operation_Body operation = xdr.BodyPathPaymentStrictSend op ->
         sourceAddress operation transaction = Some address ->
         xdr.AccountId_GetAddress
           (xdr.MuxedAccount_ToAccountId (xdr.PathPaymentStrictSendOp_Destination op))
         = Some toAccountAddress ->
         resultAt transaction operationIndex = Some current ->
         (xdr.TransactionResultPair_Successful (ingest.Result transaction)
          = true ->
          exists resultBody result_,
            xdr.GetTr current = Some resultBody
            /\ xdr.GetPathPaymentStrictSendResult resultBody = Some result_) ->
         exists d : Details,
           extractOperationDetails operation transaction operationIndex
           = Done (d, None)
           /\ (xdr.Asset_Extract (xdr.PathPaymentStrictSendOp_DestAsset op) = None ->
               AssetType d = "" /\ AssetCode d = "" /\ AssetIssuer d = "")
           /\ (xdr.Asset_Extract (xdr.PathPaymentStrictSendOp_SendAsset op) = None ->
               SourceAssetType d = "" /\ SourceAssetCode d = ""
               /\ SourceAssetIssuer d = ""))
  /\ (forall (operation : xdr.Operation)
             (transaction : ingest.LedgerTransaction) (operationIndex : Z)
             (op : xdr.ManageBuyOfferOp) (address : string)
             (current : xdr.OperationResult) (parsedPrice : float64),
         xdr.Operation_Body operation = xdr.BodyManageBuyOffer op ->
         sourceAddress operation transaction = Some address ->
         resultAt transaction operationIndex = Some current ->
         strconv_ParseFloat (xdr.Price_String (xdr.ManageBuyOfferOp_Price op))
         = Some parsedPrice ->
         exists d : Details,
           extractOperationDetails operation transaction operationIndex
           = Done (d, None)
           /\ (xdr.Asset_Extract (xdr.ManageBuyOfferOp_Buying op) = None ->
               BuyingAssetType d = "" /\ BuyingAssetCode d = ""
               /\ BuyingAssetIssuer d = "")
           /\ (xdr.Asset_Extract (xdr.ManageBuyOfferOp_Selling op) = None ->
               SellingAssetType d = "" /\ SellingAssetCode d = ""
               /\ SellingAssetIssuer d = ""))
  /\ (forall (operation : xdr.Operation)
             (transaction : ingest.LedgerTransaction) (operationIndex : Z)
             (op : xdr.ManageSellOfferOp) (address : string)
             (current : xdr.OperationResult) (parsedPrice : float64),
         xdr.Operation_Body operation = xdr.BodyManageSellOffer op ->
         sourceAddress operation transaction = Some address ->
         resultAt transaction operationIndex = Some current ->
         strconv_ParseFloat (xdr.Price_String (xdr.ManageSellOfferOp_Price op))
         = Some parsedPrice ->
         exists d : Details,
           extractOperationDetails operation transaction operationIndex
           = Done (d, None)
           /\ (xdr.Asset_Extract (xdr.ManageSellOfferOp_Buying op) = None ->
               BuyingAssetType d = "" /\ BuyingAssetCode d = ""
               /\ BuyingAssetIssuer d = "")
           /\ (xdr.Asset_Extract (xdr.ManageSellOfferOp_Selling op) = None ->
               SellingAssetType d = "" /\ SellingAssetCode d = ""
               /\ SellingAssetIssuer d = ""))
  /\ (forall (operation : xdr.Operation)
             (transaction : ingest.LedgerTransaction) (operationIndex : Z)
             (op : xdr.CreatePassiveSellOfferOp) (address : string)
             (current : xdr.OperationResult) (parsedPrice : float64),
         xdr.Operation_Body operation = xdr.BodyCreatePassiveSellOffer op ->
         sourceAddress operation transaction = Some address ->
         resultAt transaction operationIndex = Some current ->
         strconv_ParseFloat (xdr.Price_String (xdr.CreatePassiveSellOfferOp_Price op))
         = Some parsedPrice ->
         exists d : Details,
           extractOperationDetails operation transaction operationIndex
           = Done (d, None)
           /\ (xdr.Asset_Extract (xdr.CreatePassiveSellOfferOp_Buying op) = None ->
               BuyingAssetType d = "" /\ BuyingAssetCode d = ""
               /\ BuyingAssetIssuer d = "")
           /\ (xdr.Asset_Extract (xdr.CreatePassiveSellOfferOp_Selling op) = None ->
               SellingAssetType d = "" /\ SellingAssetCode d = ""
               /\ SellingAssetIssuer d = ""))
  /\ (forall (operation : xdr.Operation)
             (transaction : ingest.LedgerTransaction) (operationIndex : Z)
             (d : Details) (e : error),
         dropsAssetError (xdr.Operation_Body operation) ->
         extractOperationDetails operation transaction operationIndex
         = Done (d, Some e) ->
         e <> AssetExtractError).
Proof.
  split; [| split; [| split; [| split; [| split; [| split]]]]].
  - intros operation transaction operationIndex op address current Hbody
      Haddr Hres Hfails.
    rewrite (extractOperationDetails_eq _ _ _ _ _ Haddr Hres), Hbody.
    cbn [xdr.OperationBody_Type]. rewrite switch_operationType_Payment.
    destruct (case_Payment_asset_fails operation operationIndex address
                Details_zero op Hbody Hfails) as (e & -> & He).
    exists e. split; [reflexivity | exact He].
  - exact extractOperationDetails_PathPaymentStrictReceive_asset_fails.
  - exact extractOperationDetails_PathPaymentStrictSend_asset_fails.
  - exact extractOperationDetails_ManageBuyOffer_asset_fails.
  - exact extractOperationDetails_ManageSellOffer_asset_fails.
  - exact extractOperationDetails_CreatePassiveSellOffer_asset_fails.
  - exact extractOperationDetails_asset_error_dropped.
Qed.

(** ** Identifier ordering *)



End Properties.

(** * Further properties of [operation.go] *)

Section MoreProperties.
Context {L : xdr.Lib} {R : GoRuntime}.

(** ** The post-pass *)

(** X1. [ensureSlicesAreNotNil] is idempotent, keeps the elements of the
    five slices it allocates, and is the identity on a record whose five
    slices are already allocated. *)
Theorem ensureSlicesAreNotNil_idempotent (d : Details) :
  ensureSlicesAreNotNil (ensureSlicesAreNotNil d) = ensureSlicesAreNotNil d
  /\ (elems (Path (ensureSlicesAreNotNil d)) = elems (Path d)
      /\ elems (SetFlags (ensureSlicesAreNotNil d)) = elems (SetFlags d)
      /\ elems (SetFlagsString (ensureSlicesAreNotNil d))
         = elems (SetFlagsString d)
      /\ elems (ClearFlags (ensureSlicesAreNotNil d)) = elems (ClearFlags d)
      /\ elems (ClearFlagsString (ensureSlicesAreNotNil d))
         = elems (ClearFlagsString d))
  /\ (Path d <> None -> SetFlags d <> None -> SetFlagsString d <> None ->
      ClearFlags d <> None -> ClearFlagsString d <> None ->
      ensureSlicesAreNotNil d = d).
Proof.
  destruct d as [? ? ? ? ? ? ? ? ? ? ? ? ? ? ? clearFlags clearFlagsString
                   ? ? ? ? ? ? ? ? ? ? ? ? ? ? ? path ? ? ? ? ? setFlags
                   setFlagsString ? ? ? ? ? ? ? ? ? ? ? ? ? ? ? ?].
  destruct path, setFlags, setFlagsString, clearFlags, clearFlagsString;
    (split; [vm_compute; reflexivity |]);
    (split; [repeat split; vm_compute; reflexivity |]);
    cbn [Path SetFlags SetFlagsString ClearFlags ClearFlagsString];
    intros H1 H2 H3 H4 H5; try congruence; vm_compute; reflexivity.
Qed.

(** ** The asset helper *)

(** X2. [addAssetDetailsToOperationDetails] writes the slot its prefix
    selects and no other: when the asset extracts, the slot's type is the
    extracted type, and its code and issuer are the extracted ones for a
    non-native asset and are left as they were for a native one; the three
    other slots keep their fields; when the asset does not extract the
    record is returned unchanged with the error. *)
Theorem addAssetDetailsToOperationDetails_writes_one_slot
  (d : Details) (asset : xdr.Asset) (prefix : string) :
  (xdr.Asset_Extract asset = None ->
   addAssetDetailsToOperationDetails d asset prefix
   = (d, Some AssetExtractError))
  /\ (forall assetType code issuer : string,
         xdr.Asset_Extract asset = Some (assetType, code, issuer) ->
         snd (addAssetDetailsToOperationDetails d asset prefix) = None
         /\ slot (slotOf prefix)
              (fst (addAssetDetailsToOperationDetails d asset prefix))
            = if xdr.Asset_Type asset =? xdr.AssetTypeAssetTypeNative
              then (assetType, snd (fst (slot (slotOf prefix) d)),
                    snd (slot (slotOf prefix) d))
              else (assetType, code, issuer))
  /\ (forall s : AssetSlot,
         s <> slotOf prefix ->
         slot s (fst (addAssetDetailsToOperationDetails d asset prefix))
         = slot s d).
Proof.
  unfold addAssetDetailsToOperationDetails, slotOf.
  destruct (xdr.Asset_Extract asset) as [[[assetType code] issuer] |].
  - split; [discriminate |].
    destruct (prefix =? "buying")%string;
      [| destruct (prefix =? "selling")%string;
         [| destruct (prefix =? "source")%string]];
      destruct (xdr.Asset_Type asset =? 0); cbn [negb];
      (split; [intros t c i Heq; inversion Heq; subst; split; reflexivity |]);
      intros [] Hs; try congruence; reflexivity.
  - split; [reflexivity |]. split; [discriminate |]. reflexivity.
Qed.

(** ** The assembled record *)

(** X3. In every record that [TransformOperation] returns, the source
    account is the rendered address of the operation's own source account
    when it has one and of the transaction's source account otherwise, the
    type is the non-negative type tag of the body, the details are those of
    [extractOperationDetails], the operation index is a valid index of the
    results list, and the application order is the index plus one (for an
    index below the largest 32-bit integer). *)
Theorem TransformOperation_record
  (operation : xdr.Operation) (operationIndex : Z)
  (transaction : ingest.LedgerTransaction) (ledgerSeq : Z)
  (output : OperationOutput) :
  TransformOperation operation operationIndex transaction ledgerSeq
  = Done (output, None) ->
  xdr.AccountId_GetAddress
    (xdr.MuxedAccount_ToAccountId
       match xdr.Operation_SourceAccount operation with
       | Some sourceAccount => sourceAccount
       | None =>
           xdr.TransactionEnvelope_SourceAccount (ingest.Envelope transaction)
       end)
  = Some (SourceAccount output)
  /\ Type_ output
     = int32_of (xdr.OperationBody_Type (xdr.Operation_Body operation))
  /\ 0 <= Type_ output
  /\ extractOperationDetails operation transaction operationIndex
     = Done (OperationDetails output, None)
  /\ resultAt transaction operationIndex <> None
  /\ (operationIndex + 1 < 2 ^ 31 ->
      ApplicationOrder output = operationIndex + 1
      /\ 1 <= ApplicationOrder output).
Proof.
  unfold TransformOperation. intros H.
  apply bind_Done_inv in H as ([address [e |]] & Haddr & H); [discriminate |].
  apply GetAccountAddressFromMuxedAccount_ok_inv in Haddr.
  destruct (Z.ltb_spec
              (int32_of (xdr.OperationBody_Type (xdr.Operation_Body operation)))
              0) as [Hneg | Hpos]; [discriminate |].
  apply check_ok_inv in H as (d & Hd & H).
  inversion H; subst output. cbn.
  pose proof Hd as Hd'.
  apply extractOperationDetails_ok_inv in Hd'
    as (_ & results & current & _ & _ & Hres & Hindex & _ & _).
  assert (Hat : resultAt transaction operationIndex = Some current).
  { unfold resultAt. rewrite Hres. unfold index in Hindex.
    destruct (Z.leb_spec 0 operationIndex); cbn [andb] in Hindex;
      [| discriminate].
    destruct (operationIndex <? Z.of_nat (List.length results));
      [| discriminate].
    destruct (nth_error results (Z.to_nat operationIndex));
      inversion Hindex. reflexivity. }
  split; [exact Haddr |]. split; [reflexivity |]. split; [exact Hpos |].
  split; [exact Hd |]. split; [congruence |].
  intros Hfits.
  assert (0 <= operationIndex).
  { unfold resultAt in Hat. rewrite Hres in Hat.
    destruct (Z.leb_spec 0 operationIndex); [assumption | discriminate]. }
  rewrite int32_of_small by lia. lia.
Qed.

(** X4. The two checks of [TransformOperation] that run before the details
    are extracted: an operation whose effective source account does not
    render fails with the address error wrapped with the operation index and
    the operation id, and an operation whose source renders and whose type
    tag is negative fails with the negative-type error; in both cases the
    zero record is returned and the transaction's results are never read,
    so the outcome is the same for a missing or too short results list. *)
Theorem TransformOperation_early_errors
  (operation : xdr.Operation) (operationIndex : Z)
  (transaction : ingest.LedgerTransaction) (ledgerSeq : Z) :
  let operationID :=
    toid.ToInt64
      (toid.New ledgerSeq (int32_of (ingest.Index transaction))
         (int32_of (operationIndex + 1))) in
  let operationType :=
    int32_of (xdr.OperationBody_Type (xdr.Operation_Body operation)) in
  (sourceAddress operation transaction = None ->
   TransformOperation operation operationIndex transaction ledgerSeq
   = Done (OperationOutput_zero,
           Some (ErrForOperation operationIndex operationID
                   AddressDecodeError)))
  /\ (sourceAddress operation transaction <> None ->
      operationType < 0 ->
      TransformOperation operation operationIndex transaction ledgerSeq
      = Done (OperationOutput_zero,
              Some (NegativeTypeError operationType operationIndex
                      operationID))).
Proof.
  cbv zeta. unfold TransformOperation, sourceAddress. split.
  - intros Haddr. rewrite (GetAccountAddressFromMuxedAccount_fails _ Haddr).
    reflexivity.
  - intros Haddr Hneg.
    destruct (xdr.AccountId_GetAddress _) as [address |] eqn:Ha;
      [| congruence].
    rewrite (GetAccountAddressFromMuxedAccount_renders _ _ Ha). cbn [bind].
    destruct (Z.ltb_spec
                (int32_of
                   (xdr.OperationBody_Type (xdr.Operation_Body operation))) 0);
      [reflexivity | lia].
Qed.

(** ** Case analysis of the switch *)

(** One step along the spine of a returned computation. *)
Ltac step H :=
  match type of H with
  | bind ?m _ = _ => let E := fresh "E" in destruct m eqn:E; cbn [bind] in H
  | check _ _ = _ => unfold check at 1 in H
  | fail _ = _ => unfold fail in H
  | ok _ = _ => unfold ok in H
  | (match ?x with _ => _ end) = _ => let E := fresh "E" in destruct x eqn:E
  end.

Ltac open_cases H :=
  unfold case_CreateAccount, case_Payment, case_PathPaymentStrictReceive,
    case_PathPaymentStrictSend, case_ManageBuyOffer, case_ManageSellOffer,
    case_CreatePassiveSellOffer, case_SetOptions, case_ChangeTrust,
    case_AllowTrust, case_AccountMerge, case_ManageData, case_BumpSequence,
    case_CreateClaimableBalance, case_ClaimClaimableBalance,
    case_BeginSponsoringFutureReserves, case_EndSponsoringFutureReserves,
    case_RevokeSponsorship, case_Clawback, case_ClawbackClaimableBalance,
    case_SetTrustLineFlags in H;
  cbn [xdr.Operation_Body xdr.GetCreateAccountOp xdr.GetPaymentOp
         xdr.GetPathPaymentStrictReceiveOp xdr.GetPathPaymentStrictSendOp
         xdr.GetManageBuyOfferOp xdr.GetManageSellOfferOp
         xdr.GetCreatePassiveSellOfferOp xdr.GetSetOptionsOp
         xdr.GetChangeTrustOp xdr.GetAllowTrustOp xdr.GetDestination
         xdr.GetManageDataOp xdr.GetBumpSequenceOp
         xdr.MustCreateClaimableBalanceOp xdr.MustClaimClaimableBalanceOp
         xdr.MustBeginSponsoringFutureReservesOp xdr.MustRevokeSponsorshipOp
         xdr.MustClawbackOp xdr.MustClawbackClaimableBalanceOp
         xdr.MustSetTrustLineFlagsOp bind] in H.

(** Every returned computation in the context, down to its return. *)
Ltac crunch :=
  repeat match goal with
    | E : (match ?x with _ => _ end) = Done _ |- _ => step E
    | E : bind _ _ = Done _ |- _ => step E
    | E : check _ _ = Done _ |- _ => step E
    | E : ok _ = Done _ |- _ => unfold ok in E
    | E : fail _ = Done _ |- _ => unfold fail in E
    | E : Done _ = Done _ |- _ => inversion E; subst; clear E
    | E : Panics _ = Done _ |- _ => discriminate E
    end.

Lemma GetAccountAddressFromMuxedAccount_err_inv
  (account : xdr.MuxedAccount) (s : string) (e : error) :
  utils.GetAccountAddressFromMuxedAccount account = Done (s, Some e) ->
  e = AddressDecodeError.
Proof.
  unfold utils.GetAccountAddressFromMuxedAccount.
  destruct (xdr.AccountId_GetAddress _); intros H; inversion H. reflexivity.
Qed.

Lemma addAssetDetailsToOperationDetails_err_inv
  (d : Details) (asset : xdr.Asset) (prefix : string) (d' : Details)
  (e : error) :
  addAssetDetailsToOperationDetails d asset prefix = (d', Some e) ->
  e = AssetExtractError /\ xdr.Asset_Extract asset = None /\ d' = d.
Proof.
  unfold addAssetDetailsToOperationDetails.
  destruct (xdr.Asset_Extract asset) as [[[assetType code] issuer] |].
  - destruct (prefix =? "buying")%string;
      [| destruct (prefix =? "selling")%string;
         [| destruct (prefix =? "source")%string]]; discriminate.
  - intros H. inversion H. auto.
Qed.

Lemma addLedgerKeyToDetails_err_inv
  (d : Details) (ledgerKey : xdr.LedgerKey) (d' : Details) (e : error) :
  addLedgerKeyToDetails d ledgerKey = Done (d', Some e) ->
  e = MalformedLedgerKey MarshalHexError /\ d' = d.
Proof.
  unfold addLedgerKeyToDetails. destruct ledgerKey; intros H;
    repeat step H; inversion H; auto.
Qed.

Lemma findInitatingBeginSponsoringOp_Some_successful
  (operation : xdr.Operation) (operationIndex : Z)
  (transaction : ingest.LedgerTransaction) (output : SponsorshipOutput) :
  findInitatingBeginSponsoringOp operation operationIndex transaction
  = Done (Some output) ->
  xdr.TransactionResultPair_Successful (ingest.Result transaction) = true.
Proof.
  unfold findInitatingBeginSponsoringOp.
  destruct (xdr.TransactionResultPair_Successful _);
    [reflexivity | discriminate].
Qed.

Ltac error_facts :=
  repeat match goal with
    | E : utils.GetAccountAddressFromMuxedAccount _ = Done (_, Some _) |- _ =>
        apply GetAccountAddressFromMuxedAccount_err_inv in E; subst
    | E : addAssetDetailsToOperationDetails _ _ _ = (_, Some _) |- _ =>
        apply addAssetDetailsToOperationDetails_err_inv in E;
        destruct E as (? & ? & ?); subst
    | E : addLedgerKeyToDetails _ _ = Done (_, Some _) |- _ =>
        apply addLedgerKeyToDetails_err_inv in E; destruct E as (? & ?); subst
    | E : findInitatingBeginSponsoringOp _ _ _ = Done (Some _) |- _ =>
        apply findInitatingBeginSponsoringOp_Some_successful in E
    end.

Lemma switch_operationType_errors
  (operation : xdr.Operation) (transaction : ingest.LedgerTransaction)
  (operationIndex : Z) (sourceAccount : xdr.MuxedAccount)
  (sourceAccountAddress : string)
  (currentOperationResult : xdr.OperationResult) (d : Details) (e : error) :
  switch_operationType operation transaction operationIndex sourceAccount
    sourceAccountAddress currentOperationResult Details_zero
    (xdr.OperationBody_Type (xdr.Operation_Body operation))
  = Done (d, Some e) ->
  d = Details_zero /\ explains operation transaction operationIndex e.
Proof.
  intros H. destruct operation as [src body].
  cbn [xdr.Operation_Body] in H.
  destruct body as [ | | | | | | | | | | | | | | | | | | | | | | t];
    cbn [xdr.OperationBody_Type] in H.
  23: { destruct (Z_lt_ge_dec t 0) as [Hneg | Hpos];
        [| destruct (Z_lt_ge_dec 21 t) as [Hbig | Hsmall]].
        - rewrite switch_operationType_default in H by lia.
          inversion H. split; [reflexivity |]. cbn. split; [reflexivity | lia].
        - rewrite switch_operationType_default in H by lia.
          inversion H. split; [reflexivity |]. cbn. split; [reflexivity | lia].
        - assert (Ht : t = 0 \/ t = 1 \/ t = 2 \/ t = 3 \/ t = 4 \/ t = 5
                       \/ t = 6 \/ t = 7 \/ t = 8 \/ t = 9 \/ t = 10
                       \/ t = 11 \/ t = 12 \/ t = 13 \/ t = 14 \/ t = 15
                       \/ t = 16 \/ t = 17 \/ t = 18 \/ t = 19 \/ t = 20
                       \/ t = 21) by lia.
          repeat (destruct Ht as [-> | Ht]); try subst t;
            cbn [switch_operationType] in H; open_cases H;
            repeat step H; crunch; error_facts;
            (split; [reflexivity |]); cbn; eauto 8. }
  all: cbn [switch_operationType] in H; open_cases H;
    repeat step H; crunch; error_facts;
    (split; [reflexivity |]); cbn; eauto 8.
Qed.

(** X5. Every error of [extractOperationDetails] comes with the zero
    [Details], never a partly filled one, and tells where it arose: the
    address error only when the source account does not render or for a
    payment, a path payment, an account merge or a clawback (whose other
    account does not render); the missing-results error only without a
    results list; a schema mismatch
    only for a body that lacks the arm of its tag; the missing result body
    or info only for a path payment of a successful transaction; the
    unsupported-type error only for a tag outside 0..21; the balance-id
    error only for the claim and clawback of a claimable balance; the
    ledger-key error only for revoke-sponsorship; the sponsor-address error
    only for end-sponsoring in a successful transaction; the asset
    extraction error only for a payment whose asset does not extract; and
    the price-parsing error only for the three offer kinds. *)
Theorem extractOperationDetails_error_provenance
  (operation : xdr.Operation) (transaction : ingest.LedgerTransaction)
  (operationIndex : Z) (d : Details) (e : error) :
  extractOperationDetails operation transaction operationIndex
  = Done (d, Some e) ->
  d = Details_zero /\ explains operation transaction operationIndex e.
Proof.
  unfold extractOperationDetails. intros H.
  apply check_err_inv in H as [[-> (a & H)] | (address & _ & H)].
  - split; [reflexivity |].
    unfold utils.GetAccountAddressFromMuxedAccount in H.
    destruct (xdr.AccountId_GetAddress _) eqn:Haddr; inversion H.
    left. exact Haddr.
  - destruct (xdr.TransactionResultPair_OperationResults
                (ingest.Result transaction)) as [results |] eqn:Hres.
    + apply bind_Done_inv in H as (current & _ & H).
      apply check_err_inv in H as [[-> (d' & H)] | (d' & _ & H)];
        [| discriminate].
      split; [reflexivity |].
      apply (switch_operationType_errors _ _ _ _ _ _ _ _ H).
    + inversion H. split; [reflexivity |]. exact Hres.
Qed.

(** ** The slices of the kinds that have none *)

Lemma addAssetDetailsToOperationDetails_listFields
  (d : Details) (asset : xdr.Asset) (prefix : string) (d' : Details)
  (e : option error) :
  addAssetDetailsToOperationDetails d asset prefix = (d', e) ->
  listFields d' = listFields d.
Proof.
  unfold addAssetDetailsToOperationDetails.
  destruct (xdr.Asset_Extract asset) as [[[assetType code] issuer] |].
  - destruct (prefix =? "buying")%string;
      [| destruct (prefix =? "selling")%string;
         [| destruct (prefix =? "source")%string]];
      destruct (negb _); intros H; inversion H; reflexivity.
  - intros H. inversion H. reflexivity.
Qed.

Lemma addLedgerKeyToDetails_listFields
  (d : Details) (ledgerKey : xdr.LedgerKey) (d' : Details)
  (e : option error) :
  addLedgerKeyToDetails d ledgerKey = Done (d', e) ->
  listFields d' = listFields d.
Proof.
  unfold addLedgerKeyToDetails. destruct ledgerKey; intros H;
    repeat step H; inversion H; reflexivity.
Qed.

Lemma Path_addOperationFlagToOperationDetails
  (d : Details) (flag : Z) (prefix : string) :
  Path (addOperationFlagToOperationDetails d flag prefix) = Path d.
Proof.
  unfold addOperationFlagToOperationDetails.
  destruct (operationFlagSlices flag).
  destruct (prefix =? "set")%string; [reflexivity |].
  destruct (prefix =? "clear")%string; reflexivity.
Qed.

Lemma Path_addTrustLineFlagToDetails
  (d : Details) (f : Z) (prefix : string) :
  Path (addTrustLineFlagToDetails d f prefix) = Path d.
Proof.
  unfold addTrustLineFlagToDetails.
  destruct (trustLineFlagSlices f).
  destruct (prefix =? "set")%string; [reflexivity |].
  destruct (prefix =? "clear")%string; reflexivity.
Qed.

Ltac lists_simpl :=
  cbn [Path SetFlags SetFlagsString ClearFlags ClearFlagsString Details_zero
       set_Account set_AccountID set_Amount set_AssetCode set_AssetIssuer
       set_AssetType set_Authorize set_BalanceID set_BeginSponsor set_BumpTo
       set_BuyingAssetCode set_BuyingAssetIssuer set_BuyingAssetType
       set_ClaimableBalanceID set_Claimants set_ClearFlags
       set_ClearFlagsString set_DataAccountID set_DataName
       set_DestinationMin set_From set_Funder set_HighThreshold
       set_HomeDomain set_InflationDest set_Into set_Limit set_LowThreshold
       set_MasterKeyWeight set_MedThreshold set_Name set_OfferID set_Path
       set_Price set_PriceR set_SellingAssetCode set_SellingAssetIssuer
       set_SellingAssetType set_SetFlags set_SetFlagsString
       set_SignerAccountID set_SignerKey set_SignerWeight set_SourceAmount
       set_SourceAssetCode set_SourceAssetIssuer set_SourceAssetType
       set_SourceMax set_SponsoredID set_StartingBalance set_To set_Trustee
       set_Trustor set_TrustlineAccountID set_TrustlineAsset set_Value] in *.

Ltac list_facts :=
  repeat match goal with
    | E : addAssetDetailsToOperationDetails _ _ _ = (_, _) |- _ =>
        apply addAssetDetailsToOperationDetails_listFields in E;
        unfold listFields in E; injection E as ? ? ? ? ?
    | E : addLedgerKeyToDetails _ _ = Done (_, _) |- _ =>
        apply addLedgerKeyToDetails_listFields in E;
        unfold listFields in E; injection E as ? ? ? ? ?
    end.

Lemma switch_operationType_listFields
  (operation : xdr.Operation) (transaction : ingest.LedgerTransaction)
  (operationIndex : Z) (sourceAccount : xdr.MuxedAccount)
  (sourceAccountAddress : string)
  (currentOperationResult : xdr.OperationResult) (d : Details) :
  switch_operationType operation transaction operationIndex sourceAccount
    sourceAccountAddress currentOperationResult Details_zero
    (xdr.OperationBody_Type (xdr.Operation_Body operation))
  = Done (d, None) ->
  (xdr.OperationBody_Type (xdr.Operation_Body operation)
   <> xdr.OperationTypePathPaymentStrictReceive ->
   xdr.OperationBody_Type (xdr.Operation_Body operation)
   <> xdr.OperationTypePathPaymentStrictSend ->
   Path d = None)
  /\ (xdr.OperationBody_Type (xdr.Operation_Body operation)
      <> xdr.OperationTypeSetOptions ->
      xdr.OperationBody_Type (xdr.Operation_Body operation)
      <> xdr.OperationTypeSetTrustLineFlags ->
      SetFlags d = None /\ SetFlagsString d = None
      /\ ClearFlags d = None /\ ClearFlagsString d = None).
Proof.
  intros H. destruct operation as [src body].
  cbn [xdr.Operation_Body] in *.
  destruct body as [ | | | | | | | | | | | | | | | | | | | | | | t];
    cbn [xdr.OperationBody_Type] in *.
  23: { destruct (Z_lt_ge_dec t 0) as [Hneg | Hpos];
        [| destruct (Z_lt_ge_dec 21 t) as [Hbig | Hsmall]].
        - rewrite switch_operationType_default in H by lia. discriminate.
        - rewrite switch_operationType_default in H by lia. discriminate.
        - assert (Ht : t = 0 \/ t = 1 \/ t = 2 \/ t = 3 \/ t = 4 \/ t = 5
                       \/ t = 6 \/ t = 7 \/ t = 8 \/ t = 9 \/ t = 10
                       \/ t = 11 \/ t = 12 \/ t = 13 \/ t = 14 \/ t = 15
                       \/ t = 16 \/ t = 17 \/ t = 18 \/ t = 19 \/ t = 20
                       \/ t = 21) by lia.
          repeat (destruct Ht as [-> | Ht]); try subst t;
            cbn [switch_operationType] in H; open_cases H;
            repeat step H; crunch; list_facts;
            (split; [intros; try congruence | intros; try congruence]);
            cbn; auto. }
  all: cbn [switch_operationType] in H; open_cases H;
    repeat step H; crunch; list_facts;
    (split; [intros; try congruence | intros; try congruence]);
    repeat (lists_simpl;
            rewrite ?Path_addOperationFlagToOperationDetails,
              ?Path_addTrustLineFlagToDetails;
            try match goal with
              | |- context [match ?x with _ => _ end] => destruct x
              end);
    try (repeat split; congruence).
Qed.

(** X6. The slices of a record are empty for the kinds that have none: the
    path of every record other than those of the two path payments is
    empty, and the four flag lists of every record other than those of
    set-options and set-trustline-flags are empty. *)
Theorem extractOperationDetails_irrelevant_lists
  (operation : xdr.Operation) (transaction : ingest.LedgerTransaction)
  (operationIndex : Z) (d : Details) :
  extractOperationDetails operation transaction operationIndex
  = Done (d, None) ->
  (xdr.OperationBody_Type (xdr.Operation_Body operation)
   <> xdr.OperationTypePathPaymentStrictReceive ->
   xdr.OperationBody_Type (xdr.Operation_Body operation)
   <> xdr.OperationTypePathPaymentStrictSend ->
   Path d = Some [])
  /\ (xdr.OperationBody_Type (xdr.Operation_Body operation)
      <> xdr.OperationTypeSetOptions ->
      xdr.OperationBody_Type (xdr.Operation_Body operation)
      <> xdr.OperationTypeSetTrustLineFlags ->
      SetFlags d = Some [] /\ SetFlagsString d = Some []
      /\ ClearFlags d = Some [] /\ ClearFlagsString d = Some []).
Proof.
  intros H.
  apply extractOperationDetails_ok_inv in H
    as (address & results & current & d' & _ & _ & _ & Hswitch & ->).
  apply switch_operationType_listFields in Hswitch as [HPath Hflags].
  rewrite ensureSlicesAreNotNil_shape.
  cbn [Path SetFlags SetFlagsString ClearFlags ClearFlagsString
         set_ClearFlagsString set_ClearFlags set_SetFlagsString set_SetFlags
         set_Path].
  split.
  - intros H1 H2. rewrite (HPath H1 H2). reflexivity.
  - intros H1 H2. destruct (Hflags H1 H2) as (-> & -> & -> & ->).
    repeat split; reflexivity.
Qed.


(** ** The flags of set-options and set-trustline-flags *)

Lemma addOperationFlagToOperationDetails_set_eq (d : Details) (flag : Z) :
  addOperationFlagToOperationDetails d flag "set"
  = set_SetFlagsString (Some (map snd (setBits accountFlagBits flag)))
      (set_SetFlags (Some (map fst (setBits accountFlagBits flag))) d).
Proof.
  unfold addOperationFlagToOperationDetails.
  rewrite operationFlagSlices_setBits. reflexivity.
Qed.

Lemma addOperationFlagToOperationDetails_clear_eq (d : Details) (flag : Z) :
  addOperationFlagToOperationDetails d flag "clear"
  = set_ClearFlagsString (Some (map snd (setBits accountFlagBits flag)))
      (set_ClearFlags (Some (map fst (setBits accountFlagBits flag))) d).
Proof.
  unfold addOperationFlagToOperationDetails.
  rewrite operationFlagSlices_setBits. reflexivity.
Qed.

(** The [let]s at the head of a returned computation, as local definitions:
    the body of each is kept once. *)
Ltac pose_lets H :=
  repeat match type of H with
    | (let x := ?a in @?b x) = ?c =>
        let y := fresh x in
        pose (y := a); change (b y = c) in H; cbv beta in H
    end.

(** X7. The record of a set-options operation lists under [set_flags] and
    [set_flags_string] the values and the names of the account flags set in
    the operation's set mask, in enumeration order, and under [clear_flags]
    and [clear_flags_string] those of its clear mask; a mask that is absent
    or zero gives empty lists, and the two masks do not interfere. *)
Theorem extractOperationDetails_SetOptions_flags
  (operation : xdr.Operation) (transaction : ingest.LedgerTransaction)
  (operationIndex : Z) (op : xdr.SetOptionsOp) (d : Details) :
  xdr.Operation_Body operation = xdr.BodySetOptions op ->
  extractOperationDetails operation transaction operationIndex
  = Done (d, None) ->
  SetFlags d
  = Some (map fst (reportedFlags accountFlagBits (xdr.SetOptionsOp_SetFlags op)))
  /\ SetFlagsString d
     = Some (map snd
               (reportedFlags accountFlagBits (xdr.SetOptionsOp_SetFlags op)))
  /\ ClearFlags d
     = Some (map fst
               (reportedFlags accountFlagBits (xdr.SetOptionsOp_ClearFlags op)))
  /\ ClearFlagsString d
     = Some (map snd
               (reportedFlags accountFlagBits
                  (xdr.SetOptionsOp_ClearFlags op))).
Proof.
  intros Hbody H.
  apply extractOperationDetails_ok_inv in H
    as (address & results & current & d' & _ & _ & _ & Hswitch & ->).
  rewrite Hbody in Hswitch.
  cbn [xdr.OperationBody_Type switch_operationType] in Hswitch.
  cbv beta delta [case_SetOptions] in Hswitch. rewrite Hbody in Hswitch.
  cbv beta iota delta [xdr.GetSetOptionsOp] in Hswitch.
  destruct (match xdr.SetOptionsOp_InflationDest op with
            | Some _ => _ | None => _ end) as [d0 | p] eqn:E0;
    cbv beta iota delta [bind] in Hswitch; [| discriminate].
  assert (H0 : listFields d0 = listFields Details_zero).
  { destruct (xdr.SetOptionsOp_InflationDest op);
      [destruct (xdr.AccountId_Address _); cbn [bind] in E0 |];
      inversion E0; reflexivity. }
  unfold listFields in H0. cbn in H0. injection H0 as HP HS HSS HC HCS.
  pose_lets Hswitch.
  assert (A : Path outputDetails = None
              /\ elems (SetFlags outputDetails)
                 = map fst (reportedFlags accountFlagBits
                              (xdr.SetOptionsOp_SetFlags op))
              /\ elems (SetFlagsString outputDetails)
                 = map snd (reportedFlags accountFlagBits
                              (xdr.SetOptionsOp_SetFlags op))
              /\ ClearFlags outputDetails = None
              /\ ClearFlagsString outputDetails = None).
  { unfold outputDetails, reportedFlags.
    destruct (xdr.SetOptionsOp_SetFlags op) as [m |];
      [destruct (m >? 0);
       [rewrite addOperationFlagToOperationDetails_set_eq; lists_simpl |] |];
      rewrite ?HS, ?HSS; repeat split; try assumption; reflexivity. }
  clearbody outputDetails. destruct A as (AP & AS & ASS & AC & ACS).
  assert (B : Path outputDetails0 = None
              /\ SetFlags outputDetails0 = SetFlags outputDetails
              /\ SetFlagsString outputDetails0 = SetFlagsString outputDetails
              /\ elems (ClearFlags outputDetails0)
                 = map fst (reportedFlags accountFlagBits
                              (xdr.SetOptionsOp_ClearFlags op))
              /\ elems (ClearFlagsString outputDetails0)
                 = map snd (reportedFlags accountFlagBits
                              (xdr.SetOptionsOp_ClearFlags op))).
  { unfold outputDetails0, reportedFlags.
    destruct (xdr.SetOptionsOp_ClearFlags op) as [m |];
      [destruct (m >? 0);
       [rewrite addOperationFlagToOperationDetails_clear_eq; lists_simpl |] |];
      rewrite ?AC, ?ACS; repeat split; try assumption; reflexivity. }
  clearbody outputDetails0. destruct B as (BP & BS & BSS & BC & BCS).
  assert (H1 : listFields outputDetails1 = listFields outputDetails0)
    by (unfold outputDetails1;
        destruct (xdr.SetOptionsOp_MasterWeight op); reflexivity).
  clearbody outputDetails1.
  assert (H2 : listFields outputDetails2 = listFields outputDetails1)
    by (unfold outputDetails2;
        destruct (xdr.SetOptionsOp_LowThreshold op); reflexivity).
  clearbody outputDetails2.
  assert (H3 : listFields outputDetails3 = listFields outputDetails2)
    by (unfold outputDetails3;
        destruct (xdr.SetOptionsOp_MedThreshold op); reflexivity).
  clearbody outputDetails3.
  assert (H4 : listFields outputDetails4 = listFields outputDetails3)
    by (unfold outputDetails4;
        destruct (xdr.SetOptionsOp_HighThreshold op); reflexivity).
  clearbody outputDetails4.
  assert (H5 : listFields outputDetails5 = listFields outputDetails4)
    by (unfold outputDetails5;
        destruct (xdr.SetOptionsOp_HomeDomain op); reflexivity).
  clearbody outputDetails5.
  assert (H6 : listFields d' = listFields outputDetails5)
    by (destruct (xdr.SetOptionsOp_Signer op);
        [destruct (xdr.SignerKey_Address _) |];
        inversion Hswitch; reflexivity).
  rewrite H5, H4, H3, H2, H1 in H6. unfold listFields in H6.
  injection H6 as _ H6S H6SS H6C H6CS.
  rewrite ensureSlicesAreNotNil_shape. lists_simpl.
  rewrite H6S, H6SS, H6C, H6CS, BS, BSS, AS, ASS, BC, BCS.
  repeat split; reflexivity.
Qed.

Lemma testbit_int32_of (x k : Z) :
  0 <= k < 32 -> Z.testbit (int32_of x) k = Z.testbit x k.
Proof.
  intros Hk. unfold int32_of.
  rewrite Z.mod_eq by lia.
  replace (x + 2 ^ 31 - 2 ^ 32 * ((x + 2 ^ 31) / 2 ^ 32) - 2 ^ 31)
    with (x + - ((x + 2 ^ 31) / 2 ^ 32) * 2 ^ 32) by lia.
  rewrite <- (Z.mod_pow2_bits_low (x + _ * 2 ^ 32) 32 k) by lia.
  rewrite Z.mod_add by lia.
  apply Z.mod_pow2_bits_low. lia.
Qed.

Lemma land_int32_of_pow2 (x k : Z) :
  0 <= k < 32 -> Z.land (int32_of x) (2 ^ k) = Z.land x (2 ^ k).
Proof.
  intros Hk. rewrite !land_pow2 by lia. rewrite testbit_int32_of by lia.
  reflexivity.
Qed.

(** The conversion of a mask to [TrustLineFlags] keeps its named bits. *)
Lemma setBits_TrustLineFlags (mask : Z) :
  setBits trustLineFlagBits (xdr.TrustLineFlags mask)
  = setBits trustLineFlagBits mask.
Proof.
  pose proof (land_int32_of_pow2 mask 0 ltac:(lia)) as H0.
  pose proof (land_int32_of_pow2 mask 1 ltac:(lia)) as H1.
  pose proof (land_int32_of_pow2 mask 2 ltac:(lia)) as H2.
  change (2 ^ 0) with 1 in H0. change (2 ^ 1) with 2 in H1.
  change (2 ^ 2) with 4 in H2.
  unfold setBits, trustLineFlagBits, xdr.TrustLineFlags. cbn [filter fst].
  rewrite H0, H1, H2. reflexivity.
Qed.

Lemma addTrustLineFlagToDetails_set_eq (d : Details) (f : Z) :
  addTrustLineFlagToDetails d f "set"
  = set_SetFlagsString (snd (trustLineFlagSlices f))
      (set_SetFlags (fst (trustLineFlagSlices f)) d).
Proof.
  unfold addTrustLineFlagToDetails.
  destruct (trustLineFlagSlices f). reflexivity.
Qed.

Lemma addTrustLineFlagToDetails_clear_eq (d : Details) (f : Z) :
  addTrustLineFlagToDetails d f "clear"
  = set_ClearFlagsString (snd (trustLineFlagSlices f))
      (set_ClearFlags (fst (trustLineFlagSlices f)) d).
Proof.
  unfold addTrustLineFlagToDetails.
  destruct (trustLineFlagSlices f). reflexivity.
Qed.

(** X8. The record of a set-trustline-flags operation lists under the set
    and the clear fields the values and the names of the trustline flags set
    in the operation's set and clear masks, in enumeration order: the
    conversion of a mask to the 32-bit signed flag type keeps the three named
    bits, and a zero mask gives empty lists. *)
Theorem extractOperationDetails_SetTrustLineFlags_flags
  (operation : xdr.Operation) (transaction : ingest.LedgerTransaction)
  (operationIndex : Z) (op : xdr.SetTrustLineFlagsOp) (d : Details) :
  xdr.Operation_Body operation = xdr.BodySetTrustLineFlags op ->
  extractOperationDetails operation transaction operationIndex
  = Done (d, None) ->
  SetFlags d
  = Some (map fst
            (reportedFlags trustLineFlagBits
               (Some (xdr.SetTrustLineFlagsOp_SetFlags op))))
  /\ SetFlagsString d
     = Some (map snd
               (reportedFlags trustLineFlagBits
                  (Some (xdr.SetTrustLineFlagsOp_SetFlags op))))
  /\ ClearFlags d
     = Some (map fst
               (reportedFlags trustLineFlagBits
                  (Some (xdr.SetTrustLineFlagsOp_ClearFlags op))))
  /\ ClearFlagsString d
     = Some (map snd
               (reportedFlags trustLineFlagBits
                  (Some (xdr.SetTrustLineFlagsOp_ClearFlags op)))).
Proof.
  intros Hbody H.
  apply extractOperationDetails_ok_inv in H
    as (address & results & current & d' & _ & _ & _ & Hswitch & ->).
  rewrite Hbody in Hswitch.
  cbn [xdr.OperationBody_Type switch_operationType] in Hswitch.
  cbv beta delta [case_SetTrustLineFlags] in Hswitch.
  rewrite Hbody in Hswitch.
  cbv beta iota delta [xdr.MustSetTrustLineFlagsOp bind] in Hswitch.
  destruct (xdr.AccountId_Address _) as [trustor | p]; [| discriminate].
  pose_lets Hswitch.
  destruct (addAssetDetailsToOperationDetails outputDetails _ _)
    as [d0 e] eqn:E0.
  apply addAssetDetailsToOperationDetails_listFields in E0.
  unfold listFields in E0. injection E0 as HP HS HSS HC HCS.
  unfold outputDetails in HP, HS, HSS, HC, HCS. lists_simpl.
  clear outputDetails. unfold ok in Hswitch. inversion Hswitch as [Hd'].
  clear Hswitch Hd'.
  pose proof (trustLineFlagSlices_setBits
                (xdr.TrustLineFlags (xdr.SetTrustLineFlagsOp_SetFlags op)))
    as [Sn Ss].
  pose proof (trustLineFlagSlices_setBits
                (xdr.TrustLineFlags (xdr.SetTrustLineFlagsOp_ClearFlags op)))
    as [Cn Cs].
  rewrite setBits_TrustLineFlags in Sn, Ss, Cn, Cs.
  rewrite ensureSlicesAreNotNil_shape. unfold reportedFlags.
  destruct (xdr.SetTrustLineFlagsOp_SetFlags op >? 0),
    (xdr.SetTrustLineFlagsOp_ClearFlags op >? 0);
    rewrite ?addTrustLineFlagToDetails_clear_eq,
      ?addTrustLineFlagToDetails_set_eq;
    lists_simpl; rewrite ?Sn, ?Ss, ?Cn, ?Cs, ?HS, ?HSS, ?HC, ?HCS;
    repeat split; reflexivity.
Qed.

(** ** Trust lines *)

(** X9. A change-trust operation whose source renders and whose result is
    there always gives a record: the error of the asset helper is dropped.
    The trustor is the source address, the limit is the converted limit, and
    the trustee is the issuer field of the record: the issuer of the line
    for a non-native line, and empty for a native line and for a line that
    does not extract, whose asset fields all stay empty. *)
Theorem extractOperationDetails_ChangeTrust
  (operation : xdr.Operation) (transaction : ingest.LedgerTransaction)
  (operationIndex : Z) (op : xdr.ChangeTrustOp) (address : string)
  (current : xdr.OperationResult) :
  xdr.Operation_Body operation = xdr.BodyChangeTrust op ->
  sourceAddress operation transaction = Some address ->
  resultAt transaction operationIndex = Some current ->
  exists d : Details,
    extractOperationDetails operation transaction operationIndex
    = Done (d, None)
    /\ Trustor d = address
    /\ Limit d = utils.ConvertStroopValueToReal (xdr.ChangeTrustOp_Limit op)
    /\ Trustee d = AssetIssuer d
    /\ slot SlotPlain d
       = match xdr.Asset_Extract (xdr.ChangeTrustOp_Line op) with
         | Some (assetType, code, issuer) =>
             if xdr.Asset_Type (xdr.ChangeTrustOp_Line op)
                =? xdr.AssetTypeAssetTypeNative
             then (assetType, "", "")
             else (assetType, code, issuer)
         | None => ("", "", "")
         end.
Proof.
  intros Hbody Haddr Hres.
  rewrite (extractOperationDetails_eq _ _ _ _ _ Haddr Hres), Hbody.
  cbn [xdr.OperationBody_Type switch_operationType].
  unfold case_ChangeTrust. rewrite Hbody. cbn [xdr.GetChangeTrustOp].
  unfold addAssetDetailsToOperationDetails.
  destruct (xdr.Asset_Extract (xdr.ChangeTrustOp_Line op))
    as [[[assetType code] issuer] |];
    [cbn [String.eqb];
     destruct (xdr.Asset_Type (xdr.ChangeTrustOp_Line op) =? 0); cbn [negb] |];
    (eexists; split; [reflexivity |]);
    rewrite ensureSlicesAreNotNil_shape; repeat split; reflexivity.
Qed.

Lemma IsAuthorized_TrustLineFlags (v : Z) :
  xdr.IsAuthorized (xdr.TrustLineFlags v) = Z.odd v.
Proof.
  unfold xdr.IsAuthorized, xdr.TrustLineFlags.
  pose proof (land_int32_of_pow2 v 0 ltac:(lia)) as H.
  change (2 ^ 0) with 1 in H. rewrite H.
  change 1 with (2 ^ 0). rewrite land_pow2 by lia.
  rewrite Z.bit0_odd. destruct (Z.odd v); reflexivity.
Qed.

(** X10. For an allow-trust operation whose source renders and whose result
    is there: when the trustor renders, a record is returned whose trustee is
    the source address, whose trustor is the rendered trustor, whose
    [authorize] is the lowest bit of the operation's authorize value, and
    whose asset is the operation's asset code issued by the source account
    (fields left empty when that asset does not extract); when the trustor
    does not render, the extraction panics instead of returning an error. *)
Theorem extractOperationDetails_AllowTrust
  (operation : xdr.Operation) (transaction : ingest.LedgerTransaction)
  (operationIndex : Z) (op : xdr.AllowTrustOp) (address : string)
  (current : xdr.OperationResult) :
  xdr.Operation_Body operation = xdr.BodyAllowTrust op ->
  sourceAddress operation transaction = Some address ->
  resultAt transaction operationIndex = Some current ->
  let asset :=
    xdr.AssetCode_ToAsset (xdr.AllowTrustOp_Asset op)
      (xdr.MuxedAccount_ToAccountId
         (getOperationSourceAccount operation transaction)) in
  match xdr.AccountId_GetAddress (xdr.AllowTrustOp_Trustor op) with
  | Some trustor =>
      exists d : Details,
        extractOperationDetails operation transaction operationIndex
        = Done (d, None)
        /\ Trustee d = address
        /\ Trustor d = trustor
        /\ Authorize d = Z.odd (xdr.AllowTrustOp_Authorize op)
        /\ slot SlotPlain d
           = match xdr.Asset_Extract asset with
             | Some (assetType, code, issuer) =>
                 if xdr.Asset_Type asset =? xdr.AssetTypeAssetTypeNative
                 then (assetType, "", "")
                 else (assetType, code, issuer)
             | None => ("", "", "")
             end
  | None =>
      extractOperationDetails operation transaction operationIndex
      = Panics AddressPanic
  end.
Proof.
  intros Hbody Haddr Hres. cbv zeta.
  rewrite (extractOperationDetails_eq _ _ _ _ _ Haddr Hres), Hbody.
  cbn [xdr.OperationBody_Type switch_operationType].
  unfold case_AllowTrust. rewrite Hbody. cbn [xdr.GetAllowTrustOp].
  unfold addAssetDetailsToOperationDetails, xdr.AccountId_Address.
  destruct (xdr.AccountId_GetAddress (xdr.AllowTrustOp_Trustor op))
    as [trustor |].
  - destruct (xdr.Asset_Extract _) as [[[assetType code] issuer] |];
      [cbn [String.eqb]; destruct (xdr.Asset_Type _ =? 0); cbn [negb] |];
      cbn [bind check ok];
      (eexists; split; [reflexivity |]);
      rewrite ensureSlicesAreNotNil_shape, <- IsAuthorized_TrustLineFlags;
      repeat split; reflexivity.
  - destruct (xdr.Asset_Extract _) as [[[assetType code] issuer] |];
      [cbn [String.eqb]; destruct (xdr.Asset_Type _ =? 0); cbn [negb] |];
      reflexivity.
Qed.

(** ** Claimable balances *)

(** The loop over the claimants: one entry per claimant, in order, after
    those already there. *)
Lemma claimants_loop_Done (rest : list xdr.Claimant) :
  forall claimants claimants' : Claimants,
    claimants_loop claimants rest = Done claimants' ->
    exists added : list Claimant,
      elems claimants' = elems claimants ++ added
      /\ Forall2 renderedClaimant rest added
      /\ (claimants' = None <-> claimants = None /\ rest = []).
Proof.
  induction rest as [| c rest IH]; intros claimants claimants' H.
  - cbn in H. inversion H; subst. exists []. rewrite app_nil_r.
    split; [reflexivity |]. split; [constructor |]. intuition.
  - cbn [claimants_loop] in H.
    destruct c as [cv0 | t]; cbn [xdr.Claimant_MustV0 bind] in H;
      [| discriminate].
    unfold xdr.AccountId_Address in H.
    destruct (xdr.AccountId_GetAddress (xdr.ClaimantV0_Destination cv0))
      as [destination |] eqn:Hdest; cbn [bind] in H; [| discriminate].
    apply IH in H as (added & Helems & Hall & Hnil).
    exists ({| Claimant_Destination := destination;
               Claimant_Predicate := xdr.ClaimantV0_Predicate cv0 |}
            :: added).
    split; [| split].
    + rewrite Helems. destruct claimants; cbn; [| reflexivity].
      rewrite <- app_assoc. reflexivity.
    + constructor; [| assumption]. exists cv0. cbn. auto.
    + split; [| intros [_ Hrest]; discriminate].
      intros Hnone. apply Hnil in Hnone as [Hnone _].
      destruct claimants; discriminate.
Qed.

(** X11. The record of a create-claimable-balance operation has one
    claimant per claimant of the operation, in order, each with the rendered
    destination and the predicate of its V0 arm; the claimants list is nil
    (the post-pass does not allocate it) exactly when the operation has no
    claimant; the canonical string of the asset is stored in the asset code,
    the asset type and issuer stay empty, and the amount is the converted
    amount. *)
Theorem extractOperationDetails_CreateClaimableBalance
  (operation : xdr.Operation) (transaction : ingest.LedgerTransaction)
  (operationIndex : Z) (op : xdr.CreateClaimableBalanceOp) (d : Details) :
  xdr.Operation_Body operation = xdr.BodyCreateClaimableBalance op ->
  extractOperationDetails operation transaction operationIndex
  = Done (d, None) ->
  Forall2 renderedClaimant (xdr.CreateClaimableBalanceOp_Claimants op)
    (elems (ClaimantsOf d))
  /\ (ClaimantsOf d = None <-> xdr.CreateClaimableBalanceOp_Claimants op = [])
  /\ AssetCode d
     = xdr.Asset_StringCanonical (xdr.CreateClaimableBalanceOp_Asset op)
  /\ AssetType d = "" /\ AssetIssuer d = ""
  /\ Amount d
     = utils.ConvertStroopValueToReal (xdr.CreateClaimableBalanceOp_Amount op).
Proof.
  intros Hbody H.
  apply extractOperationDetails_ok_inv in H
    as (address & results & current & d' & _ & _ & _ & Hswitch & ->).
  rewrite Hbody in Hswitch.
  cbn [xdr.OperationBody_Type switch_operationType] in Hswitch.
  unfold case_CreateClaimableBalance in Hswitch. rewrite Hbody in Hswitch.
  cbn [xdr.MustCreateClaimableBalanceOp bind] in Hswitch.
  destruct (claimants_loop None _) as [claimants | p] eqn:Hloop;
    cbn [bind] in Hswitch; [| discriminate].
  unfold ok in Hswitch. inversion Hswitch; subst d'. clear Hswitch.
  apply claimants_loop_Done in Hloop as (added & Helems & Hall & Hnil).
  rewrite ensureSlicesAreNotNil_shape.
  cbn [ClaimantsOf AssetCode AssetType AssetIssuer Amount
         set_ClearFlagsString set_ClearFlags set_SetFlagsString set_SetFlags
         set_Path set_Claimants set_Amount set_AssetCode Details_zero].
  cbn [elems app] in Helems. rewrite Helems.
  split; [assumption |]. split; [| repeat split; reflexivity].
  rewrite Hnil. intuition.
Qed.

(** ** The sponsorship lookback *)

(** What the loop has checked on the operation it returns. *)
Lemma findInitatingBeginSponsoringOp_loop_found
  (sponsoree : xdr.AccountId) (operations : list xdr.Operation) :
  forall (n : nat) (output : SponsorshipOutput),
    findInitatingBeginSponsoringOp_loop sponsoree operations n
    = Done (Some output) ->
    0 <= SponsorshipOutput_OperationIndex output < Z.of_nat n
    /\ nth_error operations
         (Z.to_nat (SponsorshipOutput_OperationIndex output))
       = Some (SponsorshipOutput_Operation output)
    /\ exists beginOp : xdr.BeginSponsoringFutureReservesOp,
         xdr.Operation_Body (SponsorshipOutput_Operation output)
         = xdr.BodyBeginSponsoringFutureReserves beginOp
         /\ xdr.AccountId_GetAddress
              (xdr.BeginSponsoringFutureReservesOp_SponsoredId beginOp)
            = xdr.AccountId_GetAddress sponsoree
         /\ xdr.AccountId_GetAddress sponsoree <> None.
Proof.
  induction n as [| n IH]; intros output Hloop; [discriminate |].
  cbn [findInitatingBeginSponsoringOp_loop] in Hloop.
  apply bind_Done_inv in Hloop as (o & Hindex & Hloop).
  apply index_Done_inv in Hindex. rewrite Nat2Z.id in Hindex.
  assert (Hrest :
    findInitatingBeginSponsoringOp_loop sponsoree operations n
    = Done (Some output) ->
    0 <= SponsorshipOutput_OperationIndex output < Z.of_nat (S n)
    /\ nth_error operations
         (Z.to_nat (SponsorshipOutput_OperationIndex output))
       = Some (SponsorshipOutput_Operation output)
    /\ exists beginOp : xdr.BeginSponsoringFutureReservesOp,
         xdr.Operation_Body (SponsorshipOutput_Operation output)
         = xdr.BodyBeginSponsoringFutureReserves beginOp
         /\ xdr.AccountId_GetAddress
              (xdr.BeginSponsoringFutureReservesOp_SponsoredId beginOp)
            = xdr.AccountId_GetAddress sponsoree
         /\ xdr.AccountId_GetAddress sponsoree <> None).
  { intros H. destruct (IH output H) as (Hidx & Hnth & Hbegin).
    split; [lia | split; assumption]. }
  destruct (xdr.GetBeginSponsoringFutureReservesOp (xdr.Operation_Body o))
    as [beginOp |] eqn:Hget; [| exact (Hrest Hloop)].
  apply bind_Done_inv in Hloop as (sponsored & Hsponsored & Hloop).
  apply bind_Done_inv in Hloop as (address & Haddress & Hloop).
  apply AccountId_Address_Done_inv in Hsponsored, Haddress.
  destruct (String.eqb_spec sponsored address) as [-> | Hne];
    [| exact (Hrest Hloop)].
  inversion Hloop; subst output. cbn.
  rewrite Nat2Z.id. split; [lia | split; [assumption |]].
  exists beginOp. split; [| split; congruence].
  destruct (xdr.Operation_Body o); try discriminate.
  cbn in Hget. congruence.
Qed.

(** X12. [findInitatingBeginSponsoringOp] on a successful transaction: for
    an operation index that is zero or negative nothing is read and no match
    is returned; for an index larger than the number of operations the first
    read, at index - 1, panics out of range; and a returned match sits at the
    index it reports, below the operation index, and is a begin-sponsoring
    operation whose sponsored account renders to the same address as the
    source account of the operation. *)
Theorem findInitatingBeginSponsoringOp_bounds
  (operation : xdr.Operation) (operationIndex : Z)
  (transaction : ingest.LedgerTransaction) :
  xdr.TransactionResultPair_Successful (ingest.Result transaction) = true ->
  let operations :=
    xdr.TransactionEnvelope_Operations (ingest.Envelope transaction) in
  (operationIndex <= 0 ->
   findInitatingBeginSponsoringOp operation operationIndex transaction
   = Done None)
  /\ (Z.of_nat (List.length operations) < operationIndex ->
      findInitatingBeginSponsoringOp operation operationIndex transaction
      = Panics (IndexOutOfRange "operations" (operationIndex - 1)
                  (Z.of_nat (List.length operations))))
  /\ (forall output : SponsorshipOutput,
         findInitatingBeginSponsoringOp operation operationIndex transaction
         = Done (Some output) ->
         0 <= SponsorshipOutput_OperationIndex output < operationIndex
         /\ nth_error operations
              (Z.to_nat (SponsorshipOutput_OperationIndex output))
            = Some (SponsorshipOutput_Operation output)
         /\ exists beginOp : xdr.BeginSponsoringFutureReservesOp,
              xdr.Operation_Body (SponsorshipOutput_Operation output)
              = xdr.BodyBeginSponsoringFutureReserves beginOp
              /\ xdr.AccountId_GetAddress
                   (xdr.BeginSponsoringFutureReservesOp_SponsoredId beginOp)
                 = sourceAddress operation transaction
              /\ sourceAddress operation transaction <> None).
Proof.
  intros Hsucc. cbv zeta. unfold findInitatingBeginSponsoringOp.
  rewrite Hsucc. cbn [negb]. split; [| split].
  - intros Hle. replace (Z.to_nat operationIndex) with 0%nat by lia.
    reflexivity.
  - intros Hlen.
    replace (Z.to_nat operationIndex)
      with (S (Z.to_nat (operationIndex - 1))) by lia.
    cbn [findInitatingBeginSponsoringOp_loop].
    rewrite Z2Nat.id by lia.
    rewrite index_out_of_range by lia. reflexivity.
  - intros output Hloop.
    apply findInitatingBeginSponsoringOp_loop_found in Hloop
      as (Hidx & Hnth & beginOp & Hbody & Hsponsored & Hrenders).
    split; [lia | split; [assumption |]].
    exists beginOp. auto.
Qed.

(** ** The strict-send amount *)

(** X13. For a path-payment strict-send operation whose source and
    destination render and whose result entry is there: on a successful
    transaction the record's [amount] is the destination amount of the
    strict-send result, and a result entry without a body or with another
    body is an error; on a failed transaction [amount] stays zero; in both
    cases [source_amount] is the declared send amount. *)
Theorem extractOperationDetails_PathPaymentStrictSend_amount
  (operation : xdr.Operation) (transaction : ingest.LedgerTransaction)
  (operationIndex : Z) (op : xdr.PathPaymentStrictSendOp)
  (address toAccountAddress : string) (current : xdr.OperationResult) :
  xdr.Operation_Body operation = xdr.BodyPathPaymentStrictSend op ->
  sourceAddress operation transaction = Some address ->
  xdr.AccountId_GetAddress
    (xdr.MuxedAccount_ToAccountId (xdr.PathPaymentStrictSendOp_Destination op))
  = Some toAccountAddress ->
  resultAt transaction operationIndex = Some current ->
  if xdr.TransactionResultPair_Successful (ingest.Result transaction) then
    match xdr.GetTr current with
    | Some resultBody =>
        match xdr.GetPathPaymentStrictSendResult resultBody with
        | Some result_ =>
            exists d : Details,
              extractOperationDetails operation transaction operationIndex
              = Done (d, None)
              /\ Amount d
                 = utils.ConvertStroopValueToReal
                     (xdr.PathPaymentStrictSendResult_DestAmount result_)
              /\ SourceAmount d
                 = utils.ConvertStroopValueToReal
                     (xdr.PathPaymentStrictSendOp_SendAmount op)
        | None =>
            extractOperationDetails operation transaction operationIndex
            = Done (Details_zero,
                    Some (MissingResultInfo "GetPathPaymentStrictSendResult"
                            operationIndex))
        end
    | None =>
        extractOperationDetails operation transaction operationIndex
        = Done (Details_zero, Some (MissingResultBody operationIndex))
    end
  else
    exists d : Details,
      extractOperationDetails operation transaction operationIndex
      = Done (d, None)
      /\ Amount d = 0%Q
      /\ SourceAmount d
         = utils.ConvertStroopValueToReal
             (xdr.PathPaymentStrictSendOp_SendAmount op).
Proof.
  intros Hbody Haddr Hto Hres.
  rewrite (extractOperationDetails_eq _ _ _ _ _ Haddr Hres), Hbody.
  cbn [xdr.OperationBody_Type].
  rewrite switch_operationType_PathPaymentStrictSend.
  rewrite (case_PathPaymentStrictSend_eq _ _ _ _ _ _ _ _ Hbody Hto).
  cbv zeta.
  destruct (xdr.TransactionResultPair_Successful (ingest.Result transaction)).
  - destruct (xdr.GetTr current) as [resultBody |]; [| reflexivity].
    destruct (xdr.GetPathPaymentStrictSendResult resultBody) as [result_ |];
      [| reflexivity].
    eexists. split; [reflexivity |].
    rewrite ensureSlicesAreNotNil_shape.
    cbn [Amount SourceAmount set_ClearFlagsString set_ClearFlags
           set_SetFlagsString set_SetFlags set_Path set_Amount].
    split; [reflexivity |].
    rewrite (proj1 (addAssetDetailsToOperationDetails_amounts _ _ _)).
    rewrite (proj1 (addAssetDetailsToOperationDetails_amounts _ _ _)).
    reflexivity.
  - eexists. split; [reflexivity |].
    rewrite ensureSlicesAreNotNil_shape.
    cbn [Amount SourceAmount set_ClearFlagsString set_ClearFlags
           set_SetFlagsString set_SetFlags set_Path set_Amount].
    rewrite (proj1 (proj2 (proj2
               (addAssetDetailsToOperationDetails_amounts _ _ _)))).
    rewrite (proj1 (proj2 (proj2
               (addAssetDetailsToOperationDetails_amounts _ _ _)))).
    rewrite (proj1 (addAssetDetailsToOperationDetails_amounts _ _ _)).
    rewrite (proj1 (addAssetDetailsToOperationDetails_amounts _ _ _)).
    split; reflexivity.
Qed.

(** ** Errors of the transform *)

(** X14. Every error of [TransformOperation] comes with the zero record.
    It is the wrapped address error exactly when the source account does not
    render, the negative-type error when the source renders and the type tag
    is negative, and otherwise the error of [extractOperationDetails], passed
    on as it is (neither wrapped nor given the operation id). *)
Theorem TransformOperation_errors
  (operation : xdr.Operation) (operationIndex : Z)
  (transaction : ingest.LedgerTransaction) (ledgerSeq : Z)
  (output : OperationOutput) (e : error) :
  TransformOperation operation operationIndex transaction ledgerSeq
  = Done (output, Some e) ->
  let operationID :=
    toid.ToInt64
      (toid.New ledgerSeq (int32_of (ingest.Index transaction))
         (int32_of (operationIndex + 1))) in
  let operationType :=
    int32_of (xdr.OperationBody_Type (xdr.Operation_Body operation)) in
  output = OperationOutput_zero
  /\ match sourceAddress operation transaction with
     | None => e = ErrForOperation operationIndex operationID AddressDecodeError
     | Some _ =>
         if operationType <? 0
         then e = NegativeTypeError operationType operationIndex operationID
         else
           extractOperationDetails operation transaction operationIndex
           = Done (Details_zero, Some e)
     end.
Proof.
  cbv zeta. unfold TransformOperation, sourceAddress.
  unfold utils.GetAccountAddressFromMuxedAccount at 1.
  destruct (xdr.AccountId_GetAddress _) as [address |] eqn:Haddr;
    cbn [bind]; intros H.
  - destruct (int32_of _ <? 0).
    + inversion H. split; reflexivity.
    + apply check_err_inv in H as [[-> (d & H)] | (d & _ & H)];
        [| discriminate].
      split; [reflexivity |].
      rewrite H. f_equal. f_equal.
      unfold extractOperationDetails in H.
      apply check_err_inv in H as [[Hd _] | (a & _ & H)]; [exact Hd |].
      destruct (xdr.TransactionResultPair_OperationResults
                  (ingest.Result transaction)) as [results |].
      * apply bind_Done_inv in H as (current & _ & H).
        apply check_err_inv in H as [[Hd _] | (d' & _ & H)];
          [exact Hd | discriminate].
      * inversion H. reflexivity.
  - inversion H. split; reflexivity.
Qed.


(** ** The asset slots of the kinds that have none *)

Lemma addAssetDetailsToOperationDetails_other_slots
  (d : Details) (asset : xdr.Asset) (prefix : string) (d' : Details)
  (e : option error) (s : AssetSlot) :
  addAssetDetailsToOperationDetails d asset prefix = (d', e) ->
  s <> slotOf prefix -> slot s d' = slot s d.
Proof.
  unfold addAssetDetailsToOperationDetails, slotOf.
  destruct (xdr.Asset_Extract asset) as [[[assetType code] issuer] |].
  - destruct (prefix =? "buying")%string;
      [| destruct (prefix =? "selling")%string;
         [| destruct (prefix =? "source")%string]];
      destruct (negb _); intros H Hs; inversion H; subst;
      destruct s; try congruence; reflexivity.
  - intros H. inversion H. reflexivity.
Qed.

Lemma addLedgerKeyToDetails_slots
  (d : Details) (ledgerKey : xdr.LedgerKey) (d' : Details)
  (e : option error) (s : AssetSlot) :
  addLedgerKeyToDetails d ledgerKey = Done (d', e) -> slot s d' = slot s d.
Proof.
  unfold addLedgerKeyToDetails. destruct ledgerKey; intros H;
    repeat step H; inversion H; destruct s; reflexivity.
Qed.

Ltac slot_neq := let H := fresh in intros H; vm_compute in H; discriminate H.

Ltac slot_facts :=
  repeat match goal with
    | E : addAssetDetailsToOperationDetails _ _ ?p = (_, _) |- _ =>
        try (let H := fresh "Hsource" in
             assert (H := addAssetDetailsToOperationDetails_other_slots
                     _ _ _ _ _ SlotSource E ltac:(slot_neq));
             unfold slot in H; injection H as ? ? ?);
        try (let H := fresh "Hbuying" in
             assert (H := addAssetDetailsToOperationDetails_other_slots
                     _ _ _ _ _ SlotBuying E ltac:(slot_neq));
             unfold slot in H; injection H as ? ? ?);
        try (let H := fresh "Hplain" in
             assert (H := addAssetDetailsToOperationDetails_other_slots
                     _ _ _ _ _ SlotPlain E ltac:(slot_neq));
             unfold slot in H; injection H as ? ? ?);
        try (let H := fresh "Hselling" in
             assert (H := addAssetDetailsToOperationDetails_other_slots
                     _ _ _ _ _ SlotSelling E ltac:(slot_neq));
             unfold slot in H; injection H as ? ? ?);
        clear E
    | E : addLedgerKeyToDetails _ _ = Done (_, _) |- _ =>
        let H1 := fresh "Hplain" in
        let H2 := fresh "Hsource" in
        let H3 := fresh "Hbuying" in
        let H4 := fresh "Hselling" in
        assert (H1 := addLedgerKeyToDetails_slots _ _ _ _ SlotPlain E);
        assert (H2 := addLedgerKeyToDetails_slots _ _ _ _ SlotSource E);
        assert (H3 := addLedgerKeyToDetails_slots _ _ _ _ SlotBuying E);
        assert (H4 := addLedgerKeyToDetails_slots _ _ _ _ SlotSelling E);
        unfold slot in H1, H2, H3, H4;
        injection H1 as ? ? ?; injection H2 as ? ? ?;
        injection H3 as ? ? ?; injection H4 as ? ? ?;
        clear E
    end.

Ltac slots_simpl :=
  cbn [slot AssetType AssetCode AssetIssuer
       SourceAssetType SourceAssetCode SourceAssetIssuer
       BuyingAssetType BuyingAssetCode BuyingAssetIssuer
       SellingAssetType SellingAssetCode SellingAssetIssuer
       Details_zero
       set_Account set_AccountID set_Amount set_AssetCode set_AssetIssuer
       set_AssetType set_Authorize set_BalanceID set_BeginSponsor set_BumpTo
       set_BuyingAssetCode set_BuyingAssetIssuer set_BuyingAssetType
       set_ClaimableBalanceID set_Claimants set_ClearFlags
       set_ClearFlagsString set_DataAccountID set_DataName
       set_DestinationMin set_From set_Funder set_HighThreshold
       set_HomeDomain set_InflationDest set_Into set_Limit set_LowThreshold
       set_MasterKeyWeight set_MedThreshold set_Name set_OfferID set_Path
       set_Price set_PriceR set_SellingAssetCode set_SellingAssetIssuer
       set_SellingAssetType set_SetFlags set_SetFlagsString
       set_SignerAccountID set_SignerKey set_SignerWeight set_SourceAmount
       set_SourceAssetCode set_SourceAssetIssuer set_SourceAssetType
       set_SourceMax set_SponsoredID set_StartingBalance set_To set_Trustee
       set_Trustor set_TrustlineAccountID set_TrustlineAsset set_Value] in *.

Lemma slot_addOperationFlagToOperationDetails
  (d : Details) (flag : Z) (prefix : string) (s : AssetSlot) :
  slot s (addOperationFlagToOperationDetails d flag prefix) = slot s d.
Proof.
  unfold addOperationFlagToOperationDetails.
  destruct (operationFlagSlices flag).
  destruct (prefix =? "set")%string; [destruct s; reflexivity |].
  destruct (prefix =? "clear")%string; destruct s; reflexivity.
Qed.

Lemma slot_addTrustLineFlagToDetails
  (d : Details) (f : Z) (prefix : string) (s : AssetSlot) :
  slot s (addTrustLineFlagToDetails d f prefix) = slot s d.
Proof.
  unfold addTrustLineFlagToDetails.
  destruct (trustLineFlagSlices f).
  destruct (prefix =? "set")%string; [destruct s; reflexivity |].
  destruct (prefix =? "clear")%string; destruct s; reflexivity.
Qed.

(** The set-options case leaves the asset slots alone. *)
Lemma case_SetOptions_slots
  (operation : xdr.Operation) (operationIndex : Z)
  (outputDetails d : Details) (s : AssetSlot) :
  case_SetOptions operation operationIndex outputDetails = Done (d, None) ->
  slot s d = slot s outputDetails.
Proof.
  intros H. cbv beta delta [case_SetOptions] in H.
  destruct (xdr.GetSetOptionsOp (xdr.Operation_Body operation)) as [op |];
    [| discriminate].
  destruct (match xdr.SetOptionsOp_InflationDest op with
            | Some _ => _ | None => _ end) as [d0 | p] eqn:E0;
    cbv beta iota delta [bind] in H; [| discriminate].
  assert (H0 : slot s d0 = slot s outputDetails).
  { destruct (xdr.SetOptionsOp_InflationDest op);
      [destruct (xdr.AccountId_Address _); cbn [bind] in E0 |];
      inversion E0; destruct s; reflexivity. }
  pose_lets H.
  assert (H1 : slot s outputDetails0 = slot s d0)
    by (unfold outputDetails0;
        destruct (xdr.SetOptionsOp_SetFlags op) as [m |];
        [destruct (m >? 0);
         [rewrite addOperationFlagToOperationDetails_set_eq |] |];
        destruct s; reflexivity).
  clearbody outputDetails0.
  assert (H2 : slot s outputDetails1 = slot s outputDetails0)
    by (unfold outputDetails1;
        destruct (xdr.SetOptionsOp_ClearFlags op) as [m |];
        [destruct (m >? 0);
         [rewrite addOperationFlagToOperationDetails_clear_eq |] |];
        destruct s; reflexivity).
  clearbody outputDetails1.
  assert (H3 : slot s outputDetails2 = slot s outputDetails1)
    by (unfold outputDetails2;
        destruct (xdr.SetOptionsOp_MasterWeight op); destruct s;
        reflexivity).
  clearbody outputDetails2.
  assert (H4 : slot s outputDetails3 = slot s outputDetails2)
    by (unfold outputDetails3;
        destruct (xdr.SetOptionsOp_LowThreshold op); destruct s;
        reflexivity).
  clearbody outputDetails3.
  assert (H5 : slot s outputDetails4 = slot s outputDetails3)
    by (unfold outputDetails4;
        destruct (xdr.SetOptionsOp_MedThreshold op); destruct s;
        reflexivity).
  clearbody outputDetails4.
  assert (H6 : slot s outputDetails5 = slot s outputDetails4)
    by (unfold outputDetails5;
        destruct (xdr.SetOptionsOp_HighThreshold op); destruct s;
        reflexivity).
  clearbody outputDetails5.
  assert (H7 : slot s outputDetails6 = slot s outputDetails5)
    by (unfold outputDetails6;
        destruct (xdr.SetOptionsOp_HomeDomain op); destruct s;
        reflexivity).
  clearbody outputDetails6.
  assert (H8 : slot s d = slot s outputDetails6)
    by (destruct (xdr.SetOptionsOp_Signer op);
        [destruct (xdr.SignerKey_Address _) |];
        inversion H; destruct s; reflexivity).
  congruence.
Qed.

Lemma switch_operationType_slots
  (operation : xdr.Operation) (transaction : ingest.LedgerTransaction)
  (operationIndex : Z) (sourceAccount : xdr.MuxedAccount)
  (sourceAccountAddress : string)
  (currentOperationResult : xdr.OperationResult) (d : Details) :
  switch_operationType operation transaction operationIndex sourceAccount
    sourceAccountAddress currentOperationResult Details_zero
    (xdr.OperationBody_Type (xdr.Operation_Body operation))
  = Done (d, None) ->
  (xdr.OperationBody_Type (xdr.Operation_Body operation)
   <> xdr.OperationTypePathPaymentStrictReceive ->
   xdr.OperationBody_Type (xdr.Operation_Body operation)
   <> xdr.OperationTypePathPaymentStrictSend ->
   slot SlotSource d = ("", "", ""))
  /\ (xdr.OperationBody_Type (xdr.Operation_Body operation)
      <> xdr.OperationTypeManageSellOffer ->
      xdr.OperationBody_Type (xdr.Operation_Body operation)
      <> xdr.OperationTypeCreatePassiveSellOffer ->
      xdr.OperationBody_Type (xdr.Operation_Body operation)
      <> xdr.OperationTypeManageBuyOffer ->
      slot SlotBuying d = ("", "", "") /\ slot SlotSelling d = ("", "", ""))
  /\ (xdr.OperationBody_Type (xdr.Operation_Body operation)
      <> xdr.OperationTypePayment ->
      xdr.OperationBody_Type (xdr.Operation_Body operation)
      <> xdr.OperationTypePathPaymentStrictReceive ->
      xdr.OperationBody_Type (xdr.Operation_Body operation)
      <> xdr.OperationTypePathPaymentStrictSend ->
      xdr.OperationBody_Type (xdr.Operation_Body operation)
      <> xdr.OperationTypeChangeTrust ->
      xdr.OperationBody_Type (xdr.Operation_Body operation)
      <> xdr.OperationTypeAllowTrust ->
      xdr.OperationBody_Type (xdr.Operation_Body operation)
      <> xdr.OperationTypeCreateClaimableBalance ->
      xdr.OperationBody_Type (xdr.Operation_Body operation)
      <> xdr.OperationTypeClawback ->
      xdr.OperationBody_Type (xdr.Operation_Body operation)
      <> xdr.OperationTypeSetTrustLineFlags ->
      slot SlotPlain d = ("", "", "")).
Proof.
  intros H. destruct operation as [src body].
  cbn [xdr.Operation_Body] in *.
  destruct body as [ | | | | | | | | | | | | | | | | | | | | | | t];
    cbn [xdr.OperationBody_Type] in *.
  23: { destruct (Z_lt_ge_dec t 0) as [Hneg | Hpos];
        [| destruct (Z_lt_ge_dec 21 t) as [Hbig | Hsmall]].
        - rewrite switch_operationType_default in H by lia. discriminate.
        - rewrite switch_operationType_default in H by lia. discriminate.
        - assert (Ht : t = 0 \/ t = 1 \/ t = 2 \/ t = 3 \/ t = 4 \/ t = 5
                       \/ t = 6 \/ t = 7 \/ t = 8 \/ t = 9 \/ t = 10
                       \/ t = 11 \/ t = 12 \/ t = 13 \/ t = 14 \/ t = 15
                       \/ t = 16 \/ t = 17 \/ t = 18 \/ t = 19 \/ t = 20
                       \/ t = 21) by lia.
          repeat (destruct Ht as [-> | Ht]); try subst t;
            cbn [switch_operationType] in H; open_cases H;
            repeat step H; crunch; slot_facts;
            (split; [| split]; intros; try congruence);
            cbn; auto. }
  6: { cbn [switch_operationType] in H.
       rewrite !(case_SetOptions_slots _ _ _ _ _ H).
       repeat split; reflexivity. }
  all: cbn [switch_operationType] in H; open_cases H;
    repeat step H; crunch; slot_facts;
    (split; [| split]; intros; try congruence);
    repeat (rewrite ?addOperationFlagToOperationDetails_set_eq,
              ?addOperationFlagToOperationDetails_clear_eq,
              ?addTrustLineFlagToDetails_set_eq,
              ?addTrustLineFlagToDetails_clear_eq;
            slots_simpl;
            try match goal with
              | |- context [match ?x with _ => _ end] => destruct x
              end);
    try (repeat split; congruence).
Qed.

Lemma slot_ensureSlicesAreNotNil (s : AssetSlot) (d : Details) :
  slot s (ensureSlicesAreNotNil d) = slot s d.
Proof.
  rewrite ensureSlicesAreNotNil_shape. destruct s; reflexivity.
Qed.

(** X16. Each asset slot of a record is filled only by the kinds that have
    it: the source slot is empty unless the operation is a path payment, the
    buying and selling slots are empty unless it is one of the three offer
    kinds, and the plain slot is empty unless it is a payment, a path
    payment, a change-trust, an allow-trust, a create-claimable-balance, a
    clawback or a set-trustline-flags operation. *)
Theorem extractOperationDetails_unused_slots
  (operation : xdr.Operation) (transaction : ingest.LedgerTransaction)
  (operationIndex : Z) (d : Details) :
  extractOperationDetails operation transaction operationIndex
  = Done (d, None) ->
  (xdr.OperationBody_Type (xdr.Operation_Body operation)
   <> xdr.OperationTypePathPaymentStrictReceive ->
   xdr.OperationBody_Type (xdr.Operation_Body operation)
   <> xdr.OperationTypePathPaymentStrictSend ->
   slot SlotSource d = ("", "", ""))
  /\ (xdr.OperationBody_Type (xdr.Operation_Body operation)
      <> xdr.OperationTypeManageSellOffer ->
      xdr.OperationBody_Type (xdr.Operation_Body operation)
      <> xdr.OperationTypeCreatePassiveSellOffer ->
      xdr.OperationBody_Type (xdr.Operation_Body operation)
      <> xdr.OperationTypeManageBuyOffer ->
      slot SlotBuying d = ("", "", "") /\ slot SlotSelling d = ("", "", ""))
  /\ (xdr.OperationBody_Type (xdr.Operation_Body operation)
      <> xdr.OperationTypePayment ->
      xdr.OperationBody_Type (xdr.Operation_Body operation)
      <> xdr.OperationTypePathPaymentStrictReceive ->
      xdr.OperationBody_Type (xdr.Operation_Body operation)
      <> xdr.OperationTypePathPaymentStrictSend ->
      xdr.OperationBody_Type (xdr.Operation_Body operation)
      <> xdr.OperationTypeChangeTrust ->
      xdr.OperationBody_Type (xdr.Operation_Body operation)
      <> xdr.OperationTypeAllowTrust ->
      xdr.OperationBody_Type (xdr.Operation_Body operation)
      <> xdr.OperationTypeCreateClaimableBalance ->
      xdr.OperationBody_Type (xdr.Operation_Body operation)
      <> xdr.OperationTypeClawback ->
      xdr.OperationBody_Type (xdr.Operation_Body operation)
      <> xdr.OperationTypeSetTrustLineFlags ->
      slot SlotPlain d = ("", "", "")).
Proof.
  intros H.
  apply extractOperationDetails_ok_inv in H
    as (address & results & current & d' & _ & _ & _ & Hswitch & ->).
  rewrite !slot_ensureSlicesAreNotNil.
  apply (switch_operationType_slots _ _ _ _ _ _ _ Hswitch).
Qed.

(** ** The ledger key helper *)

(** X17. The three outcomes of [addLedgerKeyToDetails]: it returns an error
    exactly for a claimable-balance key whose id does not marshal, and the
    record is then the one passed in; it panics exactly for an account, a
    trustline or a data key whose account id does not render (the seller of
    an offer key is not rendered); and a record it returns has the five
    slices and the four asset slots of the one passed in, and for a key of
    any other type is the record passed in, with no error. *)
Theorem addLedgerKeyToDetails_outcomes
  (d : Details) (ledgerKey : xdr.LedgerKey) :
  (forall (d' : Details) (e : error),
      addLedgerKeyToDetails d ledgerKey = Done (d', Some e)
      <-> d' = d /\ e = MalformedLedgerKey MarshalHexError
          /\ exists balanceId : xdr.ClaimableBalanceId,
               ledgerKey = xdr.LedgerEntryTypeClaimableBalance balanceId
               /\ xdr.MarshalHex balanceId = None)
  /\ (forall p : panic,
         addLedgerKeyToDetails d ledgerKey = Panics p
         <-> p = AddressPanic
             /\ exists accountId : xdr.AccountId,
                  renderedAccount ledgerKey = Some accountId
                  /\ xdr.AccountId_GetAddress accountId = None)
  /\ (forall d' : Details,
         addLedgerKeyToDetails d ledgerKey = Done (d', None) ->
         listFields d' = listFields d
         /\ (forall s : AssetSlot, slot s d' = slot s d)
         /\ ((exists t : Z, ledgerKey = xdr.LedgerEntryTypeOther t) -> d' = d)).
Proof.
  unfold addLedgerKeyToDetails, xdr.AccountId_Address.
  destruct ledgerKey as [a | a asset | seller offerId | a name | b | t];
    cbn [renderedAccount].
  all: try destruct (xdr.AccountId_GetAddress a) as [address |] eqn:Ha;
    try destruct (xdr.MarshalHex b) as [hex |] eqn:Hb;
    cbn [bind ok].
  all: split; [| split].
  all: try (intros d' e; split;
            [intros H; inversion H; subst; eauto
            | intros (-> & -> & b' & Hk & Hm); inversion Hk; subst;
              congruence]).
  all: try (intros p; split;
            [intros H; inversion H; subst; eauto
            | intros (-> & a' & Hk & Hm); inversion Hk; subst;
              congruence]).
  all: try (intros d' H; inversion H; subst;
            split; [reflexivity |];
            split; [intros []; reflexivity |];
            intros (t' & Ht); inversion Ht; reflexivity).
  all: intros d' H; discriminate H.
Qed.

End MoreProperties.

(** * The properties on the small XDR world *)

Import Example.

(** The sponsorship example: the end-sponsoring operation of "X" at index 2
    of the successful transaction gets the transaction source "S" as its
    begin sponsor. *)
Lemma C1_sponsorship_lookback_witness :
  (xdr.OperationBody_Type (xdr.Operation_Body end_operation) = 17
   /\ sourceAddress end_operation (sponsorship_transaction true) = Some "X")
  /\ exists d : Details,
       extractOperationDetails end_operation (sponsorship_transaction true) 2
       = Done (d, None)
       /\ BeginSponsor d = "S".
Proof.
  split; [split; reflexivity |].
  destruct (C1_sponsorship_lookback end_operation
              (sponsorship_transaction true) 2 "X" eq_refl eq_refl)
    as (_ & _ & Hrecord & Hreturns).
  assert (Hreturned :
    exists d : Details,
      extractOperationDetails end_operation (sponsorship_transaction true) 2
      = Done (d, None)).
  { apply (proj2 (Hreturns plain_result eq_refl) eq_refl).
    - cbn. lia.
    - repeat constructor; cbn; discriminate.
    - intros beginOp Hlook. vm_compute in Hlook. inversion Hlook.
      cbn. discriminate. }
  destruct Hreturned as [d Hd].
  exists d. split; [exact Hd |].
  pose proof (proj1 (Hrecord d Hd) eq_refl) as Hsponsor.
  vm_compute in Hsponsor. inversion Hsponsor as [Heq]. symmetry. exact Heq.
Defined.

(** The strict-receive example: the send maximum is 100, the result says
    42.5 was sent, and the record says 42.5. *)
Lemma C2_strict_receive_source_amount_witness :
  (xdr.Operation_Body receive_operation_ok
   = xdr.BodyPathPaymentStrictReceive
       (receive_op (Credit "EUR" "I") [Credit "USD" "I"; Native])
   /\ sourceAddress receive_operation_ok receive_transaction_ok = Some "S")
  /\ exists d : Details,
       extractOperationDetails receive_operation_ok receive_transaction_ok 0
       = Done (d, None)
       /\ SourceAmount d = utils.ConvertStroopValueToReal 425000000
       /\ (SourceAmount d == 42.5)%Q.
Proof.
  split; [split; reflexivity |].
  destruct (C2_strict_receive_source_amount receive_operation_ok
              receive_transaction_ok 0
              (receive_op (Credit "EUR" "I") [Credit "USD" "I"; Native])
              "S" "D" eq_refl eq_refl eq_refl) as (Hsucc & _ & _).
  destruct (proj1 (Hsucc eq_refl) receive_result
              (xdr.TrPathPaymentStrictReceiveResult sent) sent
              eq_refl eq_refl eq_refl) as (d & Hd & Hamount).
  exists d. split; [exact Hd | split; [exact Hamount |]].
  rewrite Hamount. reflexivity.
Defined.

(** A failed strict-receive payment without a results list fails on the
    missing list, while the same payment with a results list gives a record:
    the results are looked up on a failed transaction too. And a successful
    payment whose results list does not reach its index does not fail with
    an error: the index panics. *)
Lemma C2_failed_transaction_counterexample :
  xdr.TransactionResultPair_Successful
    (ingest.Result receive_transaction_no_results) = false
  /\ TransformOperation receive_operation_ok 0 receive_transaction_no_results 7
     = Done (OperationOutput_zero, Some MissingResults)
  /\ xdr.TransactionResultPair_Successful
       (ingest.Result receive_transaction_failed) = false
  /\ (exists output : OperationOutput,
         TransformOperation receive_operation_ok 0 receive_transaction_failed 7
         = Done (output, None)
         /\ SourceAmount (OperationDetails output) = 0%Q)
  /\ xdr.TransactionResultPair_Successful
       (ingest.Result receive_transaction_short) = true
  /\ TransformOperation receive_operation_ok 0 receive_transaction_short 7
     = Panics (IndexOutOfRange "allOperationResults" 0 0).
Proof.
  split; [reflexivity | split; [vm_compute; reflexivity |]].
  split; [reflexivity | split].
  - eexists. split; [vm_compute; reflexivity | reflexivity].
  - split; [reflexivity | vm_compute; reflexivity].
Qed.

(** The create-account record has [path = []] and [set_flags = []]. *)
Lemma C3_list_fields_never_nil_witness :
  TransformOperation create_account_operation 0 create_account_transaction 7
  = Done (create_account_record, None)
  /\ (Path (OperationDetails create_account_record) <> None
      /\ SetFlags (OperationDetails create_account_record) <> None
      /\ SetFlagsString (OperationDetails create_account_record) <> None
      /\ ClearFlags (OperationDetails create_account_record) <> None
      /\ ClearFlagsString (OperationDetails create_account_record) <> None)
  /\ Path (OperationDetails create_account_record) = Some []
  /\ SetFlags (OperationDetails create_account_record) = Some [].
Proof.
  assert (H : TransformOperation create_account_operation 0
                create_account_transaction 7
              = Done (create_account_record, None))
    by (vm_compute; reflexivity).
  split; [exact H | split].
  - exact (C3_list_fields_never_nil create_account_operation 0
             create_account_transaction 7 create_account_record H).
  - split; vm_compute; reflexivity.
Defined.



(** An operation of type 22 in a transaction with results fails with the
    unsupported-type error and the zero record. *)
Lemma C5_unsupported_type_witness :
  (21 < xdr.OperationBody_Type (xdr.Operation_Body unknown_operation) < 2 ^ 31
   /\ sourceAddress unknown_operation unknown_transaction = Some "S")
  /\ TransformOperation unknown_operation 0 unknown_transaction 7
     = Done (OperationOutput_zero, Some (UnsupportedOperationType 22)).
Proof.
  split; [split; [cbn; lia | reflexivity] |].
  apply (proj1 C5_unsupported_type_fails_without_partial_record
           unknown_operation 0 unknown_transaction 7 "S" [plain_result]);
    [cbn; lia | reflexivity | reflexivity | cbn; lia].
Defined.

(** The same operation in a failed transaction that exposes no results list
    fails on the missing list, not on the operation type; with a source
    account that does not render it fails on the address; and at an index
    that the results list does not cover it panics. *)
Lemma C5_missing_results_counterexample :
  21 < xdr.OperationBody_Type (xdr.Operation_Body unknown_operation)
  /\ TransformOperation unknown_operation 0 unknown_transaction_no_results 7
     = Done (OperationOutput_zero, Some MissingResults)
  /\ TransformOperation unknown_operation 0 unknown_transaction_no_results 7
     <> Done (OperationOutput_zero, Some (UnsupportedOperationType 22))
  /\ 21 < xdr.OperationBody_Type
            (xdr.Operation_Body unknown_operation_unrendered)
  /\ TransformOperation unknown_operation_unrendered 0 unknown_transaction 7
     = Done (OperationOutput_zero,
             Some (ErrForOperation 0 30064771073 AddressDecodeError))
  /\ TransformOperation unknown_operation 5 unknown_transaction 7
     = Panics (IndexOutOfRange "allOperationResults" 5 1).
Proof.
  split; [cbn; lia | split; [vm_compute; reflexivity |]].
  split; [vm_compute; discriminate |].
  split; [cbn; lia |].
  split; vm_compute; reflexivity.
Qed.

(** Auth-revocable with auth-immutable, stored under the "set" prefix. *)
Lemma C6_flag_decomposition_witness :
  elems (SetFlags (addOperationFlagToOperationDetails Details_zero 6 "set"))
  = [2; 4]
  /\ elems
       (SetFlagsString (addOperationFlagToOperationDetails Details_zero 6 "set"))
     = ["auth_revocable"; "auth_immutable"].
Proof.
  destruct (proj1 (proj2 (proj2 (proj2 C6_flag_decomposition))) Details_zero 6)
    as (Hn & Hs & _).
  split; [exact Hn | exact Hs].
Defined.

(** The record of the strict-receive payment through [USD:I; native] has
    those two assets as its path. *)
Lemma C7_path_normalization_witness :
  declaredPath (xdr.Operation_Body receive_operation_ok)
  = Some [Credit "USD" "I"; Native]
  /\ exists out : list PathT,
       Path (details_of
               (extractOperationDetails receive_operation_ok
                  receive_transaction_ok 0)) = Some out
       /\ Forall2 extracted [Credit "USD" "I"; Native] out
       /\ List.length out = 2%nat.
Proof.
  split; [reflexivity |].
  apply (proj1 (proj2 (proj2 (proj2 C7_path_normalization))
                  receive_operation_ok receive_transaction_ok 0
                  [Credit "USD" "I"; Native]
                  (details_of
                     (extractOperationDetails receive_operation_ok
                        receive_transaction_ok 0))
                  eq_refl ltac:(vm_compute; reflexivity))).
  intros a [<- | [<- | []]]; discriminate.
Defined.

(** One stroop more than one unit differs from one unit. *)
Lemma C8_stroop_conversion_exact_witness :
  (utils.ConvertStroopValueToReal 15000000 == 1.5000000)%Q
  /\ (utils.ConvertStroopValueToReal 1 == 0.0000001)%Q
  /\ ~ (utils.ConvertStroopValueToReal 10000001
        == utils.ConvertStroopValueToReal 10000000)%Q.
Proof.
  destruct C8_stroop_conversion_exact as (_ & Hinj & H15 & H1).
  split; [exact H15 | split; [exact H1 |]].
  intros Heq. apply Hinj in Heq. discriminate.
Defined.

(** Index 5 of a results list of length 3 panics; index 2 is read. *)
Lemma C9_results_list_witness :
  extractOperationDetails end_operation (sponsorship_transaction false) 5
  = Panics (IndexOutOfRange "allOperationResults" 5 3)
  /\ index "allOperationResults" [plain_result; plain_result; plain_result] 2
     = Done plain_result.
Proof.
  destruct C9_results_list_indexed_before_dispatch
    as (_ & _ & Hpanics & Hreads).
  split.
  - apply (Hpanics end_operation (sponsorship_transaction false) 5 "X"
             [plain_result; plain_result; plain_result]);
      [reflexivity | reflexivity | cbn; lia].
  - destruct (Hreads end_operation (sponsorship_transaction false) 2 "X"
                [plain_result; plain_result; plain_result]
                eq_refl eq_refl ltac:(cbn; lia))
      as (current & Hnth & Hindex & _).
    cbn in Hnth. inversion Hnth; subst current. exact Hindex.
Defined.

(** The malformed destination asset: the strict-receive record is returned
    with an empty asset slot, the payment fails. *)
Lemma C10_asset_extraction_failures_witness :
  (exists d : Details,
      extractOperationDetails receive_operation_malformed
        receive_transaction_malformed 0 = Done (d, None)
      /\ AssetType d = "" /\ AssetCode d = "" /\ AssetIssuer d = "")
  /\ extractOperationDetails (payment_operation Malformed)
       payment_transaction_malformed 0
     = Done (Details_zero, Some AssetExtractError).
Proof.
  destruct C10_asset_extraction_failures as (Hpayment & Hreceive & _).
  split.
  - destruct (Hreceive receive_operation_malformed
                receive_transaction_malformed 0
                (receive_op Malformed [Credit "USD" "I"; Malformed])
                "S" "D" receive_result eq_refl eq_refl eq_refl eq_refl)
      as (d & Hd & Hdest & _).
    + intros _. exists (xdr.TrPathPaymentStrictReceiveResult sent).
      exists sent. split; reflexivity.
    + exists d. split; [exact Hd | exact (Hdest eq_refl)].
  - destruct (Hpayment (payment_operation Malformed)
                payment_transaction_malformed 0
                (payment_op Malformed) "X" plain_result
                eq_refl eq_refl eq_refl eq_refl)
      as (e & He & Hkind).
    rewrite He, (Hkind ltac:(cbn; discriminate)). reflexivity.
Defined.

(** * Further properties on the small XDR world *)

(** The create-account record: its source is the transaction source "S" and
    it is the first operation applied. *)
Lemma TransformOperation_record_witness :
  TransformOperation create_account_operation 0 create_account_transaction 7
  = Done (create_account_record, None)
  /\ sourceAddress create_account_operation create_account_transaction
     = Some (SourceAccount create_account_record)
  /\ ApplicationOrder create_account_record = 1.
Proof.
  assert (H : TransformOperation create_account_operation 0
                create_account_transaction 7
              = Done (create_account_record, None))
    by (vm_compute; reflexivity).
  destruct (TransformOperation_record create_account_operation 0
              create_account_transaction 7 create_account_record H)
    as (Hsource & _ & _ & _ & _ & Horder).
  split; [exact H | split; [exact Hsource |]].
  exact (proj1 (Horder ltac:(lia))).
Defined.

(** The payment of an asset that does not extract: the error names a
    payment whose asset does not extract. *)
Lemma extractOperationDetails_error_provenance_witness :
  extractOperationDetails (payment_operation Malformed)
    payment_transaction_malformed 0
  = Done (Details_zero, Some AssetExtractError)
  /\ explains (payment_operation Malformed) payment_transaction_malformed 0
       AssetExtractError.
Proof.
  assert (H : extractOperationDetails (payment_operation Malformed)
                payment_transaction_malformed 0
              = Done (Details_zero, Some AssetExtractError))
    by (vm_compute; reflexivity).
  split; [exact H |].
  exact (proj2 (extractOperationDetails_error_provenance
                  (payment_operation Malformed)
                  payment_transaction_malformed 0 Details_zero
                  AssetExtractError H)).
Defined.

(** The create-account record has an empty path and empty flag lists. *)
Lemma extractOperationDetails_irrelevant_lists_witness :
  extractOperationDetails create_account_operation
    create_account_transaction 0
  = Done (OperationDetails create_account_record, None)
  /\ Path (OperationDetails create_account_record) = Some []
  /\ SetFlagsString (OperationDetails create_account_record) = Some [].
Proof.
  assert (H : extractOperationDetails create_account_operation
                create_account_transaction 0
              = Done (OperationDetails create_account_record, None))
    by (vm_compute; reflexivity).
  destruct (extractOperationDetails_irrelevant_lists
              create_account_operation create_account_transaction 0
              (OperationDetails create_account_record) H)
    as (Hpath & Hflags).
  split; [exact H | split].
  - apply Hpath; cbn; discriminate.
  - apply Hflags; cbn; discriminate.
Defined.

(** The set-options example: masks 6 and 1. *)
Lemma extractOperationDetails_SetOptions_flags_witness :
  exists d : Details,
    extractOperationDetails set_options_operation
      (plain_transaction set_options_operation) 0 = Done (d, None)
    /\ SetFlags d = Some [2; 4]
    /\ SetFlagsString d = Some ["auth_revocable"; "auth_immutable"]
    /\ ClearFlagsString d = Some ["auth_required"].
Proof.
  assert (H : extractOperationDetails set_options_operation
                (plain_transaction set_options_operation) 0
              = Done
                  (details_of
                     (extractOperationDetails set_options_operation
                        (plain_transaction set_options_operation) 0),
                   None))
    by (vm_compute; reflexivity).
  destruct (extractOperationDetails_SetOptions_flags set_options_operation
              (plain_transaction set_options_operation) 0 set_options_op
              _ eq_refl H)
    as (Hset & Hsets & _ & Hclears).
  eexists. split; [exact H |].
  split; [exact Hset | split; [exact Hsets | exact Hclears]].
Defined.

(** The set-trustline-flags example: masks 4 and 3. *)
Lemma extractOperationDetails_SetTrustLineFlags_flags_witness :
  exists d : Details,
    extractOperationDetails set_trust_line_flags_operation
      (plain_transaction set_trust_line_flags_operation) 0 = Done (d, None)
    /\ SetFlagsString d = Some ["clawback_enabled"]
    /\ ClearFlags d = Some [1; 2]
    /\ ClearFlagsString d
       = Some ["authorized"; "authorized_to_maintain_liabilities"].
Proof.
  assert (H : extractOperationDetails set_trust_line_flags_operation
                (plain_transaction set_trust_line_flags_operation) 0
              = Done
                  (details_of
                     (extractOperationDetails set_trust_line_flags_operation
                        (plain_transaction set_trust_line_flags_operation)
                        0),
                   None))
    by (vm_compute; reflexivity).
  destruct (extractOperationDetails_SetTrustLineFlags_flags
              set_trust_line_flags_operation
              (plain_transaction set_trust_line_flags_operation) 0
              set_trust_line_flags_op _ eq_refl H)
    as (_ & Hsets & Hclear & Hclears).
  eexists. split; [exact H |].
  split; [exact Hsets | split; [exact Hclear | exact Hclears]].
Defined.

(** The change-trust example: the trustee is the issuer "I" of the line. *)
Lemma extractOperationDetails_ChangeTrust_witness :
  exists d : Details,
    extractOperationDetails change_trust_operation
      (plain_transaction change_trust_operation) 0 = Done (d, None)
    /\ Trustor d = "S"
    /\ Trustee d = AssetIssuer d
    /\ slot SlotPlain d = ("credit_alphanum4", "USD", "I").
Proof.
  destruct (extractOperationDetails_ChangeTrust change_trust_operation
              (plain_transaction change_trust_operation) 0 change_trust_op
              "S" plain_result eq_refl eq_refl eq_refl)
    as (d & Hd & Htrustor & _ & Htrustee & Hslot).
  exists d. split; [exact Hd | split; [exact Htrustor |]].
  split; [exact Htrustee | exact Hslot].
Defined.

(** The allow-trust example: for the trustor "T" the authorize value 2 is
    recorded as not authorized; for a trustor that does not render the
    extraction panics. *)
Lemma extractOperationDetails_AllowTrust_witness :
  (exists d : Details,
      extractOperationDetails (allow_trust_operation "T")
        (plain_transaction (allow_trust_operation "T")) 0 = Done (d, None)
      /\ Trustee d = "S" /\ Trustor d = "T" /\ Authorize d = false)
  /\ extractOperationDetails (allow_trust_operation "")
       (plain_transaction (allow_trust_operation "")) 0
     = Panics AddressPanic.
Proof.
  split.
  - destruct (extractOperationDetails_AllowTrust
                (allow_trust_operation "T")
                (plain_transaction (allow_trust_operation "T")) 0
                (allow_trust_op "T") "S" plain_result
                eq_refl eq_refl eq_refl)
      as (d & Hd & Htrustee & Htrustor & Hauth & _).
    exists d. split; [exact Hd | split; [exact Htrustee |]].
    split; [exact Htrustor | exact Hauth].
  - exact (extractOperationDetails_AllowTrust
             (allow_trust_operation "")
             (plain_transaction (allow_trust_operation "")) 0
             (allow_trust_op "") "S" plain_result eq_refl eq_refl eq_refl).
Defined.

(** The claimable balance for "A" and "B" has those two claimants; the
    asset is recorded by its canonical string. *)
Lemma extractOperationDetails_CreateClaimableBalance_witness :
  exists d : Details,
    extractOperationDetails
      (create_claimable_balance_operation [claimant_of "A"; claimant_of "B"])
      (plain_transaction
         (create_claimable_balance_operation
            [claimant_of "A"; claimant_of "B"])) 0
    = Done (d, None)
    /\ Forall2 renderedClaimant [claimant_of "A"; claimant_of "B"]
         (elems (ClaimantsOf d))
    /\ AssetCode d = "USD:I".
Proof.
  assert (H : extractOperationDetails
                (create_claimable_balance_operation
                   [claimant_of "A"; claimant_of "B"])
                (plain_transaction
                   (create_claimable_balance_operation
                      [claimant_of "A"; claimant_of "B"])) 0
              = Done
                  (details_of
                     (extractOperationDetails
                        (create_claimable_balance_operation
                           [claimant_of "A"; claimant_of "B"])
                        (plain_transaction
                           (create_claimable_balance_operation
                              [claimant_of "A"; claimant_of "B"])) 0),
                   None))
    by (vm_compute; reflexivity).
  destruct (extractOperationDetails_CreateClaimableBalance
              (create_claimable_balance_operation
                 [claimant_of "A"; claimant_of "B"])
              (plain_transaction
                 (create_claimable_balance_operation
                    [claimant_of "A"; claimant_of "B"])) 0
              (create_claimable_balance_op
                 [claimant_of "A"; claimant_of "B"]) _ eq_refl H)
    as (Hclaimants & _ & Hcode & _).
  eexists. split; [exact H | split; [exact Hclaimants | exact Hcode]].
Defined.

(** The sponsorship transaction has three operations: the lookback from
    index 5 reads index 4 first and panics; from index 0 it reads
    nothing. *)
Lemma findInitatingBeginSponsoringOp_bounds_witness :
  xdr.TransactionResultPair_Successful
    (ingest.Result (sponsorship_transaction true)) = true
  /\ findInitatingBeginSponsoringOp end_operation 5
       (sponsorship_transaction true)
     = Panics (IndexOutOfRange "operations" 4 3)
  /\ findInitatingBeginSponsoringOp end_operation 0
       (sponsorship_transaction true)
     = Done None.
Proof.
  destruct (findInitatingBeginSponsoringOp_bounds end_operation 5
              (sponsorship_transaction true) eq_refl)
    as (_ & Hpanics & _).
  destruct (findInitatingBeginSponsoringOp_bounds end_operation 0
              (sponsorship_transaction true) eq_refl)
    as (Hnone & _ & _).
  split; [reflexivity | split].
  - apply Hpanics. cbn. lia.
  - apply Hnone. lia.
Defined.

(** The strict-send example: 10 is sent and the result says 9.9 was
    delivered. *)
Lemma extractOperationDetails_PathPaymentStrictSend_amount_witness :
  exists d : Details,
    extractOperationDetails send_operation
      (single_transaction send_operation true (Some [send_result])) 0
    = Done (d, None)
    /\ Amount d = utils.ConvertStroopValueToReal 99000000
    /\ SourceAmount d = utils.ConvertStroopValueToReal 100000000.
Proof.
  exact (extractOperationDetails_PathPaymentStrictSend_amount send_operation
           (single_transaction send_operation true (Some [send_result])) 0
           send_op "S" "D" send_result eq_refl eq_refl eq_refl eq_refl).
Defined.

(** The missing results list of a failed transaction: the error of the
    extraction is the error of the transform, with the zero record. *)
Lemma TransformOperation_errors_witness :
  TransformOperation unknown_operation 0 unknown_transaction_no_results 7
  = Done (OperationOutput_zero, Some MissingResults)
  /\ extractOperationDetails unknown_operation unknown_transaction_no_results
       0
     = Done (Details_zero, Some MissingResults).
Proof.
  assert (H : TransformOperation unknown_operation 0
                unknown_transaction_no_results 7
              = Done (OperationOutput_zero, Some MissingResults))
    by (vm_compute; reflexivity).
  split; [exact H |].
  exact (proj2 (TransformOperation_errors unknown_operation 0
                  unknown_transaction_no_results 7 OperationOutput_zero
                  MissingResults H)).
Defined.

(** The create-account record has no asset at all. *)
Lemma extractOperationDetails_unused_slots_witness :
  extractOperationDetails create_account_operation
    create_account_transaction 0
  = Done (OperationDetails create_account_record, None)
  /\ slot SlotSource (OperationDetails create_account_record) = ("", "", "")
  /\ slot SlotPlain (OperationDetails create_account_record) = ("", "", "").
Proof.
  assert (H : extractOperationDetails create_account_operation
                create_account_transaction 0
              = Done (OperationDetails create_account_record, None))
    by (vm_compute; reflexivity).
  destruct (extractOperationDetails_unused_slots
              create_account_operation create_account_transaction 0
              (OperationDetails create_account_record) H)
    as (Hsource & _ & Hplain).
  split; [exact H | split].
  - apply Hsource; cbn; discriminate.
  - apply Hplain; cbn; discriminate.
Defined.
